(** * FIFA World Cup dashboard (fifa.py): data loading and aggregation

    A shallow embedding of [src/fifa.py].  The program is a Streamlit script
    over three pandas tables.  The pandas operations it calls are modelled
    as functions on an explicit [DataFrame] value, the DataFrame objects
    themselves live in a store of references (so that the in-place column
    assignments of the script are visible as store updates), and the
    Streamlit / Plotly calls are recorded as an event log.

    Numbers: the numeric CSV columns of the data model are integers; they
    are modelled as [Z].  pandas holds them as int64 or (when the column has
    missing values) as float64.  int64 sums wrap around at 2^63 and float64
    holds integers exactly up to 2^53 only, so the arithmetic of pandas
    agrees with [Z] as long as the magnitudes summed stay within 2^53
    ([in_exact_range] below), which goal counts and attendances do. *)

From Stdlib Require Import ZArith String Ascii List Lia Sorted Permutation.
From stdpp Require Import base option list sorting strings.
Import ListNotations.
Local Open Scope string_scope.
Local Open Scope Z_scope.
Local Open Scope list_scope.

(** ** Exceptions and results *)

(** The Python exceptions the script can meet.  [Unsupported] stands for
    the operand combinations of a pandas operation that are left out of
    the model; none of them arises on tables of the three CSV schemas. *)
Inductive exn :=
| KeyError (key : string)
| AttributeError (msg : string)
| ValueError (msg : string)
| TypeError (msg : string)
| OSError (msg : string)
| Unsupported (what : string).

Definition exn_str (e : exn) : string :=
  match e with
  | KeyError k => k
  | AttributeError m | ValueError m | TypeError m | OSError m => m
  | Unsupported w => w
  end.

Inductive result (A : Type) :=
| Ok (a : A)
| Raise (e : exn).
Arguments Ok {A} a.
Arguments Raise {A} e.

Definition rbind {A B} (r : result A) (f : A → result B) : result B :=
  match r with
  | Ok a => f a
  | Raise e => Raise e
  end.

(** ** Cells, columns, frames *)

(** A cell of a table: a missing value, a Python [str] or a number. *)
Inductive cell :=
| NaN
| Str (s : string)
| Num (z : Z).

#[global] Instance cell_eq_dec : EqDecision cell.
Proof. solve_decision. Defined.

(** [==] on two cells: NaN is equal to nothing, itself included. *)
Definition cell_eqb (a b : cell) : bool :=
  match a, b with
  | Str s, Str t => String.eqb s t
  | Num x, Num y => Z.eqb x y
  | _, _ => false
  end.

Definition notna (c : cell) : bool :=
  match c with
  | NaN => false
  | _ => true
  end.

Definition cell_Z (c : cell) : Z :=
  match c with
  | Num z => z
  | _ => 0
  end.

(** The dtype of a column: [object] (Python strings and NaN) or a numeric
    dtype (int64 / float64, not distinguished here). *)
Inductive dtype :=
| object
| numeric.

(** A DataFrame: the column labels with their dtypes, and the rows, each
    with its index label and one cell per column. *)
Record DataFrame := mkDataFrame {
  columns : list (string * dtype);
  rows : list (nat * list cell)
}.

(** A Series taken out of a frame: dtype and (index label, value) pairs. *)
Record Series := mkSeries {
  dt : dtype;
  items : list (nat * cell)
}.

(** The result of [value_counts] / [groupby(...).nunique()]: a Series
    indexed by the distinct values, holding counts. *)
Definition CountSeries := list (cell * nat).

(** A fresh range index: the elements of [l] labelled 0, 1, 2, ... *)
Fixpoint enumerate_from {A} (n : nat) (l : list A) : list (nat * A) :=
  match l with
  | [] => []
  | x :: l' => (n, x) :: enumerate_from (S n) l'
  end.

Definition enumerate {A} (l : list A) : list (nat * A) := enumerate_from 0 l.

Definition cell_at (k : nat) (r : list cell) : cell := default NaN (r !! k).

Fixpoint column_index (name : string) (cols : list (string * dtype)) : option (nat * dtype) :=
  match cols with
  | [] => None
  | (n, d) :: cols' =>
      if String.eqb name n then Some (0%nat, d)
      else match column_index name cols' with
           | Some (k, d') => Some (S k, d')
           | None => None
           end
  end.

(** [len(df)] *)
Definition len (df : DataFrame) : nat := length (rows df).

(** [df[name]] *)
Definition getitem (df : DataFrame) (name : string) : result Series :=
  match column_index name (columns df) with
  | Some (k, d) => Ok (mkSeries d ((λ ir, (ir.1, cell_at k ir.2)) <$> rows df))
  | None => Raise (KeyError name)
  end.

Definition labels (s : Series) : list nat := fst <$> items s.
Definition values (s : Series) : list cell := snd <$> items s.

(** [Series.sum()]: missing values are skipped.  Only numeric columns are
    summed by the script; the sum of an object column is left out.  The sum
    is the exact one, which is what pandas computes on numbers within
    [in_exact_range]. *)
Definition Series_sum (s : Series) : result Z :=
  match dt s with
  | numeric => Ok (foldr (λ c acc, cell_Z c + acc) 0 (values s))
  | object => Raise (Unsupported "sum of an object column")
  end.

(** [df.tail(n)]: the last [n] rows.  pandas may return a view on the data
    of [df]; the script only reads the result. *)
Definition tail (n : nat) (df : DataFrame) : DataFrame :=
  mkDataFrame (columns df) (drop (length (rows df) - n) (rows df)).

(** [df.head(n)]: the first [n] rows. *)
Definition head (n : nat) (df : DataFrame) : DataFrame :=
  mkDataFrame (columns df) (take n (rows df)).

(** [df[[name1, ..., namek]]]: a new frame with the listed columns. *)
Fixpoint column_indices (names : list string) (cols : list (string * dtype))
  : result (list (string * (nat * dtype))) :=
  match names with
  | [] => Ok []
  | n :: names' =>
      match column_index n cols with
      | None => Raise (KeyError n)
      | Some kd => rbind (column_indices names' cols) (λ rest, Ok ((n, kd) :: rest))
      end
  end.

Definition getitems (df : DataFrame) (names : list string) : result DataFrame :=
  rbind (column_indices names (columns df)) (λ sel,
    Ok (mkDataFrame ((λ x, (x.1, x.2.2)) <$> sel)
          ((λ ir, (ir.1, (λ x, cell_at x.2.1 ir.2) <$> sel)) <$> rows df))).

(** [df.copy()] builds a new object with the same content. *)
Definition copy (df : DataFrame) : DataFrame := mkDataFrame (columns df) (rows df).

(** *** Strings *)

Definition dot : ascii := "."%char.

(** [str.replace('.', '')] on one Python string. *)
Fixpoint remove_dots (s : string) : string :=
  match s with
  | EmptyString => EmptyString
  | String c s' => if Ascii.eqb c dot then remove_dots s' else String c (remove_dots s')
  end.

Definition digit_of (c : ascii) : option Z :=
  let n := Z.of_nat (nat_of_ascii c) in
  if (48 <=? n) && (n <=? 57) then Some (n - 48) else None.

Fixpoint digits_value (acc : Z) (s : string) : option Z :=
  match s with
  | EmptyString => Some acc
  | String c s' =>
      match digit_of c with
      | Some d => digits_value (10 * acc + d) s'
      | None => None
      end
  end.

(** [float(s)] on the strings of the data model: a non-empty run of decimal
    digits denotes its value, which float64 holds exactly up to 2^53.
    Python's [float] also reads signs, exponents, blanks, [inf] and [nan];
    attendance strings of that shape are outside the data model and count
    as unparseable here.  Statements on converted values are made for the
    fields of [parseable], statements on failure for those of
    [unreadable], on which the model and Python agree. *)
Definition float_of_string (s : string) : option Z :=
  match s with
  | EmptyString => None
  | _ => digits_value 0 s
  end.

(** [str.replace('.', '')] on one element of a column: an element that is
    not a string becomes NaN. *)
Definition replace_dot (c : cell) : cell :=
  match c with
  | Str v => Str (remove_dots v)
  | _ => NaN
  end.

(** [Series.str.replace('.', '')]: the [.str] accessor exists only on
    string-valued (object) columns and raises [AttributeError] otherwise. *)
Definition str_replace_dot (s : Series) : result Series :=
  match dt s with
  | numeric => Raise (AttributeError "Can only use .str accessor with string values!")
  | object => Ok (mkSeries object ((λ ic, (ic.1, replace_dot ic.2)) <$> items s))
  end.

Fixpoint astype_float_cells (l : list (nat * cell)) : result (list (nat * cell)) :=
  match l with
  | [] => Ok []
  | (i, c) :: l' =>
      match c with
      | NaN => rbind (astype_float_cells l') (λ r, Ok ((i, NaN) :: r))
      | Num z => rbind (astype_float_cells l') (λ r, Ok ((i, Num z) :: r))
      | Str v =>
          match float_of_string v with
          | Some z => rbind (astype_float_cells l') (λ r, Ok ((i, Num z) :: r))
          | None => Raise (ValueError "could not convert string to float")
          end
      end
  end.

(** [Series.astype(float)] *)
Definition astype_float (s : Series) : result Series :=
  rbind (astype_float_cells (items s)) (λ l, Ok (mkSeries numeric l)).

(** The expression [X['Attendance'].str.replace('.', '').astype(float)] of
    lines 119 and 154, applied to the Series [X['Attendance']]. *)
Definition normalize_attendance (s : Series) : result Series :=
  rbind (str_replace_dot s) astype_float.

(** *** Column assignment *)

Definition frame_labels (df : DataFrame) : list nat := fst <$> rows df.

Definition series_lookup (s : Series) (i : nat) : cell :=
  match find (λ ic, Nat.eqb ic.1 i) (items s) with
  | Some ic => ic.2
  | None => NaN
  end.

(** The values of [s] laid out along the index of [df]: taken as they are
    when both indexes are equal, re-indexed by label otherwise. *)
Definition aligned (df : DataFrame) (s : Series) : list cell :=
  if decide (labels s = frame_labels df) then values s
  else series_lookup s <$> frame_labels df.

(** [df[name] = s]: replaces the column when it exists (in place in the
    column order), appends it otherwise.  The result is the new content of
    the object [df]. *)
Definition setitem (df : DataFrame) (name : string) (s : Series) : DataFrame :=
  match column_index name (columns df) with
  | Some (k, _) =>
      mkDataFrame (<[k := (name, dt s)]> (columns df))
        (zip_with (λ ir c, (ir.1, <[k := c]> ir.2)) (rows df) (aligned df s))
  | None =>
      mkDataFrame (columns df ++ [(name, dt s)])
        (zip_with (λ ir c, (ir.1, ir.2 ++ [c])) (rows df) (aligned df s))
  end.

(** [df.columns = names] *)
Definition set_columns (df : DataFrame) (names : list string) : result DataFrame :=
  if decide (length names = length (columns df)) then
    Ok (mkDataFrame (zip names (snd <$> columns df)) (rows df))
  else Raise (ValueError "Length mismatch").

(** *** Sorting

    [sort_desc key] is a stable sort by decreasing key: elements with equal
    keys keep the order they had.  This is the merge sort by which
    [nlargest(keep='first')] selects among more rows than it returns. *)
Section Sorting.
Context {A : Type} (key : A → Z).

Fixpoint insert_desc (x : A) (l : list A) : list A :=
  match l with
  | [] => [x]
  | y :: l' => if key x <? key y then y :: insert_desc x l' else x :: l
  end.

Definition sort_desc (l : list A) : list A := foldr insert_desc [] l.
End Sorting.

(** [sort_values] sorts with numpy's quicksort unless told otherwise, and
    [value_counts] orders its counts with [sort_values].  That sort is not
    stable: the order in which it leaves elements of equal key is not
    documented and depends on the versions of pandas and numpy.  The model
    takes the sort as a parameter of which only the contract is known: the
    result is the argument rearranged by non-increasing key, and the
    rearrangement is decided by the keys alone (pandas sorts the array of
    keys and takes the rows by position). *)
Class Quicksort := {
  quicksort_desc : ∀ {A : Type}, (A → Z) → list A → list A;
  quicksort_desc_perm : ∀ {A : Type} (key : A → Z) (l : list A),
    quicksort_desc key l ≡ₚ l;
  quicksort_desc_sorted : ∀ {A : Type} (key : A → Z) (l : list A),
    StronglySorted (λ a b, key b ≤ key a) (quicksort_desc key l);
  quicksort_desc_fmap : ∀ {A B : Type} (f : A → B) (key : B → Z) (l : list A),
    quicksort_desc key (f <$> l) = f <$> quicksort_desc (λ a, key (f a)) l
}.

(** Two sorts that meet the contract: the stable one, which leaves equal
    keys in the order they came in, and the one that leaves them in the
    reverse of that order (a stable ascending sort read backwards). *)
Definition stable_order : Quicksort.
Proof.
  assert (∀ A (key : A → Z) x k, insert_desc key x k ≡ₚ x :: k) as Hins.
  { intros A key x k. induction k as [|y k IH]; [done|]. cbn. case_match; [|done].
    by rewrite IH, Permutation_swap. }
  refine {| quicksort_desc := λ A key l, sort_desc key l |}.
  - intros A key l. induction l as [|x l IH]; [done|]. cbn. by rewrite Hins, IH.
  - intros A key l. induction l as [|x l IH]; cbn; [constructor|].
    change (foldr (insert_desc key) [] l) with (sort_desc key l).
    revert IH. generalize (sort_desc key l). intros k Hk.
    induction Hk as [|y k Hk IH Hy]; cbn; [repeat constructor|].
    destruct (key x <? key y) eqn:E.
    + apply Z.ltb_lt in E. constructor; [done|]. rewrite Hins. constructor; [lia|done].
    + apply Z.ltb_ge in E. constructor; [by constructor|].
      constructor; [done|]. eapply Forall_impl; [exact Hy|]. cbn. intros; lia.
  - intros A B f key l. induction l as [|a l IH]; [done|]. cbn.
    change (foldr (insert_desc key) [] (f <$> l)) with (sort_desc key (f <$> l)).
    change (foldr (insert_desc (λ a0, key (f a0))) [] l) with (sort_desc (λ a0, key (f a0)) l).
    rewrite IH. generalize (sort_desc (λ a0, key (f a0)) l). intros k.
    induction k as [|b k IHk]; [done|]. cbn. case_match; cbn; [by rewrite IHk|done].
Defined.

Definition reverse_order : Quicksort.
Proof.
  refine {| quicksort_desc := λ A key l,
              quicksort_desc (Quicksort := stable_order) key (reverse l) |}.
  - intros A key l. by rewrite quicksort_desc_perm, reverse_Permutation.
  - intros A key l. apply quicksort_desc_sorted.
  - intros A B f key l. by rewrite <- fmap_reverse, quicksort_desc_fmap.
Defined.

(** A reference to a DataFrame object in the store. *)
Definition ref := nat.
Bind Scope nat_scope with ref.

Section Script.
Context {sorter : Quicksort}.

(** Order of group keys in [groupby(sort=True)]: numbers before strings,
    strings by code point. *)
Definition cell_leb (a b : cell) : bool :=
  match a, b with
  | Num x, Num y => x <=? y
  | Num _, _ => true
  | Str s, Str t => String.leb s t
  | Str _, Num _ => false
  | Str _, NaN => true
  | NaN, NaN => true
  | NaN, _ => false
  end.

Fixpoint insert_key (x : cell) (l : list cell) : list cell :=
  match l with
  | [] => [x]
  | y :: l' => if cell_leb x y then x :: l else y :: insert_key x l'
  end.

Definition sort_keys (l : list cell) : list cell := foldr insert_key [] l.

(** *** Counting *)

(** One step of hash-table counting: the count of [k] goes up by one; a
    new key is added after the keys seen so far. *)
Fixpoint bump (k : cell) (acc : CountSeries) : CountSeries :=
  match acc with
  | [] => [(k, 1%nat)]
  | (k', c) :: acc' => if cell_eqb k k' then (k', S c) :: acc' else (k', c) :: bump k acc'
  end.

Definition count_values (l : list cell) : CountSeries :=
  fold_left (λ acc v, bump v acc) (filter notna l) [].

Definition count_key (e : cell * nat) : Z := Z.of_nat e.2.

(** [Series.value_counts()]: occurrences of each non-missing value, by
    decreasing count. *)
Definition value_counts (s : Series) : CountSeries :=
  quicksort_desc count_key (count_values (values s)).

(** [Series.sort_values(ascending=False)] on a Series of counts. *)
Definition sort_values_desc (cs : CountSeries) : CountSeries := quicksort_desc count_key cs.

(** [Series.head(n)] on a Series of counts. *)
Definition Series_head (n : nat) (cs : CountSeries) : CountSeries := take n cs.

(** [Series.value_counts().reset_index()]: a frame with a fresh range
    index, the counted values in a column named after the Series and the
    counts in a column named [count]. *)
Definition reset_index (name : string) (d : dtype) (cs : CountSeries) : DataFrame :=
  mkDataFrame [(name, d); ("count", numeric)]
    ((λ ie, (ie.1, [ie.2.1; Num (Z.of_nat ie.2.2)])) <$> enumerate cs).

(** The distinct values of a list, in order of first occurrence. *)
Fixpoint unique (l : list cell) : list cell :=
  match l with
  | [] => []
  | x :: l' => x :: filter (λ y, negb (cell_eqb x y)) (unique l')
  end.

(** [df.groupby(key)[val].nunique()]: per non-missing key, in key order,
    the number of distinct non-missing values of [val]. *)
Definition groupby_nunique (key val : string) (df : DataFrame) : result CountSeries :=
  match column_index key (columns df), column_index val (columns df) with
  | None, _ => Raise (KeyError key)
  | _, None => Raise (KeyError val)
  | Some (kk, _), Some (kv, _) =>
      let keys := sort_keys (unique (filter notna ((λ ir, cell_at kk ir.2) <$> rows df))) in
      Ok ((λ g, (g, length (unique (filter notna
                 ((λ ir, cell_at kv ir.2)
                    <$> filter (λ ir, cell_eqb g (cell_at kk ir.2)) (rows df)))))) <$> keys)
  end.

(** *** Row selection *)

(** [df.dropna(subset=names)]: the rows with no missing value in the
    listed columns, as a new frame; index labels are kept. *)
Definition dropna (subset : list string) (df : DataFrame) : result DataFrame :=
  rbind (column_indices subset (columns df)) (λ sel,
    Ok (mkDataFrame (columns df)
          (filter (λ ir, forallb (λ x, notna (cell_at x.2.1 ir.2)) sel) (rows df)))).

Definition add_cells (x y : cell) : cell :=
  match x, y with
  | Num a, Num b => Num (a + b)
  | _, _ => NaN
  end.

(** [a + b] for two numeric Series over the same index; a missing operand
    gives a missing result. *)
Definition Series_add (a b : Series) : result Series :=
  match dt a, dt b with
  | numeric, numeric =>
      if decide (labels a = labels b) then
        Ok (mkSeries numeric (zip_with (λ x y, (x.1, add_cells x.2 y.2)) (items a) (items b)))
      else Raise (Unsupported "addition of Series with different indexes")
  | _, _ => Raise (Unsupported "addition of object columns")
  end.

(** [a == b] for two Series: element-wise, NaN equal to nothing; pandas
    refuses Series that are not identically labelled. *)
Definition Series_eq (a b : Series) : result (list (nat * bool)) :=
  if decide (labels a = labels b) then
    Ok (zip_with (λ x y, (x.1, cell_eqb x.2 y.2)) (items a) (items b))
  else Raise (ValueError "Can only compare identically-labeled Series objects").

(** [df[mask]] for a boolean Series over the index of [df]. *)
Definition getitem_mask (df : DataFrame) (mask : list (nat * bool)) : result DataFrame :=
  if decide (fst <$> mask = frame_labels df) then
    Ok (mkDataFrame (columns df)
          (fst <$> filter (λ rb : (nat * list cell) * (nat * bool), Is_true rb.2.2)
                     (zip (rows df) mask)))
  else Raise (Unsupported "boolean indexer over a different index").

(** [df.nlargest(n, name)] with the default [keep='first']: the first [n]
    rows by decreasing value of the column, rows with a missing value last.
    On a frame of more than [n] rows pandas selects with a stable sort, so
    that rows with equal values come in their original order.  On a frame
    of at most [n] rows pandas 2 returns [sort_values(ascending=False)]
    instead, and the order among equal values is that of [quicksort_desc]. *)
Definition nlargest (n : nat) (name : string) (df : DataFrame) : result DataFrame :=
  match column_index name (columns df) with
  | None => Raise (KeyError name)
  | Some (_, object) => Raise (TypeError "Column has dtype object, cannot use method 'nlargest'")
  | Some (k, numeric) =>
      let key := λ ir : nat * list cell, cell_Z (cell_at k ir.2) in
      let present := filter (λ ir, notna (cell_at k ir.2)) (rows df) in
      let missing := filter (λ ir, negb (notna (cell_at k ir.2))) (rows df) in
      let sorted :=
        if decide (length (rows df) ≤ n)%nat then quicksort_desc key present
        else sort_desc key present in
      Ok (mkDataFrame (columns df) (take n (sorted ++ missing)))
  end.

(** [sep.join(l)]: every element must be a [str]. *)
Fixpoint str_join (sep : string) (l : list cell) : result string :=
  match l with
  | [] => Ok ""
  | [Str s] => Ok s
  | Str s :: l' => rbind (str_join sep l') (λ r, Ok (String.append s (String.append sep r)))
  | _ :: _ => Raise (TypeError "sequence item: expected str instance")
  end.

(** ** The store of DataFrame objects and the rendering log *)


Inductive plot_data :=
| of_frame (data : DataFrame) (x y : string)
| of_series (data : CountSeries).

(** Plotly figures, with the data handed over at the call. *)
Inductive figure :=
| px_bar (data : plot_data) (title : string)
| px_scatter (data : DataFrame) (x y : string) (title : string)
| px_line (data : DataFrame) (x y : string) (title : string)
| px_histogram (data : DataFrame) (x : string) (nbins : nat) (title : string)
| go_Pie (labels : list string) (vals : list Z) (title : string).

(** Streamlit calls, with their text given without markup and emoji.
    [st_metric v l] is the [st.markdown] call of a metric card with value
    [v] and label [l]; [st_write_hosts n s] is the [st.write] call of line
    147 with the count and the joined names.  Layout calls ([st.columns],
    figure styling) render nothing of their own and are left out. *)
Inductive event :=
| st_markdown (body : string)
| st_metric (value : Z) (label : string)
| st_error (msg : string)
| st_header (text : string)
| st_subheader (text : string)
| st_sidebar_title (text : string)
| st_sidebar_radio (label : string) (options : list string)
| st_write_hosts (n : nat) (names : string)
| st_dataframe (data : DataFrame)
| st_dataframe_series (data : CountSeries)
| st_plotly_chart (fig : figure).

Record state := mkState {
  heap : list DataFrame;
  log : list event
}.

(** Computations over the store that may raise. *)
Definition M (A : Type) : Type := state → result A * state.

Definition ret {A} (a : A) : M A := λ σ, (Ok a, σ).

Definition bind {A B} (m : M A) (f : A → M B) : M B :=
  λ σ, match m σ with
       | (Ok a, σ') => f a σ'
       | (Raise e, σ') => (Raise e, σ')
       end.

Definition raise {A} (e : exn) : M A := λ σ, (Raise e, σ).

Definition lift {A} (r : result A) : M A := λ σ, (r, σ).

Notation "'do' x <- m ; k" := (bind m (λ x, k))
  (at level 10, x name, m at level 100, k at level 200).
Notation "'run' m ; k" := (bind m (λ _, k))
  (at level 10, m at level 100, k at level 200).

(** [try: m except Exception as e: h e] *)
Definition try_except {A} (m : M A) (h : exn → M A) : M A :=
  λ σ, match m σ with
       | (Ok a, σ') => (Ok a, σ')
       | (Raise e, σ') => h e σ'
       end.

(** A new DataFrame object. *)
Definition alloc (df : DataFrame) : M ref :=
  λ σ, (Ok (length (heap σ)), mkState (heap σ ++ [df]) (log σ)).

(** The current content of an object. *)
Definition deref (r : ref) : M DataFrame :=
  λ σ, match heap σ !! r with
       | Some df => (Ok df, σ)
       | None => (Raise (Unsupported "dangling reference"), σ)
       end.

(** In-place update of an object. *)
Definition assign (r : ref) (df : DataFrame) : M unit :=
  λ σ, (Ok tt, mkState (<[r := df]> (heap σ)) (log σ)).

Definition emit (e : event) : M unit :=
  λ σ, (Ok tt, mkState (heap σ) (log σ ++ [e])).

(** Operations of the script on references. *)

Definition df_getitem (r : ref) (name : string) : M Series :=
  do df <- deref r; lift (getitem df name).

Definition df_setitem (r : ref) (name : string) (s : Series) : M unit :=
  do df <- deref r; assign r (setitem df name s).

Definition df_set_columns (r : ref) (names : list string) : M unit :=
  do df <- deref r; do df' <- lift (set_columns df names); assign r df'.

Definition df_len (r : ref) : M nat :=
  do df <- deref r; ret (len df).

(** A frame-to-frame operation: the result is a new object. *)
Definition df_new (f : DataFrame → result DataFrame) (r : ref) : M ref :=
  do df <- deref r; do df' <- lift (f df); alloc df'.


(** Plotly Express checks that the columns a figure refers to exist. *)
Fixpoint px_columns (df : DataFrame) (names : list string) : result unit :=
  match names with
  | [] => Ok tt
  | n :: names' =>
      match column_index n (columns df) with
      | Some _ => px_columns df names'
      | None => Raise (ValueError "Value of argument is not the name of a column")
      end
  end.

(** [st.plotly_chart(px.f(df, ...))] for a figure over the frame [r]. *)
Definition plot_frame (r : ref) (names : list string) (fig : DataFrame → figure) : M unit :=
  do df <- deref r;
  run lift (px_columns df names);
  emit (st_plotly_chart (fig df)).

(** Plotly validates the marker sizes of a scatter plot when it builds the
    trace: a size that is missing or negative is refused with
    [ValueError]. *)
Definition valid_size (c : cell) : bool :=
  match c with
  | Num z => 0 <=? z
  | _ => false
  end.

Definition px_sizes (df : DataFrame) (size : string) : result unit :=
  rbind (getitem df size) (λ s,
    if forallb valid_size (values s) then Ok tt
    else Raise (ValueError "Invalid element(s) received for the 'size' property of scatter.marker")).

(** [st.plotly_chart(px.scatter(df, ..., size=name))] for a scatter plot
    whose marker sizes are the column [size] of the frame [r]. *)
Definition plot_sized (r : ref) (names : list string) (size : string)
    (fig : DataFrame → figure) : M unit :=
  do df <- deref r;
  run lift (px_columns df names);
  run lift (px_sizes df size);
  emit (st_plotly_chart (fig df)).

(** [st.plotly_chart(px.bar(s, x=s.index, y=s.values, ...))] for a Series
    of counts [s].  Plotly Express takes an empty [x] and an empty [y] for
    two lists of column names and refuses the call: the chart of an empty
    Series raises [ValueError]. *)
Definition plot_series (s : CountSeries) (title : string) : M unit :=
  match s with
  | [] => raise (ValueError "Cannot accept list of column references or list of columns for both `x` and `y`.")
  | _ :: _ => emit (st_plotly_chart (px_bar (of_series s) title))
  end.

(** ** The script *)

(** [pd.read_csv(path)]: [fs] gives, for each path, the table the file
    parses to, or the exception raised for a missing, unreadable or
    malformed file. *)
Definition pd_read_csv (fs : string → result DataFrame) (path : string) : M ref :=
  do df <- lift (fs path); alloc df.

(** [load_data], lines 37-47 (one run of the function; the Streamlit cache
    around it only saves re-reading). *)
Definition load_data (fs : string → result DataFrame)
  : M (option ref * option ref * option ref) :=
  try_except
    (do world_cups <- pd_read_csv fs "WorldCups.csv";
     do matches <- pd_read_csv fs "WorldCupMatches.csv";
     do players <- pd_read_csv fs "WorldCupPlayers.csv";
     ret (Some world_cups, Some matches, Some players))
    (λ e,
     run emit (st_error (String.append "Error loading data: " (exn_str e)));
     ret (None, None, None)).

(** [show_overview], lines 76-120. *)
Definition show_overview (world_cups matches players : ref) : M unit :=
  run emit (st_header "World Cup Overview");
  do n <- df_len world_cups;
  run emit (st_metric (Z.of_nat n) "Tournaments");
  do goals <- df_getitem world_cups "GoalsScored";
  do total_goals <- lift (Series_sum goals);
  run emit (st_metric total_goals "Total Goals");
  do played <- df_getitem world_cups "MatchesPlayed";
  do total_matches <- lift (Series_sum played);
  run emit (st_metric total_matches "Total Matches");
  do teams <- df_getitem world_cups "QualifiedTeams";
  do total_teams <- lift (Series_sum teams);
  run emit (st_metric total_teams "Teams Participated");
  run emit (st_subheader "Recent World Cup Tournaments");
  do last5 <- df_new (λ df, Ok (tail 5 df)) world_cups;
  do recent_cups <- df_new (λ df, getitems df
      ["Year"; "Country"; "Winner"; "Runners-Up"; "GoalsScored"; "Attendance"]) last5;
  do attendance <- df_getitem recent_cups "Attendance";
  do normalized <- lift (normalize_attendance attendance);
  run df_setitem recent_cups "Attendance" normalized;
  do shown <- deref recent_cups;
  emit (st_dataframe shown).

(** [show_winners], lines 122-147. *)
Definition show_winners (world_cups : ref) : M unit :=
  run emit (st_header "World Cup Winners");
  do winner <- df_getitem world_cups "Winner";
  do winner_counts <- alloc (reset_index "Winner" (dt winner) (value_counts winner));
  run df_set_columns winner_counts ["Country"; "Wins"];
  do top10 <- df_new (λ df, Ok (head 10 df)) winner_counts;
  run plot_frame top10 ["Country"; "Wins"]
        (λ df, px_bar (of_frame df "Country" "Wins")
                 "Most Successful Countries in World Cup History");
  run emit (st_subheader "Winners Timeline");
  run plot_frame world_cups ["Year"; "Winner"]
        (λ df, px_scatter df "Year" "Winner" "World Cup Winners Over Time");
  run emit (st_subheader "Host Countries Performance");
  do country <- df_getitem world_cups "Country";
  do winner' <- df_getitem world_cups "Winner";
  do mask <- lift (Series_eq country winner');
  do host_winners <- df_new (λ df, getitem_mask df mask) world_cups;
  do n <- df_len host_winners;
  do hosts <- df_getitem host_winners "Country";
  do names <- lift (str_join ", " (values hosts));
  emit (st_write_hosts n names).

(** [show_goals_attendance], lines 149-181. *)
Definition show_goals_attendance (world_cups matches : ref) : M unit :=
  run emit (st_header "Goals & Attendance Trends");
  do world_cups_clean <- df_new (λ df, Ok (copy df)) world_cups;
  do attendance <- df_getitem world_cups_clean "Attendance";
  do normalized <- lift (normalize_attendance attendance);
  run df_setitem world_cups_clean "Attendance" normalized;
  run plot_frame world_cups ["Year"; "GoalsScored"]
        (λ df, px_line df "Year" "GoalsScored" "Goals Scored Per Tournament");
  run plot_frame world_cups_clean ["Year"; "Attendance"]
        (λ df, px_line df "Year" "Attendance" "Tournament Attendance Over Time");
  run emit (st_subheader "Goals vs Attendance Correlation");
  plot_sized world_cups_clean
    ["GoalsScored"; "Attendance"; "Year"; "MatchesPlayed"; "Country"; "Winner"]
    "MatchesPlayed"
    (λ df, px_scatter df "GoalsScored" "Attendance"
             "Relationship Between Goals and Attendance").

(** [show_match_stats], lines 183-224. *)
Definition show_match_stats (matches : ref) : M unit :=
  run emit (st_header "Match Statistics");
  do matches_clean <-
    df_new (dropna ["Home Team Goals"; "Away Team Goals"]) matches;
  do home <- df_getitem matches_clean "Home Team Goals";
  do away <- df_getitem matches_clean "Away Team Goals";
  do total <- lift (Series_add home away);
  run df_setitem matches_clean "Total Goals" total;
  do largest <- df_new (nlargest 10 "Total Goals") matches_clean;
  do highest_scoring <- df_new (λ df, getitems df
      ["Year"; "Home Team Name"; "Home Team Goals";
       "Away Team Name"; "Away Team Goals"; "Total Goals"]) largest;
  run emit (st_subheader "Highest Scoring Matches");
  do shown <- deref highest_scoring;
  run emit (st_dataframe shown);
  run plot_frame matches_clean ["Total Goals"]
        (λ df, px_histogram df "Total Goals" 20 "Distribution of Total Goals Per Match");
  do home' <- df_getitem matches_clean "Home Team Goals";
  do home_goals <- lift (Series_sum home');
  do away' <- df_getitem matches_clean "Away Team Goals";
  do away_goals <- lift (Series_sum away');
  run emit (st_plotly_chart
              (go_Pie ["Home Team Goals"; "Away Team Goals"] [home_goals; away_goals]
                 "Home vs Away Goals Distribution"));
  run emit (st_subheader "Matches by Tournament Stage");
  do stage <- df_getitem matches_clean "Stage";
  plot_series (Series_head 10 (value_counts stage)) "Number of Matches by Stage".

(** [show_player_analysis], lines 226-250. *)
Definition show_player_analysis (players matches : ref) : M unit :=
  run emit (st_header "Player Analysis");
  do players_clean <- df_new (dropna ["Player Name"]) players;
  do position <- df_getitem players_clean "Position";
  run plot_series (Series_head 10 (value_counts position)) "Most Common Player Positions";
  do clean <- deref players_clean;
  do per_team <- lift (groupby_nunique "Team Initials" "Player Name" clean);
  run plot_series (Series_head 20 (sort_values_desc per_team))
        "Number of Players by Team (Top 20)";
  run emit (st_subheader "Famous Coaches");
  do coach <- df_getitem players_clean "Coach Name";
  emit (st_dataframe_series (Series_head 10 (value_counts coach))).

(** The sections offered by the sidebar. *)
Definition sections : list string :=
  ["Overview"; "World Cup Winners"; "Goals & Attendance";
   "Match Statistics"; "Player Analysis"].

(** The [if]/[elif] chain of lines 65-74. *)
Definition show_page (page : string) (world_cups matches players : ref) : M unit :=
  if String.eqb page "Overview" then show_overview world_cups matches players
  else if String.eqb page "World Cup Winners" then show_winners world_cups
  else if String.eqb page "Goals & Attendance" then show_goals_attendance world_cups matches
  else if String.eqb page "Match Statistics" then show_match_stats matches
  else if String.eqb page "Player Analysis" then show_player_analysis players matches
  else ret tt.

(** [main], lines 49-74; [page] is what the sidebar radio returns.  The
    page configuration and style sheet of lines 8-35 render no data and are
    left out. *)
Definition main (fs : string → result DataFrame) (page : string) : M unit :=
  run emit (st_markdown "FIFA World Cup Dashboard");
  do loaded <- load_data fs;
  match loaded with
  | (Some world_cups, Some matches, Some players) =>
      run emit (st_sidebar_title "Navigation");
      run emit (st_sidebar_radio "Choose a section:" sections);
      show_page page world_cups matches players
  | _ =>
      emit (st_error "Failed to load data. Please check if CSV files are present.")
  end.

(** ** The three tables of the data model

    The rows of the three CSV files, with the columns the script reads.
    Any field can be missing in a CSV file; a missing field is [None]. *)

Record Tournament := mkTournament {
  Year : option Z;
  Country : option string;
  Winner : option string;
  RunnersUp : option string;
  GoalsScored : option Z;
  QualifiedTeams : option Z;
  MatchesPlayed : option Z;
  Attendance : option string
}.

Record Match := mkMatch {
  MatchYear : option Z;
  Stage : option string;
  HomeTeamName : option string;
  HomeTeamGoals : option Z;
  AwayTeamGoals : option Z;
  AwayTeamName : option string
}.

Record PlayerAppearance := mkPlayerAppearance {
  TeamInitials : option string;
  CoachName : option string;
  PlayerName : option string;
  Position : option string
}.

Definition num_cell (o : option Z) : cell := from_option Num NaN o.
Definition str_cell (o : option string) : cell := from_option Str NaN o.

(** A frame whose rows are given by labelled records. *)
Definition table {A} (cols : list (string * dtype)) (cells : A → list cell)
    (l : list (nat * A)) : DataFrame :=
  mkDataFrame cols ((λ ir, (ir.1, cells ir.2)) <$> l).

(** A Series whose values are given by labelled records. *)
Definition column_of {A} (d : dtype) (f : A → cell) (l : list (nat * A)) : Series :=
  mkSeries d ((λ ir, (ir.1, f ir.2)) <$> l).

Definition tournament_columns : list (string * dtype) :=
  [("Year", numeric); ("Country", object); ("Winner", object); ("Runners-Up", object);
   ("GoalsScored", numeric); ("QualifiedTeams", numeric); ("MatchesPlayed", numeric);
   ("Attendance", object)].

Definition tournament_cells (t : Tournament) : list cell :=
  [num_cell (Year t); str_cell (Country t); str_cell (Winner t); str_cell (RunnersUp t);
   num_cell (GoalsScored t); num_cell (QualifiedTeams t); num_cell (MatchesPlayed t);
   str_cell (Attendance t)].

Definition match_columns : list (string * dtype) :=
  [("Year", numeric); ("Stage", object); ("Home Team Name", object);
   ("Home Team Goals", numeric); ("Away Team Goals", numeric); ("Away Team Name", object)].

Definition match_cells (m : Match) : list cell :=
  [num_cell (MatchYear m); str_cell (Stage m); str_cell (HomeTeamName m);
   num_cell (HomeTeamGoals m); num_cell (AwayTeamGoals m); str_cell (AwayTeamName m)].

Definition player_columns : list (string * dtype) :=
  [("Team Initials", object); ("Coach Name", object); ("Player Name", object);
   ("Position", object)].

Definition player_cells (p : PlayerAppearance) : list cell :=
  [str_cell (TeamInitials p); str_cell (CoachName p); str_cell (PlayerName p);
   str_cell (Position p)].

(** What [pd.read_csv] returns for files with the given rows: the rows
    under a fresh range index, text columns with dtype [object] and number
    columns with a numeric dtype.  (A text column that is empty in every row
    of a file is read as a numeric column of NaN; no statement below depends
    on the dtype of such a column.) *)
Definition WorldCups (ts : list Tournament) : DataFrame :=
  table tournament_columns tournament_cells (enumerate ts).

Definition WorldCupMatches (ms : list Match) : DataFrame :=
  table match_columns match_cells (enumerate ms).

Definition WorldCupPlayers (ps : list PlayerAppearance) : DataFrame :=
  table player_columns player_cells (enumerate ps).

(** The store after a successful [load_data]: the three tables at
    references 0, 1 and 2, nothing rendered by the views yet. *)
Definition loaded (ts : list Tournament) (ms : list Match) (ps : list PlayerAppearance)
  : state :=
  mkState [WorldCups ts; WorldCupMatches ms; WorldCupPlayers ps] [].

(** A file system holding three well-formed files. *)
Definition files (ts : list Tournament) (ms : list Match) (ps : list PlayerAppearance)
    (path : string) : result DataFrame :=
  if String.eqb path "WorldCups.csv" then Ok (WorldCups ts)
  else if String.eqb path "WorldCupMatches.csv" then Ok (WorldCupMatches ms)
  else if String.eqb path "WorldCupPlayers.csv" then Ok (WorldCupPlayers ps)
  else Raise (OSError "No such file or directory").

(** * Vocabulary of the statements *)

(** [keeps n m Q]: run from any store with at least [n] objects, [m] leaves
    the first [n] objects as they were, whether it returns or raises, and a
    returned value satisfies [Q]. *)
Definition keeps (n : nat) {A} (m : M A) (Q : A → Prop) : Prop :=
  ∀ σ, (n ≤ length (heap σ))%nat →
    take n (heap (m σ).2) = take n (heap σ) ∧
    (n ≤ length (heap (m σ).2))%nat ∧
    ∀ a, (m σ).1 = Ok a → Q a.

Definition any {A} : A → Prop := λ _, True.

(** References of objects created after the first [n]. *)
Definition fresh (n : nat) : ref → Prop := λ r, (n ≤ r)%nat.

(** The order [R] the elements came in decides between equal keys. *)
Definition before {A} (key : A → Z) (R : relation A) : relation A :=
  λ a b, key b < key a ∨ (key a = key b ∧ R a b).

Definition Zsum (l : list Z) : Z := foldr Z.add 0 l.

(** Both goal counts of a match are present. *)
Definition both_present (m : Match) : Prop :=
  is_Some (HomeTeamGoals m) ∧ is_Some (AwayTeamGoals m).

#[global] Instance both_present_dec m : Decision (both_present m).
Proof. unfold both_present. apply _. Defined.

(** The derived field of the data model: defined when both counts are. *)
Definition TotalGoals (m : Match) : option Z :=
  match HomeTeamGoals m, AwayTeamGoals m with
  | Some h, Some a => Some (h + a)
  | _, _ => None
  end.

Definition goals (m : Match) : Z := default 0 (TotalGoals m).

(** The rows of [matches_clean]: the matches with both goal counts, under
    the index labels they had in [matches]. *)
Definition clean (ms : list Match) : list (nat * Match) :=
  filter (λ im, both_present im.2) (enumerate ms).

(** The rows of [highest_scoring]: selected by the stable sort among more
    than ten rows, returned as [sort_values] leaves them otherwise. *)
Definition top (ms : list Match) : list (nat * Match) :=
  take 10 (if decide (length (clean ms) ≤ 10)%nat
           then quicksort_desc (λ im, goals im.2) (clean ms)
           else sort_desc (λ im, goals im.2) (clean ms)).

Definition scored_columns : list (string * dtype) :=
  match_columns ++ [("Total Goals", numeric)].

Definition scored_cells (m : Match) : list cell :=
  match_cells m ++ [num_cell (TotalGoals m)].

Definition highest_columns : list (string * dtype) :=
  [("Year", numeric); ("Home Team Name", object); ("Home Team Goals", numeric);
   ("Away Team Name", object); ("Away Team Goals", numeric); ("Total Goals", numeric)].

Definition highest_cells (m : Match) : list cell :=
  [num_cell (MatchYear m); str_cell (HomeTeamName m); num_cell (HomeTeamGoals m);
   str_cell (AwayTeamName m); num_cell (AwayTeamGoals m); num_cell (TotalGoals m)].

Definition home_goals (ms : list Match) : Z :=
  Zsum ((λ im, default 0 (HomeTeamGoals im.2)) <$> clean ms).

Definition away_goals (ms : list Match) : Z :=
  Zsum ((λ im, default 0 (AwayTeamGoals im.2)) <$> clean ms).

Definition stage_counts (ms : list Match) : CountSeries :=
  Series_head 10 (value_counts (column_of object (λ m, str_cell (Stage m)) (clean ms))).

(** What the bar chart of a Series of counts renders, and how the call
    returns. *)
Definition series_chart (s : CountSeries) (title : string) : list event :=
  match s with
  | [] => []
  | _ :: _ => [st_plotly_chart (px_bar (of_series s) title)]
  end.

Definition series_chart_result (s : CountSeries) : result unit :=
  match s with
  | [] => Raise (ValueError "Cannot accept list of column references or list of columns for both `x` and `y`.")
  | _ :: _ => Ok tt
  end.

(** What [show_match_stats] renders on the loaded tables. *)
Definition match_stats_log (ms : list Match) : list event :=
  [st_header "Match Statistics";
   st_subheader "Highest Scoring Matches";
   st_dataframe (table highest_columns highest_cells (top ms));
   st_plotly_chart
     (px_histogram (table scored_columns scored_cells (clean ms)) "Total Goals" 20
        "Distribution of Total Goals Per Match");
   st_plotly_chart
     (go_Pie ["Home Team Goals"; "Away Team Goals"] [home_goals ms; away_goals ms]
        "Home vs Away Goals Distribution");
   st_subheader "Matches by Tournament Stage"]
  ++ series_chart (stage_counts ms) "Number of Matches by Stage".

(** How many times [k] occurs in [l]. *)
Definition occurrences (k : cell) (l : list cell) : nat :=
  length (filter (λ v, cell_eqb k v) l).

Fixpoint get_count (k : cell) (acc : CountSeries) : nat :=
  match acc with
  | [] => 0
  | (k', c) :: acc' => if cell_eqb k k' then c else get_count k acc'
  end.

Definition total_count (cs : CountSeries) : nat := foldr (λ e n, (e.2 + n)%nat) 0%nat cs.

Definition counts_wf (cs : CountSeries) : Prop :=
  NoDup cs.*1 ∧ Forall (λ e : cell * nat, notna e.1 ∧ (0 < e.2)%nat) cs.

(** The values a histogram is drawn from: column [x] of its frame. *)
Definition histogram_input (e : event) : option (result (list cell)) :=
  match e with
  | st_plotly_chart (px_histogram df x _ _) =>
      Some (rbind (getitem df x) (λ s, Ok (values s)))
  | _ => None
  end.

Definition pie_values (e : event) : option (list Z) :=
  match e with
  | st_plotly_chart (go_Pie _ vals _) => Some vals
  | _ => None
  end.

(** The Series of counts drawn by the bar chart with the given title. *)
Definition bar_series (title : string) (e : event) : option CountSeries :=
  match e with
  | st_plotly_chart (px_bar (of_series cs) t) =>
      if String.eqb t title then Some cs else None
  | _ => None
  end.

Definition shown_frame (e : event) : option DataFrame :=
  match e with
  | st_dataframe df => Some df
  | _ => None
  end.

Definition shown_series (e : event) : option CountSeries :=
  match e with
  | st_dataframe_series cs => Some cs
  | _ => None
  end.

Definition metric (label : string) (e : event) : option Z :=
  match e with
  | st_metric v l => if String.eqb l label then Some v else None
  | _ => None
  end.

(** The reading of C1 as it is worded: the whole match table is grouped by
    stage, whatever its goal columns hold. *)
Definition MatchesByStage_entire (ms : list Match) : CountSeries :=
  Series_head 10 (value_counts (column_of object (λ m, str_cell (Stage m)) (enumerate ms))).

Definition named (p : PlayerAppearance) : Prop := is_Some (PlayerName p).

#[global] Instance named_dec p : Decision (named p).
Proof. unfold named. apply _. Defined.

(** The rows of [players_clean]. *)
Definition clean_players (ps : list PlayerAppearance) : list (nat * PlayerAppearance) :=
  filter (λ ip, named ip.2) (enumerate ps).

(** The distinct player names per team, before sorting by count. *)
Definition per_team (ps : list PlayerAppearance) : CountSeries :=
  (λ g, (g, length (unique (filter notna
           ((λ ip : nat * PlayerAppearance, str_cell (PlayerName ip.2))
              <$> filter (λ ip, cell_eqb g (str_cell (TeamInitials ip.2))) (clean_players ps))))))
    <$> sort_keys (unique (filter notna
          ((λ ip : nat * PlayerAppearance, str_cell (TeamInitials ip.2)) <$> clean_players ps))).

(** The Series of the three parts of the player analysis. *)
Definition position_counts_of (ps : list PlayerAppearance) : CountSeries :=
  Series_head 10 (value_counts
    (column_of object (λ p, str_cell (Position p)) (clean_players ps))).

Definition team_players (ps : list PlayerAppearance) : CountSeries :=
  Series_head 20 (sort_values_desc (per_team ps)).

Definition coach_counts (ps : list PlayerAppearance) : CountSeries :=
  Series_head 10 (value_counts
    (column_of object (λ p, str_cell (CoachName p)) (clean_players ps))).

(** What [show_player_analysis] renders on the loaded tables, and how it
    returns: a chart of an empty Series raises and ends the section. *)
Definition player_analysis_log (ps : list PlayerAppearance) : list event :=
  st_header "Player Analysis" ::
  match position_counts_of ps with
  | [] => []
  | _ :: _ =>
      st_plotly_chart (px_bar (of_series (position_counts_of ps))
                         "Most Common Player Positions") ::
      match team_players ps with
      | [] => []
      | _ :: _ =>
          [st_plotly_chart (px_bar (of_series (team_players ps))
                              "Number of Players by Team (Top 20)");
           st_subheader "Famous Coaches";
           st_dataframe_series (coach_counts ps)]
      end
  end.

Definition player_analysis_result (ps : list PlayerAppearance) : result unit :=
  match position_counts_of ps with
  | [] => series_chart_result []
  | _ :: _ => series_chart_result (team_players ps)
  end.

(** Raising [ValueError], whatever the message. *)
Definition raises_ValueError {A} (r : result A) : Prop :=
  ∃ msg, r = Raise (ValueError msg).

(** Some match with both goal counts has a stage. *)
Definition staged (ms : list Match) : Prop :=
  Exists (λ m, both_present m ∧ is_Some (Stage m)) ms.

#[global] Instance staged_dec ms : Decision (staged ms).
Proof. unfold staged. apply _. Defined.

(** Some row with a player name has a position, a team. *)
Definition positioned (ps : list PlayerAppearance) : Prop :=
  Exists (λ p, named p ∧ is_Some (Position p)) ps.

#[global] Instance positioned_dec ps : Decision (positioned ps).
Proof. unfold positioned. apply _. Defined.

Definition teamed (ps : list PlayerAppearance) : Prop :=
  Exists (λ p, named p ∧ is_Some (TeamInitials p)) ps.

#[global] Instance teamed_dec ps : Decision (teamed ps).
Proof. unfold teamed. apply _. Defined.

(** Numbers within which pandas computes exactly: the magnitudes of [l]
    sum to at most 2^53, so that every sum of elements of [l], in whatever
    order it is taken, is an integer that int64 holds without wrap-around
    and float64 without rounding. *)
Definition in_exact_range (l : list Z) : Prop := Zsum (Z.abs <$> l) ≤ 2 ^ 53.

(** The goal counts of a match table. *)
Definition goal_counts (ms : list Match) : list Z :=
  omap HomeTeamGoals ms ++ omap AwayTeamGoals ms.

(** The distinct names counted for one team. *)
Definition team_names (team : string) (ps : list PlayerAppearance) : list cell :=
  unique (filter notna
    ((λ ip : nat * PlayerAppearance, str_cell (PlayerName ip.2))
       <$> filter (λ ip, cell_eqb (Str team) (str_cell (TeamInitials ip.2))) (clean_players ps))).

(** The table [winner_counts] after the renaming of its columns. *)
Definition winner_counts (ts : list Tournament) : list (nat * (cell * nat)) :=
  enumerate (value_counts (column_of object (λ t, str_cell (Winner t)) (enumerate ts))).

Definition wins_columns : list (string * dtype) := [("Country", object); ("Wins", numeric)].

Definition wins_cells (e : cell * nat) : list cell := [e.1; Num (Z.of_nat e.2)].

(** The rows of [host_winners]. *)
Definition host_winners (ts : list Tournament) : list (nat * Tournament) :=
  filter (λ it, cell_eqb (str_cell (Country it.2)) (str_cell (Winner it.2))) (enumerate ts).

(** The metric cards of the overview. *)
Definition overview_metrics (ts : list Tournament) : list event :=
  [st_header "World Cup Overview";
   st_metric (Z.of_nat (length ts)) "Tournaments";
   st_metric (Zsum ((λ t, default 0 (GoalsScored t)) <$> ts)) "Total Goals";
   st_metric (Zsum ((λ t, default 0 (MatchesPlayed t)) <$> ts)) "Total Matches";
   st_metric (Zsum ((λ t, default 0 (QualifiedTeams t)) <$> ts)) "Teams Participated";
   st_subheader "Recent World Cup Tournaments"].

(** A string column after [str.replace('.', '')]. *)
Definition stripped (l : list (nat * cell)) : Series :=
  mkSeries object ((λ ic, (ic.1, replace_dot ic.2)) <$> l).

(** ** Vocabulary of the further properties *)

(** The exception of the first file that fails to load, in the order
    [load_data] reads them, with the tables read before it. *)
Definition first_failure (fs : string → result DataFrame) : option (exn * list DataFrame) :=
  match fs "WorldCups.csv" with
  | Raise e => Some (e, [])
  | Ok wc =>
      match fs "WorldCupMatches.csv" with
      | Raise e => Some (e, [wc])
      | Ok m =>
          match fs "WorldCupPlayers.csv" with
          | Raise e => Some (e, [wc; m])
          | Ok _ => None
          end
      end
  end.

(** An attendance field the conversion of lines 119 and 154 accepts and
    converts exactly: a missing field, or digits and separators with at
    least one digit, that denote a number float64 holds without rounding. *)
Definition parseable (o : option string) : Prop :=
  match o with
  | Some s => ∃ z, float_of_string (remove_dots s) = Some z ∧ z ≤ 2 ^ 53
  | None => True
  end.

(** A tournament whose number of matches can be the size of a marker. *)
Definition sized (t : Tournament) : Prop :=
  ∃ z, MatchesPlayed t = Some z ∧ 0 ≤ z.

(** The number an attendance field is converted to. *)
Definition attendance_number (o : option string) : cell :=
  match o with
  | Some s => from_option Num NaN (float_of_string (remove_dots s))
  | None => NaN
  end.

(** The rows of [world_cups.tail(5)]. *)
Definition recent (ts : list Tournament) : list (nat * Tournament) :=
  drop (length ts - 5) (enumerate ts).

(** [recent_cups] before its attendance column is converted. *)
Definition projected_columns : list (string * dtype) :=
  [("Year", numeric); ("Country", object); ("Winner", object); ("Runners-Up", object);
   ("GoalsScored", numeric); ("Attendance", object)].

Definition projected_cells (t : Tournament) : list cell :=
  [num_cell (Year t); str_cell (Country t); str_cell (Winner t); str_cell (RunnersUp t);
   num_cell (GoalsScored t); str_cell (Attendance t)].

(** [recent_cups] as it is shown. *)
Definition recent_columns : list (string * dtype) :=
  [("Year", numeric); ("Country", object); ("Winner", object); ("Runners-Up", object);
   ("GoalsScored", numeric); ("Attendance", numeric)].

Definition recent_cells (t : Tournament) : list cell :=
  [num_cell (Year t); str_cell (Country t); str_cell (Winner t); str_cell (RunnersUp t);
   num_cell (GoalsScored t); attendance_number (Attendance t)].

(** [world_cups_clean] after its attendance column is converted. *)
Definition normalized_columns : list (string * dtype) :=
  [("Year", numeric); ("Country", object); ("Winner", object); ("Runners-Up", object);
   ("GoalsScored", numeric); ("QualifiedTeams", numeric); ("MatchesPlayed", numeric);
   ("Attendance", numeric)].

Definition normalized_cells (t : Tournament) : list cell :=
  [num_cell (Year t); str_cell (Country t); str_cell (Winner t); str_cell (RunnersUp t);
   num_cell (GoalsScored t); num_cell (QualifiedTeams t); num_cell (MatchesPlayed t);
   attendance_number (Attendance t)].

(** The Attendance column of a tournament table. *)
Definition attendance_column (l : list (nat * Tournament)) : Series :=
  column_of object (λ t, str_cell (Attendance t)) l.

(** What [show_goals_attendance] renders when the conversion succeeds. *)
Definition goals_attendance_log (ts : list Tournament) : list event :=
  [st_header "Goals & Attendance Trends";
   st_plotly_chart (px_line (WorldCups ts) "Year" "GoalsScored" "Goals Scored Per Tournament");
   st_plotly_chart
     (px_line (table normalized_columns normalized_cells (enumerate ts))
        "Year" "Attendance" "Tournament Attendance Over Time");
   st_subheader "Goals vs Attendance Correlation";
   st_plotly_chart
     (px_scatter (table normalized_columns normalized_cells (enumerate ts))
        "GoalsScored" "Attendance" "Relationship Between Goals and Attendance")].

(** [sep.join(l)] on strings. *)
Fixpoint join (sep : string) (l : list string) : string :=
  match l with
  | [] => ""
  | [s] => s
  | s :: l' => String.append s (String.append sep (join sep l'))
  end.

(** The tournament was won by the country that hosted it. *)
Definition host_won (t : Tournament) : Prop :=
  is_Some (Country t) ∧ Country t = Winner t.

#[global] Instance host_won_dec t : Decision (host_won t).
Proof. unfold host_won. apply _. Defined.

Definition written_hosts (e : event) : option (nat * string) :=
  match e with
  | st_write_hosts n names => Some (n, names)
  | _ => None
  end.

(** The frame drawn by the bar chart with the given title. *)
Definition bar_frame (title : string) (e : event) : option DataFrame :=
  match e with
  | st_plotly_chart (px_bar (of_frame df _ _) t) =>
      if String.eqb t title then Some df else None
  | _ => None
  end.

(** A letter that occurs in no number Python's [float] reads: any ASCII
    letter but a, e, f, i, n, t, y (the letters of exponents, [inf],
    [infinity] and [nan]), in either case. *)
Definition foreign_letter (c : ascii) : bool :=
  let n := Z.of_nat (nat_of_ascii c) in
  let lower := if (65 <=? n) && (n <=? 90) then n + 32 else n in
  (97 <=? lower) && (lower <=? 122) &&
  negb (existsb (Z.eqb lower) [97; 101; 102; 105; 110; 116; 121]).

Fixpoint has_foreign_letter (s : string) : bool :=
  match s with
  | EmptyString => false
  | String c s' => foreign_letter c || has_foreign_letter s'
  end.

(** An attendance field that cannot be converted to a number. *)
Definition unreadable (o : option string) : Prop :=
  match o with
  | Some s => has_foreign_letter s
  | None => False
  end.

(** * Properties *)

(** ** Objects that exist before a computation are not changed by it

    The script only ever assigns to objects it has created itself, whose
    references are [n] or above when the store held [n] objects before. *)
Section Keeps.
Variable n : nat.

Lemma keeps_weaken {A} (m : M A) (P Q : A → Prop) :
  keeps n m P → (∀ a, P a → Q a) → keeps n m Q.
Proof.
  intros Hm HPQ σ Hσ. destruct (Hm σ Hσ) as (H1 & H2 & H3). auto.
Qed.

Lemma keeps_ret {A} (a : A) : keeps n (ret a) any.
Proof. intros σ Hσ. cbn. unfold any. auto. Qed.

Lemma keeps_lift {A} (r : result A) : keeps n (lift r) any.
Proof. intros σ Hσ. cbn. unfold any. auto. Qed.

Lemma keeps_raise {A} (e : exn) : keeps n (@raise A e) any.
Proof. intros σ Hσ. cbn. unfold any. auto. Qed.

Lemma keeps_emit (e : event) : keeps n (emit e) any.
Proof. intros σ Hσ. cbn. unfold any. auto. Qed.

Lemma keeps_deref (r : ref) : keeps n (deref r) any.
Proof.
  intros σ Hσ. unfold deref, any. destruct (heap σ !! r); cbn; auto.
Qed.

Lemma keeps_alloc (df : DataFrame) : keeps n (alloc df) (fresh n).
Proof.
  intros σ Hσ. unfold alloc, fresh. cbn. split_and!.
  - by apply take_app_le.
  - rewrite length_app. lia.
  - intros a [= <-]. done.
Qed.

Lemma keeps_assign (r : ref) (df : DataFrame) : fresh n r → keeps n (assign r df) any.
Proof.
  intros Hr σ Hσ. unfold assign, any. cbn. split_and!; [|by rewrite length_insert|done].
  by apply take_insert_ge.
Qed.

Lemma keeps_bind {A B} (m : M A) (f : A → M B) (P : A → Prop) (Q : B → Prop) :
  keeps n m P → (∀ a, P a → keeps n (f a) Q) → keeps n (bind m f) Q.
Proof.
  intros Hm Hf σ Hσ. destruct (Hm σ Hσ) as (H1 & H2 & H3).
  unfold bind. destruct (m σ) as [[a|e] σ1]; cbn in *.
  - destruct (Hf a (H3 a eq_refl) σ1 H2) as (G1 & G2 & G3).
    split_and!; [congruence|done|done].
  - split_and!; [done|done|]. intros a [=].
Qed.

Lemma keeps_try_except {A} (m : M A) (h : exn → M A) (Q : A → Prop) :
  keeps n m Q → (∀ e, keeps n (h e) Q) → keeps n (try_except m h) Q.
Proof.
  intros Hm Hh σ Hσ. destruct (Hm σ Hσ) as (H1 & H2 & H3).
  unfold try_except. destruct (m σ) as [[a|e] σ1]; cbn in *.
  - auto.
  - destruct (Hh e σ1 H2) as (G1 & G2 & G3). split_and!; [congruence|done|done].
Qed.

Lemma keeps_df_getitem r name : keeps n (df_getitem r name) any.
Proof.
  eapply keeps_bind; [apply keeps_deref|]. intros; apply keeps_lift.
Qed.

Lemma keeps_df_len r : keeps n (df_len r) any.
Proof.
  eapply keeps_bind; [apply keeps_deref|]. intros; apply keeps_ret.
Qed.

Lemma keeps_df_new f r : keeps n (df_new f r) (fresh n).
Proof.
  eapply keeps_bind; [apply keeps_deref|]. intros.
  eapply keeps_bind; [apply keeps_lift|]. intros. apply keeps_alloc.
Qed.

Lemma keeps_df_setitem r name s : fresh n r → keeps n (df_setitem r name s) any.
Proof.
  intros. eapply keeps_bind; [apply keeps_deref|]. intros. by apply keeps_assign.
Qed.

Lemma keeps_df_set_columns r names : fresh n r → keeps n (df_set_columns r names) any.
Proof.
  intros. eapply keeps_bind; [apply keeps_deref|]. intros.
  eapply keeps_bind; [apply keeps_lift|]. intros. by apply keeps_assign.
Qed.

Lemma keeps_plot_frame r names fig : keeps n (plot_frame r names fig) any.
Proof.
  eapply keeps_bind; [apply keeps_deref|]. intros.
  eapply keeps_bind; [apply keeps_lift|]. intros. apply keeps_emit.
Qed.

Lemma keeps_plot_sized r names size fig : keeps n (plot_sized r names size fig) any.
Proof.
  eapply keeps_bind; [apply keeps_deref|]. intros.
  eapply keeps_bind; [apply keeps_lift|]. intros.
  eapply keeps_bind; [apply keeps_lift|]. intros. apply keeps_emit.
Qed.

Lemma keeps_plot_series s title : keeps n (plot_series s title) any.
Proof. destruct s; [apply keeps_raise|apply keeps_emit]. Qed.

Lemma keeps_pd_read_csv fs path : keeps n (pd_read_csv fs path) (fresh n).
Proof.
  eapply keeps_bind; [apply keeps_lift|]. intros. apply keeps_alloc.
Qed.

(** One step of a view: the next operation, then the rest. *)
Ltac keeps_step :=
  first
    [ apply keeps_emit | apply keeps_ret | apply keeps_lift | apply keeps_deref
    | apply keeps_alloc | apply keeps_df_getitem | apply keeps_df_len
    | apply keeps_df_new | apply keeps_plot_frame | apply keeps_plot_sized
    | apply keeps_plot_series | apply keeps_pd_read_csv
    | apply keeps_df_setitem; assumption
    | apply keeps_df_set_columns; assumption ].

Ltac keeps_view :=
  repeat (eapply keeps_bind; [keeps_step|intros ? ?]);
  try (eapply keeps_weaken; [keeps_step|done]).

Lemma keeps_show_overview wc m p : keeps n (show_overview wc m p) any.
Proof. unfold show_overview. keeps_view. Qed.

Lemma keeps_show_winners wc : keeps n (show_winners wc) any.
Proof. unfold show_winners. keeps_view. Qed.

Lemma keeps_show_goals_attendance wc m : keeps n (show_goals_attendance wc m) any.
Proof. unfold show_goals_attendance. keeps_view. Qed.

Lemma keeps_show_match_stats m : keeps n (show_match_stats m) any.
Proof. unfold show_match_stats. keeps_view. Qed.

Lemma keeps_show_player_analysis p m : keeps n (show_player_analysis p m) any.
Proof. unfold show_player_analysis. keeps_view. Qed.

Lemma keeps_show_page page wc m p : keeps n (show_page page wc m p) any.
Proof.
  unfold show_page. repeat case_match;
    auto using keeps_show_overview, keeps_show_winners, keeps_show_goals_attendance,
      keeps_show_match_stats, keeps_show_player_analysis, keeps_ret.
Qed.
End Keeps.

Lemma keeps_lookup {A} (m : M A) (Q : A → Prop) σ r df :
  keeps (length (heap σ)) m Q → heap σ !! r = Some df → heap (m σ).2 !! r = Some df.
Proof.
  intros Hm Hr. destruct (Hm σ) as (H1 & _ & _); [done|].
  rewrite (take_ge (heap σ)) in H1 by done.
  rewrite <- (lookup_take_lt _ (length (heap σ))) by (by eapply lookup_lt_Some).
  by rewrite H1.
Qed.

(** Whatever section is shown, from whatever store, every object that
    existed before is unchanged afterwards. *)
Lemma show_page_keeps_store page wc m p σ r df :
  heap σ !! r = Some df → heap (show_page page wc m p σ).2 !! r = Some df.
Proof. apply keeps_lookup with (Q := any). apply keeps_show_page. Qed.

(** ** Loading *)

Lemma load_data_files ts ms ps σ :
  load_data (files ts ms ps) σ =
    (Ok (Some (length (heap σ)), Some (S (length (heap σ))), Some (S (S (length (heap σ))))),
     mkState (heap σ ++ [WorldCups ts; WorldCupMatches ms; WorldCupPlayers ps]) (log σ)).
Proof.
  unfold load_data, try_except, bind, pd_read_csv, bind, lift, alloc, ret. cbn.
  rewrite !length_app. cbn. rewrite <- !app_assoc. cbn.
  repeat f_equal; lia.
Qed.

(** C9.  No aggregation changes a loaded table: whichever section is
    shown, the three tables produced by the loader are afterwards exactly
    what was loaded, both when the section is run on the freshly loaded
    store and when the whole of [main] is run on the three files. *)
Theorem loaded_tables_unchanged ts ms ps page :
  (let σ' := (show_page page 0 1 2 (loaded ts ms ps)).2 in
   heap σ' !! 0%nat = Some (WorldCups ts) ∧
   heap σ' !! 1%nat = Some (WorldCupMatches ms) ∧
   heap σ' !! 2%nat = Some (WorldCupPlayers ps)) ∧
  (let σ' := (main (files ts ms ps) page (mkState [] [])).2 in
   heap σ' !! 0%nat = Some (WorldCups ts) ∧
   heap σ' !! 1%nat = Some (WorldCupMatches ms) ∧
   heap σ' !! 2%nat = Some (WorldCupPlayers ps)).
Proof.
  split.
  - cbn zeta. split_and!; by apply show_page_keeps_store.
  - cbn zeta. unfold main, bind at 1. cbn [emit].
    unfold bind at 1. rewrite load_data_files. cbn [heap log length app].
    unfold bind at 1. cbn [emit heap log].
    unfold bind at 1. cbn [emit heap log].
    split_and!; by apply show_page_keeps_store.
Qed.

(** C3.  When reading any one of the three files raises, [load_data]
    returns [(None, None, None)] after reporting the error, and [main]
    returns normally having rendered only its title and two error
    messages: no section is shown, so nothing is computed from any table. *)
Theorem load_failure_reported fs page σ
    (Hfail : (∃ e, fs "WorldCups.csv" = Raise e) ∨
             (∃ e, fs "WorldCupMatches.csv" = Raise e) ∨
             (∃ e, fs "WorldCupPlayers.csv" = Raise e)) :
  ∃ e,
    (load_data fs σ).1 = Ok (None, None, None) ∧
    log (load_data fs σ).2 =
      log σ ++ [st_error (String.append "Error loading data: " (exn_str e))] ∧
    (main fs page σ).1 = Ok tt ∧
    log (main fs page σ).2 =
      log σ ++ [st_markdown "FIFA World Cup Dashboard";
                st_error (String.append "Error loading data: " (exn_str e));
                st_error "Failed to load data. Please check if CSV files are present."].
Proof.
  unfold main, load_data, try_except, bind, pd_read_csv, bind, lift, alloc, ret, emit.
  cbn.
  destruct (fs "WorldCups.csv") as [wc|e1] eqn:E1; cbn.
  2: { exists e1. rewrite <- !app_assoc. done. }
  destruct (fs "WorldCupMatches.csv") as [m|e2] eqn:E2; cbn.
  2: { exists e2. rewrite <- !app_assoc. done. }
  destruct (fs "WorldCupPlayers.csv") as [p|e3] eqn:E3; cbn.
  2: { exists e3. rewrite <- !app_assoc. done. }
  destruct Hfail as [[e ?]|[[e ?]|[e ?]]]; discriminate.
Qed.


(** ** The pandas operations on tables given by records *)

Lemma filter_fmap {A B} (f : A → B) (P : B → Prop) `{!∀ x, Decision (P x)} (l : list A) :
  filter P (f <$> l) = f <$> filter (λ a, P (f a)) l.
Proof.
  induction l as [|a l IH]; [done|].
  rewrite fmap_cons, !filter_cons, IH. by case_decide.
Qed.

Lemma fmap_fmap {A B C} (f : A → B) (g : B → C) (l : list A) :
  g <$> (f <$> l) = (λ x, g (f x)) <$> l.
Proof. by rewrite <- list_fmap_compose. Qed.

Lemma insert_desc_fmap {A B} (f : A → B) (key : B → Z) (a : A) (l : list A) :
  insert_desc key (f a) (f <$> l) = f <$> insert_desc (λ x, key (f x)) a l.
Proof.
  induction l as [|b l IH]; [done|]. cbn. rewrite IH. by case_match.
Qed.

Lemma sort_desc_fmap {A B} (f : A → B) (key : B → Z) (l : list A) :
  sort_desc key (f <$> l) = f <$> sort_desc (λ x, key (f x)) l.
Proof.
  induction l as [|a l IH]; [done|]. cbn.
  change (foldr (insert_desc key) [] (f <$> l)) with (sort_desc key (f <$> l)).
  rewrite IH. apply insert_desc_fmap.
Qed.

(** Consequences of the contract of [quicksort_desc]. *)
Lemma quicksort_desc_length {A} (key : A → Z) (l : list A) :
  length (quicksort_desc key l) = length l.
Proof. apply Permutation_length, quicksort_desc_perm. Qed.

Lemma quicksort_desc_nil {A} (key : A → Z) : quicksort_desc key [] = [].
Proof. apply Permutation_nil_r, quicksort_desc_perm. Qed.

Lemma quicksort_desc_singleton {A} (key : A → Z) (x : A) : quicksort_desc key [x] = [x].
Proof. apply Permutation_singleton_r, quicksort_desc_perm. Qed.

Lemma quicksort_desc_ext {A} (key key' : A → Z) (l : list A) :
  (∀ x, key x = key' x) → quicksort_desc key l = quicksort_desc key' l.
Proof.
  intros Hk.
  assert (∀ k : A → Z,
            quicksort_desc k l = snd <$> quicksort_desc fst ((λ a, (k a, a)) <$> l)) as H.
  { intros k. rewrite quicksort_desc_fmap, fmap_fmap. cbn [fst snd].
    by rewrite list_fmap_id. }
  rewrite (H key), (H key'). do 2 f_equal. apply list_fmap_ext. intros _ a _. by rewrite Hk.
Qed.

Section Tables.
Context {A : Type} (cols : list (string * dtype)) (cells : A → list cell).
Implicit Types l : list (nat * A).

Lemma frame_labels_table l : frame_labels (table cols cells l) = l.*1.
Proof. unfold frame_labels, table. cbn. by rewrite <- list_fmap_compose. Qed.

Lemma labels_column_of d f l : labels (column_of d f l) = l.*1.
Proof. unfold labels, column_of. cbn. by rewrite <- list_fmap_compose. Qed.

Lemma values_column_of d f l : values (column_of d f l) = (λ ir, f ir.2) <$> l.
Proof. unfold values, column_of. cbn. by rewrite <- list_fmap_compose. Qed.

Lemma len_table l : len (table cols cells l) = length l.
Proof. unfold len, table. cbn. apply length_fmap. Qed.

Lemma getitem_table name k d l :
  column_index name cols = Some (k, d) →
  getitem (table cols cells l) name = Ok (column_of d (λ a, cell_at k (cells a)) l).
Proof.
  intros H. unfold getitem, table, column_of. cbn. rewrite H.
  by rewrite <- list_fmap_compose.
Qed.

Lemma aligned_table d f l : aligned (table cols cells l) (column_of d f l) = (λ ir, f ir.2) <$> l.
Proof.
  unfold aligned. rewrite labels_column_of, frame_labels_table.
  rewrite decide_True by done. apply values_column_of.
Qed.

Lemma setitem_table_new name d f l :
  column_index name cols = None →
  setitem (table cols cells l) name (column_of d f l) =
    table (cols ++ [(name, d)]) (λ a, cells a ++ [f a]) l.
Proof.
  intros H. unfold setitem. rewrite aligned_table.
  unfold table. cbn [columns rows]. rewrite H. cbn [dt column_of].
  by rewrite zip_with_fmap_l, zip_with_fmap_r, zip_with_diag.
Qed.

Lemma setitem_table_replace name k d0 d f l :
  column_index name cols = Some (k, d0) →
  setitem (table cols cells l) name (column_of d f l) =
    table (<[k := (name, d)]> cols) (λ a, <[k := f a]> (cells a)) l.
Proof.
  intros H. unfold setitem. rewrite aligned_table.
  unfold table. cbn [columns rows]. rewrite H. cbn [dt column_of].
  by rewrite zip_with_fmap_l, zip_with_fmap_r, zip_with_diag.
Qed.

Lemma getitems_table names sel l :
  column_indices names cols = Ok sel →
  getitems (table cols cells l) names =
    Ok (table ((λ x, (x.1, x.2.2)) <$> sel)
          (λ a, (λ x, cell_at x.2.1 (cells a)) <$> sel) l).
Proof.
  intros H. unfold getitems, table. cbn. rewrite H. cbn.
  by rewrite <- list_fmap_compose.
Qed.

Lemma dropna_table subset sel l :
  column_indices subset cols = Ok sel →
  dropna subset (table cols cells l) =
    Ok (table cols cells
          (filter (λ ir, forallb (λ x, notna (cell_at x.2.1 (cells ir.2))) sel) l)).
Proof.
  intros H. unfold dropna, table. cbn. rewrite H. cbn. by rewrite filter_fmap.
Qed.

Lemma nlargest_table n name k l :
  column_index name cols = Some (k, numeric) →
  nlargest n name (table cols cells l) =
    Ok (table cols cells
          (take n ((if decide (length l ≤ n)%nat
                    then quicksort_desc (λ ir, cell_Z (cell_at k (cells ir.2)))
                           (filter (λ ir, notna (cell_at k (cells ir.2))) l)
                    else sort_desc (λ ir, cell_Z (cell_at k (cells ir.2)))
                           (filter (λ ir, notna (cell_at k (cells ir.2))) l))
                   ++ filter (λ ir, negb (notna (cell_at k (cells ir.2)))) l))).
Proof.
  intros H. unfold nlargest, table. cbn [columns rows]. rewrite H. cbn zeta.
  rewrite length_fmap, !filter_fmap.
  destruct (decide (length l ≤ n)%nat).
  - by rewrite quicksort_desc_fmap, <- fmap_app, <- fmap_take.
  - by rewrite sort_desc_fmap, <- fmap_app, <- fmap_take.
Qed.

Lemma tail_table n l : tail n (table cols cells l) = table cols cells (drop (length l - n) l).
Proof. unfold tail, table. cbn. by rewrite length_fmap, fmap_drop. Qed.

Lemma head_table n l : head n (table cols cells l) = table cols cells (take n l).
Proof. unfold head, table. cbn. by rewrite fmap_take. Qed.

Lemma copy_table l : copy (table cols cells l) = table cols cells l.
Proof. done. Qed.

Lemma Series_add_column_of f g l :
  Series_add (column_of numeric f l) (column_of numeric g l) =
    Ok (column_of numeric (λ a, add_cells (f a) (g a)) l).
Proof.
  unfold Series_add. cbn [dt column_of]. rewrite decide_True.
  - unfold column_of. cbn. by rewrite zip_with_fmap_l, zip_with_fmap_r, zip_with_diag.
  - change (labels (column_of numeric f l) = labels (column_of numeric g l)).
    by rewrite !labels_column_of.
Qed.

Lemma Series_eq_column_of d d' f g l :
  Series_eq (column_of d f l) (column_of d' g l) =
    Ok ((λ ir, (ir.1, cell_eqb (f ir.2) (g ir.2))) <$> l).
Proof.
  unfold Series_eq. rewrite decide_True by (by rewrite !labels_column_of).
  unfold column_of. cbn. by rewrite zip_with_fmap_l, zip_with_fmap_r, zip_with_diag.
Qed.

Lemma getitem_mask_table (b : A → bool) l :
  getitem_mask (table cols cells l) ((λ ir, (ir.1, b ir.2)) <$> l) =
    Ok (table cols cells (filter (λ ir, b ir.2) l)).
Proof.
  unfold getitem_mask. rewrite frame_labels_table, <- list_fmap_compose.
  rewrite decide_True by done. unfold table. cbn. do 2 f_equal.
  induction l as [|[i a] l IH]; [done|].
  rewrite !fmap_cons. cbn [zip_with]. rewrite !filter_cons. cbn [fst snd].
  destruct (b a); cbn [Is_true].
  - rewrite !decide_True by done. by rewrite !fmap_cons, IH.
  - rewrite !decide_False by tauto. done.
Qed.
End Tables.

(** ** Sorting by decreasing key *)

Section SortFacts.
Context {A : Type} (key : A → Z).
Implicit Types l : list A.

Lemma insert_desc_perm x l : insert_desc key x l ≡ₚ x :: l.
Proof.
  induction l as [|y l IH]; [done|]. cbn. case_match; [|done].
  rewrite IH. apply Permutation_swap.
Qed.

Lemma sort_desc_perm l : sort_desc key l ≡ₚ l.
Proof.
  induction l as [|x l IH]; [done|]. cbn.
  rewrite insert_desc_perm. by constructor.
Qed.

Lemma sort_desc_length l : length (sort_desc key l) = length l.
Proof. apply Permutation_length, sort_desc_perm. Qed.

Lemma sort_desc_ext (key' : A → Z) l :
  (∀ x, key x = key' x) → sort_desc key l = sort_desc key' l.
Proof.
  intros Hk. induction l as [|x l IH]; [done|]. cbn.
  change (foldr (insert_desc key) [] l) with (sort_desc key l).
  change (foldr (insert_desc key') [] l) with (sort_desc key' l).
  rewrite IH. generalize (sort_desc key' l). intros s.
  induction s as [|y s IHs]; [done|]. cbn. by rewrite !Hk, IHs.
Qed.

Lemma insert_desc_sorted (R : relation A) x l :
  Forall (R x) l → StronglySorted (before key R) l →
  StronglySorted (before key R) (insert_desc key x l).
Proof.
  induction l as [|y l IH]; intros HR Hs; cbn.
  { repeat constructor. }
  apply Forall_cons in HR as [HRy HR].
  apply StronglySorted_cons in Hs as [Hy Hs].
  case_match eqn:Hlt.
  - apply Z.ltb_lt in Hlt. apply StronglySorted_cons. split; [|by apply IH].
    rewrite (insert_desc_perm x l). constructor; [by left|done].
  - apply Z.ltb_ge in Hlt. apply StronglySorted_cons. split.
    + assert (before key R x y) as Hxy.
      { destruct (decide (key y = key x)); [right; done|left; lia]. }
      constructor; [done|].
      apply list.Forall_forall. intros z Hz.
      pose proof (proj1 (list.Forall_forall _ _) Hy z Hz) as Hyz.
      pose proof (proj1 (list.Forall_forall _ _) HR z Hz) as Hxz.
      destruct Hyz as [?|[? ?]]; [left; lia|].
      destruct (decide (key y = key x)); [right; split; [congruence|done]|left; lia].
    + by apply StronglySorted_cons.
Qed.

Lemma sort_desc_stable (R : relation A) l :
  StronglySorted R l → StronglySorted (before key R) (sort_desc key l).
Proof.
  induction 1 as [|x l Hs IH Hx]; cbn; [constructor|].
  apply insert_desc_sorted; [|done].
  change (foldr (insert_desc key) [] l) with (sort_desc key l).
  by rewrite sort_desc_perm.
Qed.

Lemma sort_desc_sorted l :
  StronglySorted (λ a b, key b ≤ key a) (sort_desc key l).
Proof.
  induction l as [|x l IH]; cbn; [constructor|].
  change (foldr (insert_desc key) [] l) with (sort_desc key l).
  revert IH. generalize (sort_desc key l). intros s Hs.
  induction s as [|y s IHs]; cbn; [repeat constructor|].
  apply StronglySorted_cons in Hs as [Hy Hs].
  case_match eqn:Hlt.
  - apply Z.ltb_lt in Hlt. apply StronglySorted_cons. split; [|by apply IHs].
    rewrite (insert_desc_perm x s). constructor; [lia|done].
  - apply Z.ltb_ge in Hlt. apply StronglySorted_cons. split.
    + constructor; [done|]. eapply Forall_impl; [exact Hy|]. cbn. intros; lia.
    + by apply StronglySorted_cons.
Qed.
End SortFacts.

Lemma StronglySorted_weaken {A} (R R' : relation A) (l : list A) :
  (∀ a b, R a b → R' a b) → StronglySorted R l → StronglySorted R' l.
Proof.
  intros HR. induction 1 as [|x l Hs IH Hx]; constructor; [done|].
  eapply Forall_impl; [exact Hx|]. auto.
Qed.

Lemma StronglySorted_take {A} (R : relation A) n (l : list A) :
  StronglySorted R l → StronglySorted R (take n l).
Proof.
  intros Hs. rewrite <- (take_drop n l) in Hs. by apply StronglySorted_app_1_l in Hs.
Qed.

Lemma StronglySorted_filter {A} (R : relation A) (P : A → Prop) `{!∀ x, Decision (P x)}
    (l : list A) :
  StronglySorted R l → StronglySorted R (filter P l).
Proof.
  induction 1 as [|x l Hs IH Hx]; [constructor|].
  rewrite filter_cons. case_decide; [|done].
  constructor; [done|]. apply list.Forall_forall. intros y Hy.
  apply list_elem_of_filter in Hy as [_ Hy].
  by apply (proj1 (list.Forall_forall _ _) Hx).
Qed.

(** A fresh range index is strictly increasing. *)
Lemma enumerate_from_sorted {A} n (l : list A) :
  StronglySorted (λ a b : nat * A, (a.1 < b.1)%nat) (enumerate_from n l) ∧
  Forall (λ a : nat * A, (n ≤ a.1)%nat) (enumerate_from n l).
Proof.
  revert n. induction l as [|x l IH]; intros n; cbn; [by repeat constructor|].
  destruct (IH (S n)) as [Hs Hn]. split.
  - constructor; [done|]. eapply Forall_impl; [exact Hn|]. cbn. intros; lia.
  - constructor; [done|]. eapply Forall_impl; [exact Hn|]. cbn. intros; lia.
Qed.

Lemma enumerate_sorted {A} (l : list A) :
  StronglySorted (λ a b : nat * A, (a.1 < b.1)%nat) (enumerate l).
Proof. apply enumerate_from_sorted. Qed.

Lemma enumerate_from_snd {A} n (l : list A) : (enumerate_from n l).*2 = l.
Proof. revert n. induction l as [|x l IH]; intros n; cbn; [done|]. by rewrite IH. Qed.

Lemma enumerate_snd {A} (l : list A) : (enumerate l).*2 = l.
Proof. apply enumerate_from_snd. Qed.

Lemma enumerate_length {A} (l : list A) : length (enumerate l) = length l.
Proof. by rewrite <- (enumerate_snd l) at 2; rewrite length_fmap. Qed.

Lemma filter_snd {A} (P : A → Prop) `{!∀ x, Decision (P x)} (l : list (nat * A)) :
  (filter (λ ia, P ia.2) l).*2 = filter P (l.*2).
Proof. by rewrite filter_fmap. Qed.

(** ** Running the script step by step *)

Lemma bind_ok {A B} (m : M A) (f : A → M B) σ a σ' :
  m σ = (Ok a, σ') → bind m f σ = f a σ'.
Proof. intros H. unfold bind. by rewrite H. Qed.

Lemma bind_raise {A B} (m : M A) (f : A → M B) σ e σ' :
  m σ = (Raise e, σ') → bind m f σ = (Raise e, σ').
Proof. intros H. unfold bind. by rewrite H. Qed.

Lemma emit_run e σ : emit e σ = (Ok tt, mkState (heap σ) (log σ ++ [e])).
Proof. done. Qed.

Lemma lift_run {A} (r : result A) σ : lift r σ = (r, σ).
Proof. done. Qed.

Lemma alloc_run df σ :
  alloc df σ = (Ok (length (heap σ)), mkState (heap σ ++ [df]) (log σ)).
Proof. done. Qed.

Lemma deref_run r σ df : heap σ !! r = Some df → deref r σ = (Ok df, σ).
Proof. intros H. unfold deref. by rewrite H. Qed.

Lemma df_len_run r σ df : heap σ !! r = Some df → df_len r σ = (Ok (len df), σ).
Proof. intros H. unfold df_len. by erewrite bind_ok by by apply deref_run. Qed.

Lemma df_getitem_run r name σ df s :
  heap σ !! r = Some df → getitem df name = Ok s → df_getitem r name σ = (Ok s, σ).
Proof.
  intros H Hs. unfold df_getitem. erewrite bind_ok by by apply deref_run.
  by rewrite <- Hs.
Qed.

Lemma df_new_run f r σ df df' :
  heap σ !! r = Some df → f df = Ok df' →
  df_new f r σ = (Ok (length (heap σ)), mkState (heap σ ++ [df']) (log σ)).
Proof.
  intros H Hf. unfold df_new. erewrite bind_ok by by apply deref_run.
  erewrite bind_ok by (rewrite lift_run, Hf; done). done.
Qed.

Lemma df_setitem_run r name s σ df :
  heap σ !! r = Some df →
  df_setitem r name s σ = (Ok tt, mkState (<[r := setitem df name s]> (heap σ)) (log σ)).
Proof. intros H. unfold df_setitem. by erewrite bind_ok by by apply deref_run. Qed.

Lemma df_set_columns_run r names σ df df' :
  heap σ !! r = Some df → set_columns df names = Ok df' →
  df_set_columns r names σ = (Ok tt, mkState (<[r := df']> (heap σ)) (log σ)).
Proof.
  intros H Hf. unfold df_set_columns. erewrite bind_ok by by apply deref_run.
  erewrite bind_ok by (rewrite lift_run, Hf; done). done.
Qed.

Lemma plot_frame_run r names fig σ df :
  heap σ !! r = Some df → px_columns df names = Ok tt →
  plot_frame r names fig σ = (Ok tt, mkState (heap σ) (log σ ++ [st_plotly_chart (fig df)])).
Proof.
  intros H Hc. unfold plot_frame. erewrite bind_ok by by apply deref_run.
  erewrite bind_ok by (rewrite lift_run, Hc; done). done.
Qed.

Lemma plot_sized_run r names size fig σ df :
  heap σ !! r = Some df → px_columns df names = Ok tt →
  plot_sized r names size fig σ =
    match px_sizes df size with
    | Ok _ => (Ok tt, mkState (heap σ) (log σ ++ [st_plotly_chart (fig df)]))
    | Raise e => (Raise e, σ)
    end.
Proof.
  intros H Hc. unfold plot_sized. erewrite bind_ok by by apply deref_run.
  erewrite bind_ok by (rewrite lift_run, Hc; done).
  destruct (px_sizes df size) as [[]|e].
  - erewrite bind_ok by (rewrite lift_run; done). done.
  - erewrite bind_raise by (rewrite lift_run; done). done.
Qed.

Lemma plot_series_cons s title σ :
  s ≠ [] →
  plot_series s title σ =
    (Ok tt, mkState (heap σ) (log σ ++ [st_plotly_chart (px_bar (of_series s) title)])).
Proof. by destruct s. Qed.

Lemma plot_series_run s title σ :
  plot_series s title σ =
    (series_chart_result s, mkState (heap σ) (log σ ++ series_chart s title)).
Proof.
  destruct s; cbn; [|done]. unfold raise. destruct σ. cbn. by rewrite app_nil_r.
Qed.

(** Tidying the store and the log between two steps. *)
Ltac tidy := cbn [heap log app length insert list_insert].

Ltac step tac := erewrite bind_ok by tac; tidy.

(** ** Sums *)

Lemma Zsum_perm l k : l ≡ₚ k → Zsum l = Zsum k.
Proof. induction 1; unfold Zsum in *; cbn in *; lia. Qed.

Lemma Series_sum_column_of {A} (f : A → cell) (l : list (nat * A)) :
  Series_sum (column_of numeric f l) = Ok (Zsum ((λ ir, cell_Z (f ir.2)) <$> l)).
Proof.
  unfold Series_sum. cbn [dt column_of]. rewrite values_column_of. f_equal.
  induction l as [|x l IH]; cbn; [done|]. by rewrite IH.
Qed.

(** ** Match statistics *)

Lemma add_goal_cells m :
  add_cells (num_cell (HomeTeamGoals m)) (num_cell (AwayTeamGoals m)) = num_cell (TotalGoals m).
Proof. unfold TotalGoals. by destruct (HomeTeamGoals m), (AwayTeamGoals m). Qed.

Lemma cell_Z_num_cell o : cell_Z (num_cell o) = default 0 o.
Proof. by destruct o. Qed.

Lemma both_present_total m : both_present m ↔ is_Some (TotalGoals m).
Proof.
  unfold both_present, TotalGoals.
  destruct (HomeTeamGoals m), (AwayTeamGoals m); split;
    try (intros [[? [=]] [? [=]]]); try (intros [? [=]]); eauto.
Qed.

Lemma dropna_goals l :
  dropna ["Home Team Goals"; "Away Team Goals"] (table match_columns match_cells l) =
    Ok (table match_columns match_cells (filter (λ im, both_present im.2) l)).
Proof.
  erewrite dropna_table by reflexivity. do 2 f_equal.
  apply list_filter_iff. intros [i m]. unfold both_present. cbn.
  destruct (HomeTeamGoals m), (AwayTeamGoals m); cbn; split;
    try done; try (intros [[? [=]] [? [=]]]); eauto.
Qed.

Lemma getitem_home cols cells (l : list (nat * Match)) :
  column_index "Home Team Goals" cols = Some (3%nat, numeric) →
  (∀ m, cell_at 3 (cells m) = num_cell (HomeTeamGoals m)) →
  getitem (table cols cells l) "Home Team Goals" =
    Ok (column_of numeric (λ m, num_cell (HomeTeamGoals m)) l).
Proof.
  intros Hc Hm. erewrite getitem_table by done. unfold column_of. do 2 f_equal.
  apply list_fmap_ext. intros ? [i m] _. cbn. by rewrite Hm.
Qed.

Lemma getitem_away cols cells (l : list (nat * Match)) :
  column_index "Away Team Goals" cols = Some (4%nat, numeric) →
  (∀ m, cell_at 4 (cells m) = num_cell (AwayTeamGoals m)) →
  getitem (table cols cells l) "Away Team Goals" =
    Ok (column_of numeric (λ m, num_cell (AwayTeamGoals m)) l).
Proof.
  intros Hc Hm. erewrite getitem_table by done. unfold column_of. do 2 f_equal.
  apply list_fmap_ext. intros ? [i m] _. cbn. by rewrite Hm.
Qed.

Lemma setitem_total l :
  setitem (table match_columns match_cells l) "Total Goals"
      (column_of numeric
         (λ m, add_cells (num_cell (HomeTeamGoals m)) (num_cell (AwayTeamGoals m))) l) =
    table scored_columns scored_cells l.
Proof.
  rewrite setitem_table_new by reflexivity. unfold table, scored_columns. f_equal.
  apply list_fmap_ext. intros ? [i m] _. cbn [fst snd]. unfold scored_cells.
  by rewrite add_goal_cells.
Qed.

Lemma nlargest_total l :
  Forall (λ im : nat * Match, both_present im.2) l →
  nlargest 10 "Total Goals" (table scored_columns scored_cells l) =
    Ok (table scored_columns scored_cells
          (take 10 (if decide (length l ≤ 10)%nat
                    then quicksort_desc (λ im, goals im.2) l
                    else sort_desc (λ im, goals im.2) l))).
Proof.
  intros Hl. erewrite nlargest_table by reflexivity.
  assert (∀ m, cell_at 6 (scored_cells m) = num_cell (TotalGoals m)) as Hc by done.
  assert (filter (λ ir : nat * Match, notna (cell_at 6 (scored_cells ir.2))) l = l) as ->.
  { induction Hl as [|[i m] l Hm Hl IH]; [done|].
    rewrite filter_cons, decide_True, IH; [done|].
    cbn [snd] in *. rewrite Hc. apply both_present_total in Hm as [z ->]. done. }
  assert (filter (λ ir : nat * Match, negb (notna (cell_at 6 (scored_cells ir.2)))) l = [])
    as ->.
  { induction Hl as [|[i m] l Hm Hl IH]; [done|].
    rewrite filter_cons, decide_False, IH; [done|].
    cbn [snd] in *. rewrite Hc. apply both_present_total in Hm as [z ->]. cbn. tauto. }
  rewrite app_nil_r. do 3 f_equal.
  destruct (decide (length l ≤ 10)%nat); [apply quicksort_desc_ext|apply sort_desc_ext];
    intros [i m]; cbn [snd]; rewrite Hc; apply cell_Z_num_cell.
Qed.

Lemma getitems_highest l :
  getitems (table scored_columns scored_cells l)
      ["Year"; "Home Team Name"; "Home Team Goals";
       "Away Team Name"; "Away Team Goals"; "Total Goals"] =
    Ok (table highest_columns highest_cells l).
Proof. by erewrite getitems_table by reflexivity. Qed.

Lemma clean_present ms : Forall (λ im : nat * Match, both_present im.2) (clean ms).
Proof.
  apply list.Forall_forall. intros im Him. by apply list_elem_of_filter in Him as [? _].
Qed.

Lemma show_match_stats_loaded ts ms ps :
  show_match_stats 1 (loaded ts ms ps) =
    (series_chart_result (stage_counts ms),
     mkState
       [WorldCups ts; WorldCupMatches ms; WorldCupPlayers ps;
        table scored_columns scored_cells (clean ms);
        table scored_columns scored_cells (top ms);
        table highest_columns highest_cells (top ms)]
       (match_stats_log ms)).
Proof.
  unfold show_match_stats, loaded, WorldCupMatches.
  step ltac:(apply emit_run).
  step ltac:(eapply df_new_run; [reflexivity|apply dropna_goals]).
  fold (clean ms).
  step ltac:(eapply df_getitem_run; [reflexivity|by apply getitem_home]).
  step ltac:(eapply df_getitem_run; [reflexivity|by apply getitem_away]).
  step ltac:(rewrite lift_run, Series_add_column_of; reflexivity).
  step ltac:(eapply df_setitem_run; reflexivity).
  rewrite setitem_total.
  step ltac:(eapply df_new_run; [reflexivity|apply nlargest_total, clean_present]).
  fold (top ms).
  step ltac:(eapply df_new_run; [reflexivity|apply getitems_highest]).
  step ltac:(apply emit_run).
  step ltac:(eapply deref_run; reflexivity).
  step ltac:(apply emit_run).
  step ltac:(eapply plot_frame_run; reflexivity).
  step ltac:(eapply df_getitem_run; [reflexivity|by apply getitem_home]).
  step ltac:(rewrite lift_run, Series_sum_column_of; reflexivity).
  step ltac:(eapply df_getitem_run; [reflexivity|by apply getitem_away]).
  step ltac:(rewrite lift_run, Series_sum_column_of; reflexivity).
  step ltac:(apply emit_run).
  step ltac:(apply emit_run).
  step ltac:(eapply df_getitem_run; [reflexivity|by apply (getitem_table _ _ "Stage")]).
  rewrite plot_series_run. tidy. unfold match_stats_log, home_goals, away_goals, stage_counts.
  assert (∀ (f : Match → option Z) (l : list (nat * Match)),
            (λ ir, cell_Z (num_cell (f ir.2))) <$> l = (λ im, default 0 (f im.2)) <$> l)
    as Hsum.
  { intros f l. apply list_fmap_ext. intros ? [i m] _. apply cell_Z_num_cell. }
  by rewrite !Hsum.
Qed.

(** ** Counting values *)

Lemma cell_eqb_eq a b : cell_eqb a b ↔ a = b ∧ notna a.
Proof.
  destruct a as [|s|x], b as [|t|y]; cbn; try (split; [done|intros [[=] ?]; done]).
  - rewrite Is_true_true, String.eqb_eq. split; [by intros ->|by intros [[= ->] _]].
  - rewrite Is_true_true, Z.eqb_eq. split; [by intros ->|by intros [[= ->] _]].
Qed.

Lemma cell_eqb_refl a : notna a → cell_eqb a a.
Proof. intros. by apply cell_eqb_eq. Qed.

Lemma cell_eqb_sym a b : cell_eqb a b = cell_eqb b a.
Proof.
  destruct a, b; cbn; try done; [apply String.eqb_sym|apply Z.eqb_sym].
Qed.

Lemma get_count_bump k v acc :
  notna v →
  get_count k (bump v acc) = if cell_eqb k v then S (get_count k acc) else get_count k acc.
Proof.
  intros Hv. induction acc as [|[k' c] acc IH]; cbn; [done|].
  destruct (cell_eqb v k') eqn:Hvk; cbn.
  - assert (v = k') as <- by (by apply cell_eqb_eq; rewrite Hvk). by case_match.
  - rewrite IH. destruct (cell_eqb k k') eqn:Hkk; [|done].
    assert (k = k') as <- by (by apply cell_eqb_eq; rewrite Hkk).
    by rewrite cell_eqb_sym, Hvk.
Qed.

Lemma total_count_bump v acc : total_count (bump v acc) = S (total_count acc).
Proof.
  induction acc as [|[k' c] acc IH]; cbn; [done|].
  case_match; cbn; [done|]. unfold total_count in IH. rewrite IH. lia.
Qed.

Lemma bump_keys v acc k :
  notna v → k ∈ (bump v acc).*1 ↔ k = v ∨ k ∈ acc.*1.
Proof.
  intros Hv. induction acc as [|[k' c] acc IH]; cbn.
  { rewrite list_elem_of_singleton, elem_of_nil. tauto. }
  destruct (cell_eqb v k') eqn:Hvk; cbn.
  - assert (v = k') as <- by (by apply cell_eqb_eq; rewrite Hvk).
    rewrite !elem_of_cons. tauto.
  - rewrite !elem_of_cons, IH. tauto.
Qed.

Lemma bump_wf v acc : notna v → counts_wf acc → counts_wf (bump v acc).
Proof.
  intros Hv. induction acc as [|[k' c] acc IH]; cbn; intros [Hnd Hall].
  { split; [apply NoDup_singleton|]. repeat constructor; done. }
  cbn in Hnd. apply NoDup_cons in Hnd as [Hk' Hnd].
  apply Forall_cons in Hall as [[Hn Hc] Hall]. cbn in Hn, Hc.
  destruct (cell_eqb v k') eqn:Hvk; cbn.
  - split; [by apply NoDup_cons|]. constructor; [cbn; split; [done|lia]|done].
  - destruct IH as [IH1 IH2]; [done|]. split.
    + cbn. apply NoDup_cons. split; [|done]. rewrite bump_keys by done.
      intros [->|?]; [|done].
      pose proof (cell_eqb_refl _ Hv) as Hr. by rewrite Hvk in Hr.
    + by constructor.
Qed.

Lemma get_count_elem k c acc :
  counts_wf acc → (k, c) ∈ acc → get_count k acc = c.
Proof.
  induction acc as [|[k' c'] acc IH]; cbn; intros [Hnd Hall] Hin; [by apply elem_of_nil in Hin|].
  cbn in Hnd. apply NoDup_cons in Hnd as [Hk' Hnd].
  apply Forall_cons in Hall as [[Hn Hc] Hall]. cbn in Hn.
  apply elem_of_cons in Hin as [[= -> ->]|Hin].
  - by rewrite (Is_true_true_1 _ (cell_eqb_refl _ Hn)).
  - destruct (cell_eqb k k') eqn:Hkk.
    + assert (k = k') as <- by (by apply cell_eqb_eq; rewrite Hkk).
      destruct Hk'. apply list_elem_of_fmap. by exists (k, c).
    + by apply IH.
Qed.

Lemma get_count_pos k acc : (0 < get_count k acc)%nat → ∃ c, (k, c) ∈ acc.
Proof.
  induction acc as [|[k' c'] acc IH]; cbn; [lia|].
  destruct (cell_eqb k k') eqn:Hkk.
  - assert (k = k') as <- by (by apply cell_eqb_eq; rewrite Hkk).
    intros _. exists c'. by left.
  - intros H. destruct (IH H) as [c Hc]. exists c. by right.
Qed.

Lemma occurrences_snoc k l v :
  occurrences k (l ++ [v]) = (occurrences k l + if cell_eqb k v then 1 else 0)%nat.
Proof.
  unfold occurrences. rewrite filter_app, length_app. f_equal.
  rewrite filter_cons. destruct (cell_eqb k v); cbn [Is_true].
  - by rewrite decide_True.
  - by rewrite decide_False by tauto.
Qed.

Lemma occurrences_notna k l : occurrences k (filter notna l) = occurrences k l.
Proof.
  unfold occurrences. rewrite list_filter_filter. f_equal.
  apply list_filter_iff. intros v. split; [tauto|]. intros Hkv. split; [done|].
  by apply cell_eqb_eq in Hkv as [<- ?].
Qed.

Lemma fold_bump l :
  Forall notna l →
  let cs := fold_left (λ acc v, bump v acc) l [] in
  counts_wf cs ∧ total_count cs = length l ∧ ∀ k, get_count k cs = occurrences k l.
Proof.
  induction l as [|v l IH] using rev_ind; intros Hl; cbn zeta.
  { cbn. split_and!; [split; constructor|done|done]. }
  apply Forall_app in Hl as [Hl Hv]. apply Forall_cons in Hv as [Hv _].
  rewrite fold_left_app. cbn [fold_left].
  specialize (IH Hl). cbn zeta in IH. destruct IH as (Hwf & Htot & Hget). split_and!.
  - by apply bump_wf.
  - rewrite total_count_bump, Htot, length_app. cbn. lia.
  - intros k. rewrite get_count_bump, occurrences_snoc, Hget by done.
    destruct (cell_eqb k v); lia.
Qed.

Lemma filter_notna l : Forall notna (filter notna l).
Proof.
  apply list.Forall_forall. intros v Hv. by apply list_elem_of_filter in Hv as [? _].
Qed.

(** The counting step of [value_counts]: one entry per distinct
    non-missing value, with the number of its occurrences. *)
Lemma count_values_spec l :
  counts_wf (count_values l) ∧
  total_count (count_values l) = length (filter notna l) ∧
  ∀ k c, (k, c) ∈ count_values l ↔ notna k ∧ (0 < c)%nat ∧ c = occurrences k l.
Proof.
  destruct (fold_bump (filter notna l) (filter_notna l)) as (Hwf & Htot & Hget).
  fold (count_values l) in Hwf, Htot, Hget. split_and!; [done|done|].
  intros k c. split.
  - intros Hin. destruct Hwf as [Hnd Hall].
    pose proof (proj1 (list.Forall_forall _ _) Hall _ Hin) as [Hk Hc]. cbn in Hk, Hc.
    split_and!; [done|done|].
    rewrite <- occurrences_notna, <- Hget. symmetry. by apply get_count_elem.
  - intros (Hk & Hc & ->). rewrite <- occurrences_notna, <- Hget in Hc |- *.
    destruct (get_count_pos _ _ Hc) as [c' Hc'].
    by rewrite (get_count_elem _ _ _ Hwf Hc').
Qed.

Lemma total_count_perm cs cs' : cs ≡ₚ cs' → total_count cs = total_count cs'.
Proof. induction 1; unfold total_count in *; cbn in *; lia. Qed.

(** [value_counts]: the same entries, by decreasing count. *)
Lemma value_counts_spec s :
  NoDup (value_counts s).*1 ∧
  StronglySorted (λ a b : cell * nat, (b.2 ≤ a.2)%nat) (value_counts s) ∧
  total_count (value_counts s) = length (filter notna (values s)) ∧
  ∀ k c, (k, c) ∈ value_counts s ↔ notna k ∧ (0 < c)%nat ∧ c = occurrences k (values s).
Proof.
  destruct (count_values_spec (values s)) as ([Hnd _] & Htot & Hin).
  pose proof (quicksort_desc_perm count_key (count_values (values s))) as Hperm.
  fold (value_counts s) in Hperm. split_and!.
  - by rewrite Hperm.
  - eapply StronglySorted_weaken; [|apply quicksort_desc_sorted].
    intros a b. unfold count_key. lia.
  - by rewrite (total_count_perm _ _ Hperm).
  - intros k c. by rewrite Hperm.
Qed.

(** ** What a view has rendered *)

(** ** Facts on the rows of [matches_clean] *)

Lemma elem_of_enumerate_from {A} n (l : list A) i x :
  (i, x) ∈ enumerate_from n l ↔ (n ≤ i)%nat ∧ l !! (i - n)%nat = Some x.
Proof.
  revert n. induction l as [|y l IH]; intros n; cbn.
  { rewrite elem_of_nil. split; [done|]. by intros [_ ?]. }
  rewrite elem_of_cons, IH. split.
  - intros [[= -> ->]|[Hn Hl]].
    + split; [lia|]. by rewrite Nat.sub_diag.
    + split; [lia|]. by replace (i - n)%nat with (S (i - S n)) by lia.
  - intros [Hn Hl]. destruct (decide (i = n)) as [->|Hne].
    + left. rewrite Nat.sub_diag in Hl. cbn in Hl. by injection Hl as ->.
    + right. split; [lia|]. by replace (i - n)%nat with (S (i - S n)) in Hl by lia.
Qed.

Lemma elem_of_enumerate {A} (l : list A) i x : (i, x) ∈ enumerate l ↔ l !! i = Some x.
Proof.
  unfold enumerate. rewrite elem_of_enumerate_from, Nat.sub_0_r. split; [tauto|].
  intros; split; [lia|done].
Qed.

Lemma elem_of_clean ms i m : (i, m) ∈ clean ms ↔ ms !! i = Some m ∧ both_present m.
Proof. unfold clean. rewrite list_elem_of_filter, elem_of_enumerate. cbn. tauto. Qed.

Lemma clean_snd ms : (clean ms).*2 = filter both_present ms.
Proof. unfold clean. by rewrite filter_snd, enumerate_snd. Qed.

Lemma clean_length ms : length (clean ms) = length (filter both_present ms).
Proof. by rewrite <- clean_snd, length_fmap. Qed.

Lemma clean_sorted ms : StronglySorted (λ a b : nat * Match, (a.1 < b.1)%nat) (clean ms).
Proof. apply StronglySorted_filter, enumerate_sorted. Qed.

Lemma present_total m : both_present m → TotalGoals m = Some (goals m).
Proof. intros [z Hz]%both_present_total. unfold goals. by rewrite Hz. Qed.

Lemma omap_total (ms : list Match) : omap TotalGoals ms = goals <$> filter both_present ms.
Proof.
  induction ms as [|m ms IH]; [done|]. rewrite filter_cons. cbn [omap list_omap].
  fold (omap TotalGoals ms). rewrite IH.
  destruct (decide (both_present m)) as [Hm|Hm].
  - by rewrite (present_total m Hm).
  - destruct (TotalGoals m) eqn:Ht; [|done].
    destruct Hm. apply both_present_total. by rewrite Ht.
Qed.

Lemma clean_total_cells ms :
  (λ im : nat * Match, num_cell (TotalGoals im.2)) <$> clean ms = Num <$> omap TotalGoals ms.
Proof.
  rewrite omap_total, <- clean_snd, <- !list_fmap_compose.
  apply list_fmap_ext. intros ? [i m] Him. cbn.
  apply list_elem_of_lookup_2 in Him. apply elem_of_clean in Him as [_ Hm].
  by rewrite (present_total m Hm).
Qed.

Lemma top_perm ms : (length (clean ms) ≤ 10)%nat → top ms ≡ₚ clean ms.
Proof.
  intros H. unfold top. rewrite decide_True by done.
  rewrite take_ge by (by rewrite quicksort_desc_length). apply quicksort_desc_perm.
Qed.

Lemma top_stable ms :
  (10 < length (clean ms))%nat → top ms = take 10 (sort_desc (λ im, goals im.2) (clean ms)).
Proof. intros H. unfold top. by rewrite decide_False by lia. Qed.

Lemma top_clean ms x : x ∈ top ms → x ∈ clean ms.
Proof.
  unfold top. intros Hx. apply (subseteq_take 10) in Hx.
  destruct (decide (length (clean ms) ≤ 10)%nat);
    [by rewrite quicksort_desc_perm in Hx|by rewrite sort_desc_perm in Hx].
Qed.

Lemma top_length ms : length (top ms) = (10 `min` length (clean ms))%nat.
Proof.
  unfold top. rewrite length_take.
  by destruct (decide (length (clean ms) ≤ 10)%nat);
    [rewrite quicksort_desc_length|rewrite sort_desc_length].
Qed.

Lemma top_sorted ms :
  StronglySorted (λ a b : nat * Match, goals b.2 ≤ goals a.2) (top ms).
Proof.
  unfold top. apply StronglySorted_take.
  destruct (decide (length (clean ms) ≤ 10)%nat);
    [apply (quicksort_desc_sorted (λ im : nat * Match, goals im.2))
    |apply (sort_desc_sorted (λ im : nat * Match, goals im.2))].
Qed.

Lemma top_rows_in_order ms :
  (10 < length (clean ms))%nat →
  StronglySorted (before (λ im : nat * Match, goals im.2) (λ a b, (a.1 < b.1)%nat)) (top ms).
Proof.
  intros H. rewrite top_stable by done.
  apply StronglySorted_take, sort_desc_stable, clean_sorted.
Qed.

(** A chart of counts is no histogram, pie or table. *)
Lemma series_chart_other {B} (f : event → option B) s title :
  (∀ fig, f (st_plotly_chart (px_bar fig title)) = None) →
  omap f (series_chart s title) = [].
Proof. intros Hf. destruct s; cbn; [done|]. by rewrite Hf. Qed.

Lemma omap_present {A} (f : A → option Z) (l : list A) :
  Forall (λ x, is_Some (f x)) l → omap f l = (λ x, default 0 (f x)) <$> l.
Proof.
  induction 1 as [|x l [z Hz] Hl IH]; [done|].
  cbn [omap list_omap]. rewrite fmap_cons. cbn beta. by rewrite IH, Hz.
Qed.

Lemma filter_present (ms : list Match) : Forall both_present (filter both_present ms).
Proof.
  apply list.Forall_forall. intros m Hm. by apply list_elem_of_filter in Hm as [? _].
Qed.

Lemma home_goals_eq ms : home_goals ms = Zsum (omap HomeTeamGoals (filter both_present ms)).
Proof.
  unfold home_goals. rewrite omap_present, <- clean_snd, <- list_fmap_compose; [done|].
  eapply Forall_impl; [apply filter_present|]. by intros m [? _].
Qed.

Lemma away_goals_eq ms : away_goals ms = Zsum (omap AwayTeamGoals (filter both_present ms)).
Proof.
  unfold away_goals. rewrite omap_present, <- clean_snd, <- list_fmap_compose; [done|].
  eapply Forall_impl; [apply filter_present|]. by intros m [_ ?].
Qed.

Lemma goals_split (l : list Match) :
  Forall both_present l →
  Zsum (goals <$> l) =
    Zsum ((λ m, default 0 (HomeTeamGoals m)) <$> l) + Zsum ((λ m, default 0 (AwayTeamGoals m)) <$> l).
Proof.
  induction 1 as [|m l Hm Hl IH]; [done|].
  rewrite !fmap_cons. unfold Zsum in *. cbn [foldr]. rewrite IH.
  unfold goals, TotalGoals. destruct Hm as [[h ->] [a ->]]. cbn. lia.
Qed.


Lemma total_goals_sum ms :
  Zsum ((λ im : nat * Match, cell_Z (cell_at 6 (scored_cells im.2))) <$> clean ms) =
    Zsum (omap TotalGoals ms).
Proof.
  rewrite omap_total, <- clean_snd, <- list_fmap_compose. f_equal.
  apply list_fmap_ext. intros ? [i m] _. cbn [snd compose].
  change (cell_at 6 (scored_cells m)) with (num_cell (TotalGoals m)).
  apply cell_Z_num_cell.
Qed.

(** C4.  For goal counts within the range of exact arithmetic: the two
    values of the home/away pie chart are the sums of HomeTeamGoals and of
    AwayTeamGoals over the rows with both counts present, and together
    they equal the sum of the Total Goals column that the script adds to
    [matches_clean], which is the sum of TotalGoals over those rows. *)
Theorem home_away_goal_totals ts ms ps (Hexact : in_exact_range (goal_counts ms)) :
  omap pie_values (log (show_match_stats 1 (loaded ts ms ps)).2) =
    [[home_goals ms; away_goals ms]] ∧
  home_goals ms = Zsum (omap HomeTeamGoals (filter both_present ms)) ∧
  away_goals ms = Zsum (omap AwayTeamGoals (filter both_present ms)) ∧
  (∃ matches_clean total,
     heap (show_match_stats 1 (loaded ts ms ps)).2 !! 3%nat = Some matches_clean ∧
     getitem matches_clean "Total Goals" = Ok total ∧
     Series_sum total = Ok (home_goals ms + away_goals ms)) ∧
  home_goals ms + away_goals ms = Zsum (omap TotalGoals ms).
Proof.
  assert (home_goals ms + away_goals ms = Zsum (omap TotalGoals ms)) as Hsum.
  { rewrite omap_total, goals_split by apply filter_present.
    unfold home_goals, away_goals. by rewrite <- clean_snd, <- !list_fmap_compose. }
  split_and!.
  - rewrite show_match_stats_loaded. cbn [snd log]. unfold match_stats_log.
    by rewrite omap_app, series_chart_other, app_nil_r by done.
  - apply home_goals_eq.
  - apply away_goals_eq.
  - rewrite show_match_stats_loaded. cbn [snd heap]. eexists _, _. split_and!.
    + reflexivity.
    + by apply (getitem_table _ _ "Total Goals").
    + by rewrite Series_sum_column_of, total_goals_sum, Hsum.
  - exact Hsum.
Qed.


(** *** Matches by stage *)

Lemma occurrences_fmap {A} (f : A → cell) k (l : list A) :
  occurrences k (f <$> l) = length (filter (λ x, cell_eqb k (f x)) l).
Proof. unfold occurrences. by rewrite filter_fmap, length_fmap. Qed.

Lemma cell_eqb_str_cell k o :
  cell_eqb k (str_cell o) ↔ ∃ s, k = Str s ∧ o = Some s.
Proof.
  rewrite cell_eqb_eq. destruct o as [s|]; cbn.
  - split; [intros [-> _]; eauto|]. by intros (s' & -> & [= ->]).
  - split; [by intros [-> ?]|]. by intros (s' & _ & [=]).
Qed.

Lemma filter_str_cell {A} (f : A → option string) s (l : list A) :
  filter (λ x, cell_eqb (Str s) (str_cell (f x))) l = filter (λ x, f x = Some s) l.
Proof.
  apply list_filter_iff. intros x. cbn beta. rewrite cell_eqb_str_cell.
  split; [by intros (s' & [= ->] & ?)|eauto].
Qed.

(** The entries of [value_counts] on a column of strings. *)
Lemma value_counts_str {A} (f : A → option string) (l : list (nat * A)) k c :
  (k, c) ∈ value_counts (column_of object (λ a, str_cell (f a)) l) ↔
  ∃ s, k = Str s ∧ (0 < c)%nat ∧ c = length (filter (λ a, f a = Some s) l.*2).
Proof.
  destruct (value_counts_spec (column_of object (λ a, str_cell (f a)) l)) as (_ & _ & _ & H).
  rewrite H, values_column_of.
  replace ((λ ir : nat * A, str_cell (f ir.2)) <$> l)
    with ((λ a, str_cell (f a)) <$> l.*2) by (by rewrite <- list_fmap_compose).
  rewrite occurrences_fmap. split.
  - intros (Hk & Hc & ->).
    destruct (filter (λ x, cell_eqb k (str_cell (f x))) l.*2) as [|a r] eqn:Hf;
      [cbn in Hc; lia|].
    assert (a ∈ filter (λ x, cell_eqb k (str_cell (f x))) l.*2) as Ha
      by (rewrite Hf; by left).
    apply list_elem_of_filter in Ha as [Ha _].
    apply cell_eqb_str_cell in Ha as (s & -> & _).
    exists s. rewrite <- Hf. rewrite <- Hf in Hc. by rewrite filter_str_cell in *.
  - intros (s & -> & Hc & ->). by rewrite filter_str_cell.
Qed.

(** A column of strings has counts when one of its fields is present. *)
Lemma value_counts_nonempty {A} (f : A → option string) (l : list (nat * A)) :
  value_counts (column_of object (λ a, str_cell (f a)) l) ≠ [] ↔
  Exists (λ a, is_Some (f a)) l.*2.
Proof.
  split.
  - intros Hne.
    destruct (value_counts (column_of object (λ a, str_cell (f a)) l)) as [|[k c] r] eqn:E;
      [done|].
    assert ((k, c) ∈ value_counts (column_of object (λ a, str_cell (f a)) l)) as Hin
      by (rewrite E; left).
    apply value_counts_str in Hin as (s & -> & Hc & ->).
    destruct (filter (λ a, f a = Some s) l.*2) as [|a r'] eqn:Hf; [cbn in Hc; lia|].
    assert (a ∈ filter (λ a, f a = Some s) l.*2) as Ha by (rewrite Hf; left).
    apply list_elem_of_filter in Ha as [Hfa Ha]. apply Exists_exists.
    exists a. split; [done|]. by rewrite Hfa.
  - intros (a & Ha & [s Hs])%Exists_exists Hnil.
    assert ((Str s, length (filter (λ a, f a = Some s) l.*2)) ∈
              value_counts (column_of object (λ a, str_cell (f a)) l)) as Hin.
    { apply value_counts_str. exists s. split_and!; [done| |done].
      assert (a ∈ filter (λ a, f a = Some s) l.*2) as Hin
        by (by apply list_elem_of_filter).
      destruct (filter (λ a, f a = Some s) l.*2); [by apply elem_of_nil in Hin|cbn; lia]. }
    rewrite Hnil in Hin. by apply elem_of_nil in Hin.
Qed.

Lemma take_nil_iff {A} n (l : list A) : (0 < n)%nat → take n l = [] ↔ l = [].
Proof.
  intros Hn. split; [|intros ->; apply take_nil].
  intros [?|?]%take_nil_inv; [lia|done].
Qed.

Lemma Exists_filter {A} (P Q : A → Prop) `{!∀ x, Decision (Q x)} (l : list A) :
  Exists P (filter Q l) ↔ Exists (λ x, Q x ∧ P x) l.
Proof.
  rewrite !Exists_exists. split.
  - intros (x & [? ?]%list_elem_of_filter & ?). eauto.
  - intros (x & ? & ? & ?). exists x. split; [by apply list_elem_of_filter|done].
Qed.

Lemma stage_counts_nil ms : stage_counts ms = [] ↔ ¬ staged ms.
Proof.
  unfold stage_counts, Series_head, staged.
  pose proof (value_counts_nonempty Stage (clean ms)) as Hne.
  rewrite clean_snd, Exists_filter in Hne. rewrite <- Hne.
  destruct (value_counts (column_of object (λ m, str_cell (Stage m)) (clean ms)));
    cbn; split; try done.
  - intros _ H. by apply H.
  - intros H. by destruct H.
Qed.

(** The chart of a Series of counts, read back from the log. *)
Lemma bar_series_chart s title :
  omap (bar_series title) (series_chart s title) = match s with [] => [] | _ => [s] end.
Proof. destruct s; cbn; [done|]. by rewrite String.eqb_refl. Qed.

Lemma raises_ValueError_chart : raises_ValueError (series_chart_result []).
Proof. by eexists. Qed.

(** C1, amended.  The chart of matches by stage is drawn from the first
    ten entries of the stage counts of the rows in which both goal counts
    are present: one entry per stage that occurs in such a row, its count
    the number of such rows, entries by non-increasing count.  Rows with a
    missing goal count are not counted.  When no row with both goal counts
    has a stage there is nothing to draw: the chart call raises ValueError
    and the section ends there. *)
Theorem matches_by_stage ts ms ps :
  let full := value_counts (column_of object (λ m, str_cell (Stage m)) (clean ms)) in
  omap (bar_series "Number of Matches by Stage")
    (log (show_match_stats 1 (loaded ts ms ps)).2) =
    (if decide (staged ms) then [take 10 full] else []) ∧
  (if decide (staged ms) then (show_match_stats 1 (loaded ts ms ps)).1 = Ok tt
   else raises_ValueError (show_match_stats 1 (loaded ts ms ps)).1) ∧
  NoDup full.*1 ∧
  StronglySorted (λ a b : cell * nat, (b.2 ≤ a.2)%nat) full ∧
  (∀ k c, (k, c) ∈ full ↔
     ∃ s, k = Str s ∧ (0 < c)%nat ∧
          c = length (filter (λ m, both_present m ∧ Stage m = Some s) ms)).
Proof.
  cbn zeta.
  destruct (value_counts_spec (column_of object (λ m, str_cell (Stage m)) (clean ms)))
    as (Hnd & Hs & _ & _).
  pose proof (stage_counts_nil ms) as Hnil.
  rewrite show_match_stats_loaded. cbn [fst snd log]. unfold match_stats_log.
  rewrite omap_app, bar_series_chart. cbn [omap list_omap bar_series app].
  split_and!; [| |done|done|].
  - destruct (decide (staged ms)) as [Hst|Hst].
    + destruct (stage_counts ms) eqn:E; [by apply Hnil in Hst|]. by rewrite <- E.
    + by rewrite (proj2 Hnil Hst).
  - destruct (decide (staged ms)) as [Hst|Hst].
    + destruct (stage_counts ms) eqn:E; [by apply Hnil in Hst|done].
    + rewrite (proj2 Hnil Hst). apply raises_ValueError_chart.
  - intros k c. rewrite value_counts_str, clean_snd.
    assert (∀ s, filter (λ m, Stage m = Some s) (filter both_present ms) =
                 filter (λ m, both_present m ∧ Stage m = Some s) ms) as Hf.
    { intros s. rewrite list_filter_filter. apply list_filter_iff. intros m. tauto. }
    split; intros (s & -> & Hc & ->); exists s; by rewrite ?Hf in *.
Qed.

(** ** Player analysis *)

Lemma unique_length l : (length (unique l) ≤ length l)%nat.
Proof.
  induction l as [|x l IH]; cbn; [done|].
  pose proof (length_filter (λ y, negb (cell_eqb x y)) (unique l)). lia.
Qed.

Lemma unique_spec l :
  Forall notna l → NoDup (unique l) ∧ ∀ x, x ∈ unique l ↔ x ∈ l.
Proof.
  induction 1 as [|v l Hv Hl [IH1 IH2]]; cbn; [split; [constructor|done]|].
  assert (∀ x, x ∈ filter (λ y, negb (cell_eqb v y)) (unique l) ↔ x ≠ v ∧ x ∈ l) as Hf.
  { intros x. rewrite list_elem_of_filter, IH2, negb_True, cell_eqb_eq. split.
    - intros [Hne Hx]. split; [|done]. intros ->. by apply Hne.
    - intros [Hne Hx]. split; [|done]. intros [<- _]. by apply Hne. }
  split.
  - apply NoDup_cons. split; [|by apply NoDup_filter]. rewrite Hf. by intros [? _].
  - intros x. rewrite !elem_of_cons, Hf.
    destruct (decide (x = v)); [tauto|tauto].
Qed.

Lemma insert_key_perm x l : insert_key x l ≡ₚ x :: l.
Proof.
  induction l as [|y l IH]; [done|]. cbn. case_match; [done|].
  rewrite IH. apply Permutation_swap.
Qed.

Lemma sort_keys_perm l : sort_keys l ≡ₚ l.
Proof.
  induction l as [|x l IH]; [done|]. cbn. rewrite insert_key_perm. by constructor.
Qed.

Lemma groupby_nunique_table {A} cols (cells : A → list cell) key val kk dk kv dv
    (l : list (nat * A)) :
  column_index key cols = Some (kk, dk) →
  column_index val cols = Some (kv, dv) →
  groupby_nunique key val (table cols cells l) =
    Ok ((λ g, (g, length (unique (filter notna
            ((λ ir, cell_at kv (cells ir.2))
               <$> filter (λ ir, cell_eqb g (cell_at kk (cells ir.2))) l)))))
          <$> sort_keys (unique (filter notna ((λ ir, cell_at kk (cells ir.2)) <$> l)))).
Proof.
  intros Hk Hv. unfold groupby_nunique, table. cbn [columns rows]. rewrite Hk, Hv.
  cbn zeta. rewrite fmap_fmap. f_equal. apply list_fmap_ext. intros _ g _.
  by rewrite (filter_fmap (λ ir : nat * A, (ir.1, cells ir.2))), fmap_fmap.
Qed.

Lemma dropna_player_name l :
  dropna ["Player Name"] (table player_columns player_cells l) =
    Ok (table player_columns player_cells (filter (λ ip, named ip.2) l)).
Proof.
  erewrite dropna_table by reflexivity. do 2 f_equal.
  apply list_filter_iff. intros [i p]. unfold named. cbn.
  destruct (PlayerName p); cbn; split; try done; eauto.
Qed.

Lemma show_player_analysis_loaded ts ms ps :
  show_player_analysis 2 1 (loaded ts ms ps) =
    (player_analysis_result ps,
     mkState
       [WorldCups ts; WorldCupMatches ms; WorldCupPlayers ps;
        table player_columns player_cells (clean_players ps)]
       (player_analysis_log ps)).
Proof.
  unfold show_player_analysis, loaded, WorldCupPlayers.
  step ltac:(apply emit_run).
  step ltac:(eapply df_new_run; [reflexivity|apply dropna_player_name]).
  fold (clean_players ps).
  step ltac:(eapply df_getitem_run; [reflexivity|by apply (getitem_table _ _ "Position")]).
  change (Series_head 10 (value_counts
            (column_of object (λ a, cell_at 3 (player_cells a)) (clean_players ps))))
    with (position_counts_of ps).
  unfold player_analysis_result, player_analysis_log.
  destruct (position_counts_of ps) as [|e0 r0] eqn:E0.
  { erewrite bind_raise by reflexivity. reflexivity. }
  cbv beta iota. rewrite <- E0.
  step ltac:(apply plot_series_cons; by rewrite E0).
  step ltac:(eapply deref_run; reflexivity).
  step ltac:(rewrite lift_run;
             erewrite (groupby_nunique_table _ _ "Team Initials" "Player Name") by reflexivity;
             reflexivity).
  change (Series_head 20 (sort_values_desc _)) with (team_players ps).
  destruct (team_players ps) as [|e1 r1] eqn:E1.
  { erewrite bind_raise by reflexivity. reflexivity. }
  cbv beta iota. rewrite <- E1.
  step ltac:(apply plot_series_cons; by rewrite E1).
  step ltac:(apply emit_run).
  step ltac:(eapply df_getitem_run; [reflexivity|by apply (getitem_table _ _ "Coach Name")]).
  rewrite emit_run, E1. reflexivity.
Qed.

Lemma clean_players_snd ps : (clean_players ps).*2 = filter named ps.
Proof. unfold clean_players. by rewrite filter_snd, enumerate_snd. Qed.

Lemma elem_of_clean_players ps i p :
  (i, p) ∈ clean_players ps ↔ ps !! i = Some p ∧ named p.
Proof. unfold clean_players. rewrite list_elem_of_filter, elem_of_enumerate. cbn. tauto. Qed.

Lemma value_counts_values s s' : values s = values s' → value_counts s = value_counts s'.
Proof. unfold value_counts. by intros ->. Qed.

Lemma values_column_of_snd {A} d (f : A → cell) (l : list (nat * A)) :
  values (column_of d f l) = f <$> l.*2.
Proof. by rewrite values_column_of, fmap_fmap. Qed.

Lemma length_filter_mono {A} (P Q : A → Prop) `{!∀ x, Decision (P x)} `{!∀ x, Decision (Q x)}
    (l : list A) :
  (∀ x, P x → Q x) → (length (filter P l) ≤ length (filter Q l))%nat.
Proof.
  intros HPQ. induction l as [|x l IH]; [done|].
  rewrite !filter_cons. destruct (decide (P x)) as [HP|HP].
  - rewrite decide_True by auto. cbn. lia.
  - case_decide; cbn; lia.
Qed.

Lemma strings_of (U : list cell) :
  Forall (λ c, ∃ s, c = Str s) U → ∃ names : list string, U = Str <$> names.
Proof.
  induction 1 as [|c U [s ->] HU [names ->]]; [by exists []|]. by exists (s :: names).
Qed.

Lemma elem_of_Str x (names : list string) : Str x ∈ Str <$> names ↔ x ∈ names.
Proof.
  rewrite list_elem_of_fmap. split; [by intros (y & [= ->] & ?)|]. intros; by exists x.
Qed.

Lemma per_team_keys ps k :
  k ∈ (per_team ps).*1 ↔
  ∃ team, k = Str team ∧ ∃ p, p ∈ ps ∧ named p ∧ TeamInitials p = Some team.
Proof.
  unfold per_team. rewrite fmap_fmap. cbn [fst]. rewrite list_fmap_id.
  rewrite sort_keys_perm.
  rewrite (proj2 (unique_spec _ (filter_notna _))).
  rewrite list_elem_of_filter, list_elem_of_fmap. split.
  - intros (Hk & [i p] & -> & Hp). apply elem_of_clean_players in Hp as [Hp Hn].
    cbn [snd] in *. destruct (TeamInitials p) as [team|] eqn:Ht; [|done].
    exists team. split; [done|]. exists p. split_and!; [|done|done].
    by eapply list_elem_of_lookup_2.
  - intros (team & -> & p & Hp & Hn & Ht). split; [done|].
    apply list_elem_of_lookup_1 in Hp as [i Hi]. exists (i, p). cbn [snd].
    rewrite Ht. split; [done|]. by apply elem_of_clean_players.
Qed.

Lemma per_team_nodup ps : NoDup (per_team ps).*1.
Proof.
  unfold per_team. rewrite fmap_fmap. cbn [fst]. rewrite list_fmap_id.
  rewrite sort_keys_perm. apply unique_spec, filter_notna.
Qed.

Lemma per_team_elem ps k c :
  (k, c) ∈ per_team ps ↔
  ∃ team, k = Str team ∧ c = length (team_names team ps) ∧
          ∃ p, p ∈ ps ∧ named p ∧ TeamInitials p = Some team.
Proof.
  split.
  - intros Hin. assert (k ∈ (per_team ps).*1) as Hk.
    { apply list_elem_of_fmap. by exists (k, c). }
    apply per_team_keys in Hk as (team & -> & Hp). exists team. split_and!; [done| |done].
    unfold per_team in Hin. apply list_elem_of_fmap in Hin as (g & [= <- ->] & _). done.
  - intros (team & -> & -> & Hp).
    assert (Str team ∈ (per_team ps).*1) as Hk by (apply per_team_keys; eauto).
    unfold per_team in Hk |- *. rewrite fmap_fmap in Hk. cbn [fst] in Hk.
    rewrite list_fmap_id in Hk. apply list_elem_of_fmap. by exists (Str team).
Qed.

Lemma team_names_spec team ps :
  ∃ names : list string,
    team_names team ps = Str <$> names ∧ NoDup names ∧
    ∀ x, x ∈ names ↔ ∃ p, p ∈ ps ∧ TeamInitials p = Some team ∧ PlayerName p = Some x.
Proof.
  unfold team_names.
  set (cs := (λ ip : nat * PlayerAppearance, str_cell (PlayerName ip.2))
               <$> filter (λ ip, cell_eqb (Str team) (str_cell (TeamInitials ip.2)))
                     (clean_players ps)).
  destruct (unique_spec (filter notna cs) (filter_notna cs)) as [Hnd Hin].
  assert (∀ c, c ∈ unique (filter notna cs) ↔
               ∃ x, c = Str x ∧
                    ∃ p, p ∈ ps ∧ TeamInitials p = Some team ∧ PlayerName p = Some x) as Hc.
  { intros c. rewrite Hin, list_elem_of_filter. unfold cs. rewrite list_elem_of_fmap. split.
    - intros (Hna & [i p] & -> & Hp). apply list_elem_of_filter in Hp as [Ht Hp].
      apply elem_of_clean_players in Hp as [Hp _]. cbn [snd] in *.
      apply cell_eqb_str_cell in Ht as (s & [= <-] & Ht).
      destruct (PlayerName p) as [x|] eqn:Hx; [|done].
      exists x. split; [done|]. exists p. split_and!; [|done|done].
      by eapply list_elem_of_lookup_2.
    - intros (x & -> & p & Hp & Ht & Hx). split; [done|].
      apply list_elem_of_lookup_1 in Hp as [i Hi]. exists (i, p). cbn [snd].
      rewrite Hx. split; [done|]. apply list_elem_of_filter. cbn [snd]. split.
      + apply cell_eqb_str_cell. eauto.
      + apply elem_of_clean_players. split; [done|]. unfold named. by rewrite Hx. }
  destruct (strings_of (unique (filter notna cs))) as [names Hnames].
  { apply list.Forall_forall. intros c Hcin. apply Hc in Hcin as (x & -> & _). eauto. }
  exists names. rewrite Hnames in *. split_and!; [done|by eapply NoDup_fmap_1|].
  intros x. rewrite <- elem_of_Str, Hc. split.
  - by intros (x' & [= <-] & ?).
  - intros ?; eauto.
Qed.

Lemma team_names_length team ps :
  (length (team_names team ps) ≤ length (filter (λ p, TeamInitials p = Some team) ps))%nat.
Proof.
  unfold team_names. etrans; [apply unique_length|]. etrans; [apply length_filter|].
  rewrite length_fmap.
  trans (length (filter (λ p, cell_eqb (Str team) (str_cell (TeamInitials p)))
                   (clean_players ps).*2)).
  { by rewrite <- filter_snd, length_fmap. }
  rewrite clean_players_snd, filter_str_cell, list_filter_filter.
  apply length_filter_mono. tauto.
Qed.

(** When the charts of the player analysis have something to draw. *)
Lemma position_counts_nil ps : position_counts_of ps = [] ↔ ¬ positioned ps.
Proof.
  unfold position_counts_of, Series_head, positioned.
  pose proof (value_counts_nonempty Position (clean_players ps)) as Hne.
  rewrite clean_players_snd, Exists_filter in Hne. rewrite <- Hne.
  destruct (value_counts (column_of object (λ p, str_cell (Position p)) (clean_players ps)));
    cbn; split; try done.
  - intros _ H. by apply H.
  - intros H. by destruct H.
Qed.

Lemma per_team_nil ps : per_team ps = [] ↔ ¬ teamed ps.
Proof.
  unfold teamed. rewrite Exists_exists. split.
  - intros Hnil (p & Hp & Hn & [team Ht]).
    assert ((Str team, length (team_names team ps)) ∈ per_team ps) as Hin
      by (apply per_team_elem; eauto 10).
    rewrite Hnil in Hin. by apply elem_of_nil in Hin.
  - intros Hno. destruct (per_team ps) as [|[k c] r] eqn:E; [done|].
    assert ((k, c) ∈ per_team ps) as Hin by (rewrite E; left).
    apply per_team_elem in Hin as (team & _ & _ & p & Hp & Hn & Ht).
    destruct Hno. exists p. split_and!; [done|done|by rewrite Ht].
Qed.

Lemma team_players_nil ps : team_players ps = [] ↔ ¬ teamed ps.
Proof.
  rewrite <- per_team_nil. unfold team_players, Series_head, sort_values_desc.
  pose proof (quicksort_desc_perm count_key (per_team ps)) as Hperm.
  destruct (quicksort_desc count_key (per_team ps)) as [|e r].
  - apply Permutation_nil in Hperm. by rewrite Hperm.
  - cbn. split; [done|]. intros Hnil. rewrite Hnil in Hperm.
    by apply Permutation_nil_r in Hperm.
Qed.

(** The three outcomes of the player analysis. *)
Lemma player_analysis_drawn ps :
  positioned ps → teamed ps →
  player_analysis_result ps = Ok tt ∧
  player_analysis_log ps =
    [st_header "Player Analysis";
     st_plotly_chart (px_bar (of_series (position_counts_of ps))
                        "Most Common Player Positions");
     st_plotly_chart (px_bar (of_series (team_players ps))
                        "Number of Players by Team (Top 20)");
     st_subheader "Famous Coaches";
     st_dataframe_series (coach_counts ps)].
Proof.
  intros Hp Ht. unfold player_analysis_result, player_analysis_log.
  destruct (position_counts_of ps) eqn:E0; [by apply position_counts_nil in E0|].
  destruct (team_players ps) eqn:E1; [by apply team_players_nil in E1|]. done.
Qed.

Lemma player_analysis_no_teams ps :
  positioned ps → ¬ teamed ps →
  player_analysis_result ps = series_chart_result [] ∧
  player_analysis_log ps =
    [st_header "Player Analysis";
     st_plotly_chart (px_bar (of_series (position_counts_of ps))
                        "Most Common Player Positions")].
Proof.
  intros Hp Ht. unfold player_analysis_result, player_analysis_log.
  destruct (position_counts_of ps) eqn:E0; [by apply position_counts_nil in E0|].
  by rewrite (proj2 (team_players_nil ps) Ht).
Qed.

Lemma player_analysis_no_positions ps :
  ¬ positioned ps →
  player_analysis_result ps = series_chart_result [] ∧
  player_analysis_log ps = [st_header "Player Analysis"].
Proof.
  intros Hp. unfold player_analysis_result, player_analysis_log.
  by rewrite (proj2 (position_counts_nil ps) Hp).
Qed.

(** What the later parts of the player analysis render. *)
Lemma player_analysis_later {B} (f : event → option B) ps :
  f (st_header "Player Analysis") = None →
  (∀ s, f (st_plotly_chart (px_bar (of_series s) "Most Common Player Positions")) = None) →
  omap f (player_analysis_log ps) =
    if decide (positioned ps ∧ teamed ps)
    then omap f [st_plotly_chart (px_bar (of_series (team_players ps))
                                    "Number of Players by Team (Top 20)");
                 st_subheader "Famous Coaches";
                 st_dataframe_series (coach_counts ps)]
    else [].
Proof.
  intros Hh Hc. destruct (decide (positioned ps ∧ teamed ps)) as [[Hp Ht]|Hno].
  - destruct (player_analysis_drawn ps Hp Ht) as [_ ->].
    cbn [omap list_omap]. by rewrite Hh, Hc.
  - destruct (decide (positioned ps)) as [Hp|Hp].
    + destruct (player_analysis_no_teams ps Hp) as [_ ->]; [tauto|].
      cbn [omap list_omap]. by rewrite Hh, Hc.
    + destruct (player_analysis_no_positions ps Hp) as [_ ->].
      cbn [omap list_omap]. by rewrite Hh.
Qed.

Lemma positioned_unnamed ps1 ps2 team coach pos :
  positioned (ps1 ++ mkPlayerAppearance team coach None pos :: ps2) ↔ positioned (ps1 ++ ps2).
Proof.
  unfold positioned. rewrite !Exists_app, Exists_cons. unfold named. cbn.
  split; [|tauto]. intros [?|[[[? [=]] _]|?]]; tauto.
Qed.

Lemma teamed_unnamed ps1 ps2 team coach pos :
  teamed (ps1 ++ mkPlayerAppearance team coach None pos :: ps2) ↔ teamed (ps1 ++ ps2).
Proof.
  unfold teamed. rewrite !Exists_app, Exists_cons. unfold named. cbn.
  split; [|tauto]. intros [?|[[[? [=]] _]|?]]; tauto.
Qed.

(** C10.  The table of coaches counts rows of [players_clean] only: a
    coach's count is the number of rows that have a player name and name
    that coach, and a row without a player name changes nothing in the
    table, whatever coach it names.  The table is shown after the two
    charts of the section, that is when some row with a player name has a
    position and some such row has a team. *)
Theorem top_coaches ts ms ps :
  let full :=
    value_counts (column_of object (λ p, str_cell (CoachName p)) (clean_players ps)) in
  omap shown_series (log (show_player_analysis 2 1 (loaded ts ms ps)).2) =
    (if decide (positioned ps ∧ teamed ps) then [take 10 full] else []) ∧
  (∀ k c, (k, c) ∈ full ↔
     ∃ s, k = Str s ∧ (0 < c)%nat ∧
          c = length (filter (λ p, named p ∧ CoachName p = Some s) ps)) ∧
  (∀ ps1 ps2 team coach pos,
     omap shown_series
       (log (show_player_analysis 2 1
               (loaded ts ms (ps1 ++ mkPlayerAppearance team coach None pos :: ps2))).2) =
     omap shown_series (log (show_player_analysis 2 1 (loaded ts ms (ps1 ++ ps2))).2)).
Proof.
  cbn zeta.
  assert (∀ ps', omap shown_series (log (show_player_analysis 2 1 (loaded ts ms ps')).2) =
                   if decide (positioned ps' ∧ teamed ps') then [coach_counts ps'] else [])
    as Hshown.
  { intros ps'. rewrite show_player_analysis_loaded. cbn [snd log].
    rewrite player_analysis_later by done. by destruct (decide _). }
  split_and!.
  - apply Hshown.
  - intros k c. rewrite value_counts_str, clean_players_snd.
    assert (∀ s, filter (λ p, CoachName p = Some s) (filter named ps) =
                 filter (λ p, named p ∧ CoachName p = Some s) ps) as Hf.
    { intros s. rewrite list_filter_filter. apply list_filter_iff. intros p. tauto. }
    split; intros (s & -> & Hc & ->); exists s; by rewrite ?Hf in *.
  - intros ps1 ps2 team coach pos. rewrite !Hshown.
    assert (coach_counts (ps1 ++ mkPlayerAppearance team coach None pos :: ps2) =
            coach_counts (ps1 ++ ps2)) as ->.
    { unfold coach_counts. f_equal. apply value_counts_values.
      rewrite !values_column_of_snd, !clean_players_snd. f_equal.
      rewrite !filter_app, filter_cons. rewrite decide_False; [done|].
      unfold named. cbn. by intros [? [=]]. }
    destruct (decide (positioned (ps1 ++ ps2) ∧ teamed (ps1 ++ ps2))) as [H|H].
    + rewrite decide_True; [done|]. by rewrite positioned_unnamed, teamed_unnamed.
    + rewrite decide_False; [done|]. by rewrite positioned_unnamed, teamed_unnamed.
Qed.


(** ** Winners *)

Lemma dt_column_of {A} d (f : A → cell) (l : list (nat * A)) : dt (column_of d f l) = d.
Proof. done. Qed.

Lemma reset_index_table name d cs :
  reset_index name d cs =
    table [(name, d); ("count", numeric)] (λ e, [e.1; Num (Z.of_nat e.2)]) (enumerate cs).
Proof. done. Qed.

Lemma set_columns_table {A} cols (cells : A → list cell) (l : list (nat * A)) names :
  length names = length cols →
  set_columns (table cols cells l) names = Ok (table (zip names cols.*2) cells l).
Proof. intros H. unfold set_columns. cbn [columns table]. by rewrite decide_True. Qed.

Lemma str_join_ok sep (l : list cell) :
  Forall (λ c, ∃ s, c = Str s) l → ∃ r, str_join sep l = Ok r.
Proof.
  induction 1 as [|c l [s ->] Hl [r IH]]; [by exists ""|].
  destruct l as [|c' l]; [by exists s|].
  exists (String.append s (String.append sep r)).
  change (str_join sep (Str s :: c' :: l))
    with (rbind (str_join sep (c' :: l)) (λ r, Ok (String.append s (String.append sep r)))).
  by rewrite IH.
Qed.

Lemma show_winners_loaded ts ms ps :
  ∃ names,
    show_winners 0 (loaded ts ms ps) =
      (Ok tt,
       mkState
         [WorldCups ts; WorldCupMatches ms; WorldCupPlayers ps;
          table wins_columns wins_cells (winner_counts ts);
          table wins_columns wins_cells (take 10 (winner_counts ts));
          table tournament_columns tournament_cells (host_winners ts)]
         [st_header "World Cup Winners";
          st_plotly_chart
            (px_bar (of_frame (table wins_columns wins_cells (take 10 (winner_counts ts)))
                       "Country" "Wins")
               "Most Successful Countries in World Cup History");
          st_subheader "Winners Timeline";
          st_plotly_chart
            (px_scatter (WorldCups ts) "Year" "Winner" "World Cup Winners Over Time");
          st_subheader "Host Countries Performance";
          st_write_hosts (length (host_winners ts)) names]).
Proof.
  destruct (str_join_ok ", "
              (values (column_of object (λ t, str_cell (Country t)) (host_winners ts))))
    as [names Hnames].
  { rewrite values_column_of. apply list.Forall_forall. intros c Hc.
    apply list_elem_of_fmap in Hc as ([i t] & -> & Hin).
    apply list_elem_of_filter in Hin as [Heq _]. cbn [snd] in *.
    apply cell_eqb_eq in Heq as [_ Hna]. destruct (Country t); [eauto|done]. }
  exists names. unfold show_winners, loaded, WorldCups.
  step ltac:(apply emit_run).
  step ltac:(eapply df_getitem_run; [reflexivity|by apply (getitem_table _ _ "Winner")]).
  rewrite dt_column_of.
  step ltac:(apply alloc_run).
  rewrite reset_index_table.
  step ltac:(eapply df_set_columns_run; [reflexivity|by apply set_columns_table]).
  step ltac:(eapply df_new_run; [reflexivity|cbv beta; by rewrite head_table]).
  step ltac:(eapply plot_frame_run; reflexivity).
  step ltac:(apply emit_run).
  step ltac:(eapply plot_frame_run; reflexivity).
  step ltac:(apply emit_run).
  step ltac:(eapply df_getitem_run; [reflexivity|by apply (getitem_table _ _ "Country")]).
  step ltac:(eapply df_getitem_run; [reflexivity|by apply (getitem_table _ _ "Winner")]).
  step ltac:(rewrite lift_run, Series_eq_column_of; reflexivity).
  step ltac:(eapply df_new_run;
             [reflexivity
             |apply (getitem_mask_table _ _
                       (λ t, cell_eqb (str_cell (Country t)) (str_cell (Winner t))))]).
  step ltac:(eapply df_len_run; reflexivity).
  rewrite len_table.
  step ltac:(eapply df_getitem_run; [reflexivity|by apply (getitem_table _ _ "Country")]).
  step ltac:(rewrite lift_run; f_equal; exact Hnames).
  by rewrite emit_run.
Qed.

(** ** Overview *)

Lemma Zsum_enumerate {A} (f : A → option Z) (l : list A) :
  Zsum ((λ ir : nat * A, cell_Z (num_cell (f ir.2))) <$> enumerate l) =
    Zsum ((λ a, default 0 (f a)) <$> l).
Proof.
  rewrite <- (enumerate_snd l) at 2. rewrite fmap_fmap. f_equal.
  apply list_fmap_ext. intros ? [i a] _. apply cell_Z_num_cell.
Qed.

(** [show_overview] renders its metric cards and then the table of recent
    tournaments, unless an attendance string cannot be converted. *)
Lemma show_overview_loaded ts ms ps :
  ∃ rest,
    log (show_overview 0 1 2 (loaded ts ms ps)).2 = overview_metrics ts ++ rest ∧
    ∀ label, omap (metric label) rest = [].
Proof.
  unfold show_overview, loaded, WorldCups.
  step ltac:(apply emit_run).
  step ltac:(eapply df_len_run; reflexivity).
  rewrite len_table, enumerate_length.
  step ltac:(apply emit_run).
  step ltac:(eapply df_getitem_run; [reflexivity|by apply (getitem_table _ _ "GoalsScored")]).
  step ltac:(rewrite lift_run, Series_sum_column_of; reflexivity).
  step ltac:(apply emit_run).
  step ltac:(eapply df_getitem_run; [reflexivity|by apply (getitem_table _ _ "MatchesPlayed")]).
  step ltac:(rewrite lift_run, Series_sum_column_of; reflexivity).
  step ltac:(apply emit_run).
  step ltac:(eapply df_getitem_run;
             [reflexivity|by apply (getitem_table _ _ "QualifiedTeams")]).
  step ltac:(rewrite lift_run, Series_sum_column_of; reflexivity).
  step ltac:(apply emit_run).
  step ltac:(apply emit_run).
  step ltac:(eapply df_new_run; [reflexivity|cbv beta; by rewrite tail_table]).
  step ltac:(eapply df_new_run;
             [reflexivity|cbv beta; by erewrite getitems_table by reflexivity]).
  step ltac:(eapply df_getitem_run; [reflexivity|by apply (getitem_table _ _ "Attendance")]).
  pose proof (Zsum_enumerate GoalsScored ts) as Hg.
  pose proof (Zsum_enumerate MatchesPlayed ts) as Hm.
  pose proof (Zsum_enumerate QualifiedTeams ts) as Hq.
  match goal with
  | |- context [normalize_attendance ?s] =>
      destruct (normalize_attendance s) as [normalized|e] eqn:E
  end.
  - step ltac:(rewrite lift_run; reflexivity).
    step ltac:(eapply df_setitem_run; reflexivity).
    step ltac:(eapply deref_run; reflexivity).
    rewrite emit_run. cbn [snd log]. eexists. split.
    + unfold overview_metrics. cbn [app]. rewrite <- Hg, <- Hm, <- Hq. reflexivity.
    + done.
  - erewrite bind_raise by (rewrite lift_run; reflexivity).
    cbn [snd log]. exists []. split; [|done].
    unfold overview_metrics. cbn [app]. rewrite <- Hg, <- Hm, <- Hq. reflexivity.
Qed.

Lemma total_count_sum (cs : CountSeries) :
  Zsum ((λ ie : nat * (cell * nat), cell_Z (Num (Z.of_nat ie.2.2))) <$> enumerate cs) =
    Z.of_nat (total_count cs).
Proof.
  trans (Zsum ((λ e : cell * nat, Z.of_nat e.2) <$> cs)).
  { rewrite <- (enumerate_snd cs) at 2. by rewrite fmap_fmap. }
  induction cs as [|e cs IH]; [done|].
  rewrite fmap_cons. unfold Zsum, total_count in *. cbn [foldr]. rewrite IH. lia.
Qed.

Lemma length_present {A} (f : A → option string) (l : list A) :
  Forall (λ a, is_Some (f a)) l →
  length (filter notna ((λ a, str_cell (f a)) <$> l)) = length l.
Proof.
  induction 1 as [|a l [w Hw] Hl IH]; [done|].
  rewrite fmap_cons, filter_cons, Hw. cbn [str_cell from_option notna].
  rewrite decide_True by done. cbn [length]. by rewrite IH.
Qed.

(** C5.  When every tournament has a winner, the values of the table of
    win counts (one row per winning country, with the number of
    tournaments it won) sum to the number of tournaments, which is the
    value of the Tournaments card of the overview. *)
Theorem win_counts_sum ts ms ps (Hwinner : Forall (λ t, is_Some (Winner t)) ts) :
  ∃ σ' wins,
    show_winners 0 (loaded ts ms ps) = (Ok tt, σ') ∧
    heap σ' !! 3%nat = Some (table wins_columns wins_cells (winner_counts ts)) ∧
    (∀ k c, (k, c) ∈ (winner_counts ts).*2 ↔
       ∃ s, k = Str s ∧ (0 < c)%nat ∧ c = length (filter (λ t, Winner t = Some s) ts)) ∧
    getitem (table wins_columns wins_cells (winner_counts ts)) "Wins" = Ok wins ∧
    Series_sum wins = Ok (Z.of_nat (len (WorldCups ts))) ∧
    omap (metric "Tournaments") (log (show_overview 0 1 2 (loaded ts ms ps)).2) =
      [Z.of_nat (len (WorldCups ts))].
Proof.
  destruct (show_winners_loaded ts ms ps) as [names Hrun].
  destruct (show_overview_loaded ts ms ps) as (rest & Hlog & Hrest).
  eexists _, _. split_and!.
  - exact Hrun.
  - done.
  - intros k c. unfold winner_counts. by rewrite enumerate_snd, value_counts_str, enumerate_snd.
  - by apply (getitem_table _ _ "Wins").
  - rewrite Series_sum_column_of. f_equal.
    unfold winner_counts, WorldCups. rewrite len_table, enumerate_length.
    etrans; [apply total_count_sum|]. f_equal.
    destruct (value_counts_spec
                (column_of object (λ t, str_cell (Winner t)) (enumerate ts)))
      as (_ & _ & -> & _).
    rewrite values_column_of_snd, enumerate_snd. by apply length_present.
  - rewrite Hlog, omap_app, Hrest. unfold WorldCups. by rewrite len_table, enumerate_length.
Qed.


(** ** Attendance normalization *)

Lemma remove_dots_idemp s : remove_dots (remove_dots s) = remove_dots s.
Proof.
  induction s as [|c s IH]; [done|]. cbn.
  destruct (Ascii.eqb c dot) eqn:E; [done|]. cbn. by rewrite E, IH.
Qed.

Lemma replace_dot_idemp c : replace_dot (replace_dot c) = replace_dot c.
Proof. destruct c; cbn; [done| |done]. by rewrite remove_dots_idemp. Qed.

(** C6, as worded, fails: the normalization of lines 119 and 154 maps the
    string "590.549" to the number 590549, and applied to that number it
    raises instead of returning it. *)
Lemma attendance_normalization_counterexample :
  normalize_attendance (mkSeries object [(0%nat, Str "590.549")]) =
    Ok (mkSeries numeric [(0%nat, Num 590549)]) ∧
  normalize_attendance (mkSeries numeric [(0%nat, Num 590549)]) =
    Raise (AttributeError "Can only use .str accessor with string values!") ∧
  normalize_attendance (mkSeries numeric [(0%nat, Num 590549)]) ≠
    Ok (mkSeries numeric [(0%nat, Num 590549)]).
Proof. split_and!; [by vm_compute|by vm_compute|by vm_compute]. Qed.

(** C6, amended.  The normalization is defined on string columns only: an
    already numeric column is refused with AttributeError.  The stripping
    step is idempotent (stripping a stripped string column returns it
    unchanged), and normalizing the stripped strings gives the same result
    as normalizing the original ones; for instance "1.045.246" and
    "1045246" both give 1045246. *)
Theorem attendance_normalization (l : list (nat * cell)) :
  normalize_attendance (mkSeries numeric l) =
    Raise (AttributeError "Can only use .str accessor with string values!") ∧
  str_replace_dot (mkSeries object l) = Ok (stripped l) ∧
  str_replace_dot (stripped l) = Ok (stripped l) ∧
  normalize_attendance (stripped l) = normalize_attendance (mkSeries object l) ∧
  normalize_attendance (mkSeries object [(0%nat, Str "1.045.246")]) =
    Ok (mkSeries numeric [(0%nat, Num 1045246)]) ∧
  normalize_attendance (mkSeries object [(0%nat, Str "1045246")]) =
    Ok (mkSeries numeric [(0%nat, Num 1045246)]).
Proof.
  assert (str_replace_dot (stripped l) = Ok (stripped l)) as Hidem.
  { unfold str_replace_dot, stripped. cbn [dt items]. rewrite fmap_fmap. do 2 f_equal.
    apply list_fmap_ext. intros _ [i c] _. cbn [fst snd]. by rewrite replace_dot_idemp. }
  split_and!; [done|done|done| |by vm_compute|by vm_compute].
  unfold normalize_attendance. rewrite Hidem. done.
Qed.

(** * Further properties *)

(** ** Loading and dispatch *)

(** X1.  When the three files parse, [load_data] returns references to
    three new objects holding exactly the parsed tables, in the order
    tournaments, matches, players, and reports nothing. *)
Theorem load_data_success fs σ wc m p
    (Hwc : fs "WorldCups.csv" = Ok wc)
    (Hm : fs "WorldCupMatches.csv" = Ok m)
    (Hp : fs "WorldCupPlayers.csv" = Ok p) :
  ∃ r1 r2 r3 σ',
    load_data fs σ = (Ok (Some r1, Some r2, Some r3), σ') ∧
    heap σ' = heap σ ++ [wc; m; p] ∧
    heap σ' !! r1 = Some wc ∧ heap σ' !! r2 = Some m ∧ heap σ' !! r3 = Some p ∧
    log σ' = log σ.
Proof.
  exists (length (heap σ)), (S (length (heap σ))), (S (S (length (heap σ)))).
  eexists. split.
  - unfold load_data, try_except, bind, pd_read_csv, bind, lift, alloc, ret.
    rewrite Hwc. cbn. rewrite Hm. cbn. rewrite Hp. cbn.
    rewrite !length_app. cbn. rewrite <- !app_assoc. cbn.
    repeat f_equal; lia.
  - cbn. split_and!; [done| | | |done].
    + by rewrite lookup_app_r, Nat.sub_diag by done.
    + rewrite lookup_app_r by lia. by replace (S _ - _)%nat with 1%nat by lia.
    + rewrite lookup_app_r by lia. by replace (S _ - _)%nat with 2%nat by lia.
Qed.

Lemma load_data_success_witness :
  let fs := files [] [] [] in
  fs "WorldCups.csv" = Ok (WorldCups []) ∧
  fs "WorldCupMatches.csv" = Ok (WorldCupMatches []) ∧
  fs "WorldCupPlayers.csv" = Ok (WorldCupPlayers []) ∧
  ∃ r1 r2 r3 σ',
    load_data fs (mkState [] []) = (Ok (Some r1, Some r2, Some r3), σ') ∧
    heap σ' = [] ++ [WorldCups []; WorldCupMatches []; WorldCupPlayers []] ∧
    heap σ' !! r1 = Some (WorldCups []) ∧ heap σ' !! r2 = Some (WorldCupMatches []) ∧
    heap σ' !! r3 = Some (WorldCupPlayers []) ∧
    log σ' = [].
Proof.
  cbn zeta. split_and!; [reflexivity|reflexivity|reflexivity|].
  exact (load_data_success (files [] [] []) (mkState [] []) _ _ _ eq_refl eq_refl eq_refl).
Defined.

(** X2.  When the three files parse, [main] renders its title and the
    sidebar and then does what the selected section does on the three
    loaded objects; a selection that names no section renders nothing
    more. *)
Theorem main_shows_selected_section fs page σ wc m p
    (Hwc : fs "WorldCups.csv" = Ok wc)
    (Hm : fs "WorldCupMatches.csv" = Ok m)
    (Hp : fs "WorldCupPlayers.csv" = Ok p) :
  let n := length (heap σ) in
  let σ0 :=
    mkState (heap σ ++ [wc; m; p])
      (log σ ++ [st_markdown "FIFA World Cup Dashboard";
                 st_sidebar_title "Navigation";
                 st_sidebar_radio "Choose a section:" sections]) in
  main fs page σ = show_page page n (S n) (S (S n)) σ0 ∧
  (page ∉ sections → main fs page σ = (Ok tt, σ0)).
Proof.
  cbn zeta.
  assert (main fs page σ =
          show_page page (length (heap σ)) (S (length (heap σ))) (S (S (length (heap σ))))
            (mkState (heap σ ++ [wc; m; p])
               (log σ ++ [st_markdown "FIFA World Cup Dashboard";
                          st_sidebar_title "Navigation";
                          st_sidebar_radio "Choose a section:" sections]))) as Hmain.
  { unfold main, load_data, try_except, bind, pd_read_csv, bind, lift, alloc, ret, emit.
    cbn. rewrite Hwc. cbn. rewrite Hm. cbn. rewrite Hp. cbn.
    rewrite !length_app. cbn. rewrite <- !app_assoc. cbn.
    rewrite !Nat.add_1_r. reflexivity. }
  split; [exact Hmain|]. intros Hpage. rewrite Hmain. unfold show_page, sections in *.
  repeat (case_match eqn:E;
          [apply String.eqb_eq in E; subst page; destruct Hpage;
           repeat first [by left|right]|clear E]).
  done.
Qed.


(** X3.  When a file fails to load, the message [load_data] reports is the
    exception of the first failing file in reading order, whatever the
    later files would do, and only the tables read before it have been
    created. *)
Theorem load_data_first_failure fs σ e read
    (Hfail : first_failure fs = Some (e, read)) :
  load_data fs σ =
    (Ok (None, None, None),
     mkState (heap σ ++ read)
       (log σ ++ [st_error (String.append "Error loading data: " (exn_str e))])).
Proof.
  unfold first_failure in Hfail.
  unfold load_data, try_except, bind, pd_read_csv, bind, lift, alloc, ret, emit.
  destruct (fs "WorldCups.csv") as [wc|e1]; cbn.
  2: { injection Hfail as <- <-. by rewrite app_nil_r. }
  destruct (fs "WorldCupMatches.csv") as [m|e2]; cbn.
  2: { by injection Hfail as <- <-. }
  destruct (fs "WorldCupPlayers.csv") as [p|e3]; cbn.
  2: { injection Hfail as <- <-. by rewrite <- app_assoc. }
  discriminate.
Qed.

Lemma load_data_first_failure_witness :
  let fs : string → result DataFrame :=
    λ path, if String.eqb path "WorldCups.csv" then Ok (WorldCups [])
            else Raise (OSError path) in
  first_failure fs = Some (OSError "WorldCupMatches.csv", [WorldCups []]) ∧
  load_data fs (mkState [] []) =
    (Ok (None, None, None),
     mkState ([] ++ [WorldCups []])
       ([] ++ [st_error (String.append "Error loading data: "
                           (exn_str (OSError "WorldCupMatches.csv")))])).
Proof.
  cbn zeta. split; [reflexivity|].
  apply (load_data_first_failure _ (mkState [] []) (OSError "WorldCupMatches.csv")
           [WorldCups []]).
  reflexivity.
Defined.

(** ** Overview *)

Lemma Zsum_omap {A} (f : A → option Z) (l : list A) :
  Zsum ((λ a, default 0 (f a)) <$> l) = Zsum (omap f l).
Proof.
  induction l as [|a l IH]; [done|].
  rewrite fmap_cons. cbn [omap list_omap]. unfold Zsum in *. cbn [foldr]. rewrite IH.
  by destruct (f a).
Qed.

Lemma recent_snd ts : (recent ts).*2 = drop (length ts - 5) ts.
Proof. unfold recent. by rewrite fmap_drop, enumerate_snd. Qed.

Lemma astype_float_parseable {A} (f : A → option string) (l : list (nat * A)) :
  Forall (λ ia, parseable (f ia.2)) l →
  astype_float_cells ((λ ia, (ia.1, replace_dot (str_cell (f ia.2)))) <$> l) =
    Ok ((λ ia, (ia.1, attendance_number (f ia.2))) <$> l).
Proof.
  induction 1 as [|[i a] l Ha Hl IH]; [done|].
  rewrite !fmap_cons. cbn [astype_float_cells fst snd] in *.
  unfold parseable, attendance_number in *. destruct (f a) as [s|]; cbn.
  - destruct Ha as (z & -> & _). rewrite IH. done.
  - rewrite IH. done.
Qed.

(** The conversion of an attendance column whose fields are all accepted. *)
Lemma normalize_parseable {A} (f : A → option string) (l : list (nat * A)) :
  Forall (λ ia, parseable (f ia.2)) l →
  normalize_attendance (column_of object (λ a, str_cell (f a)) l) =
    Ok (column_of numeric (λ a, attendance_number (f a)) l).
Proof.
  intros Hl. unfold normalize_attendance, str_replace_dot, astype_float, column_of.
  cbn [dt items rbind]. rewrite fmap_fmap. cbn [fst snd].
  by rewrite (astype_float_parseable f l Hl).
Qed.

Lemma Forall_snd {A} (P : A → Prop) (l : list (nat * A)) :
  Forall P l.*2 → Forall (λ ia, P ia.2) l.
Proof.
  induction l as [|[i a] l IH]; intros H; [constructor|].
  rewrite fmap_cons in H. apply Forall_cons in H as [Ha Hl]. constructor; auto.
Qed.

(** [show_overview] on the loaded tables: the metric cards, then the
    table of recent tournaments or the exception of the conversion. *)
Lemma show_overview_run ts ms ps :
  show_overview 0 1 2 (loaded ts ms ps) =
    match normalize_attendance (attendance_column (recent ts)) with
    | Ok s =>
        (Ok tt,
         mkState
           [WorldCups ts; WorldCupMatches ms; WorldCupPlayers ps;
            table tournament_columns tournament_cells (recent ts);
            setitem (table projected_columns projected_cells (recent ts)) "Attendance" s]
           (overview_metrics ts ++
            [st_dataframe
               (setitem (table projected_columns projected_cells (recent ts))
                  "Attendance" s)]))
    | Raise e =>
        (Raise e,
         mkState
           [WorldCups ts; WorldCupMatches ms; WorldCupPlayers ps;
            table tournament_columns tournament_cells (recent ts);
            table projected_columns projected_cells (recent ts)]
           (overview_metrics ts))
    end.
Proof.
  unfold show_overview, loaded, WorldCups.
  step ltac:(apply emit_run).
  step ltac:(eapply df_len_run; reflexivity).
  rewrite len_table, enumerate_length.
  step ltac:(apply emit_run).
  step ltac:(eapply df_getitem_run; [reflexivity|by apply (getitem_table _ _ "GoalsScored")]).
  step ltac:(rewrite lift_run, Series_sum_column_of; reflexivity).
  step ltac:(apply emit_run).
  step ltac:(eapply df_getitem_run; [reflexivity|by apply (getitem_table _ _ "MatchesPlayed")]).
  step ltac:(rewrite lift_run, Series_sum_column_of; reflexivity).
  step ltac:(apply emit_run).
  step ltac:(eapply df_getitem_run;
             [reflexivity|by apply (getitem_table _ _ "QualifiedTeams")]).
  step ltac:(rewrite lift_run, Series_sum_column_of; reflexivity).
  step ltac:(apply emit_run).
  step ltac:(apply emit_run).
  step ltac:(eapply (df_new_run _ _ _ _
                       (table tournament_columns tournament_cells (recent ts)));
             [reflexivity|cbv beta; by rewrite tail_table, enumerate_length]).
  step ltac:(eapply (df_new_run _ _ _ _
                       (table projected_columns projected_cells (recent ts)));
             [reflexivity|cbv beta; by erewrite getitems_table by reflexivity]).
  step ltac:(eapply (df_getitem_run _ _ _ _ (attendance_column (recent ts)));
             [reflexivity
             |exact (getitem_table projected_columns projected_cells "Attendance"
                       5%nat object (recent ts) eq_refl)]).
  pose proof (Zsum_enumerate GoalsScored ts) as Hg.
  pose proof (Zsum_enumerate MatchesPlayed ts) as Hm.
  pose proof (Zsum_enumerate QualifiedTeams ts) as Hq.
  destruct (normalize_attendance (attendance_column (recent ts))) as [s|e].
  - step ltac:(rewrite lift_run; reflexivity).
    step ltac:(eapply df_setitem_run; reflexivity).
    step ltac:(eapply deref_run; reflexivity).
    rewrite emit_run. tidy.
    unfold overview_metrics. cbn [app]. rewrite <- Hg, <- Hm, <- Hq. reflexivity.
  - erewrite bind_raise by (rewrite lift_run; reflexivity).
    unfold overview_metrics. rewrite <- Hg, <- Hm, <- Hq. reflexivity.
Qed.

Lemma setitem_recent s l :
  s = column_of numeric (λ t, attendance_number (Attendance t)) l →
  setitem (table projected_columns projected_cells l) "Attendance" s =
    table recent_columns recent_cells l.
Proof.
  intros ->.
  by rewrite (setitem_table_replace projected_columns projected_cells "Attendance"
                5 object numeric).
Qed.

(** X4.  For numbers within the range of exact arithmetic, the overview
    cards show the sums of GoalsScored, MatchesPlayed and QualifiedTeams
    over all tournaments, a missing value counting for nothing; they are
    rendered before the attendance column is converted, so they are there
    whether or not that conversion succeeds. *)
Theorem overview_totals ts ms ps
    (Hgoals : in_exact_range (omap GoalsScored ts))
    (Hmatches : in_exact_range (omap MatchesPlayed ts))
    (Hteams : in_exact_range (omap QualifiedTeams ts)) :
  omap (metric "Total Goals") (log (show_overview 0 1 2 (loaded ts ms ps)).2) =
    [Zsum (omap GoalsScored ts)] ∧
  omap (metric "Total Matches") (log (show_overview 0 1 2 (loaded ts ms ps)).2) =
    [Zsum (omap MatchesPlayed ts)] ∧
  omap (metric "Teams Participated") (log (show_overview 0 1 2 (loaded ts ms ps)).2) =
    [Zsum (omap QualifiedTeams ts)].
Proof.
  destruct (show_overview_loaded ts ms ps) as (rest & -> & Hrest).
  rewrite !omap_app, !Hrest. unfold overview_metrics.
  cbn [omap list_omap metric String.eqb Ascii.eqb Bool.eqb app].
  by rewrite !Zsum_omap.
Qed.

Lemma overview_totals_witness :
  let ts := [mkTournament (Some 1930) (Some "Uruguay") (Some "Uruguay") (Some "Argentina")
               (Some 70) (Some 13) (Some 18) (Some "590.549");
             mkTournament (Some 1934) (Some "Italy") (Some "Italy") (Some "Czechoslovakia")
               None (Some 16) (Some 17) (Some "unknown")] in
  in_exact_range (omap GoalsScored ts) ∧
  in_exact_range (omap MatchesPlayed ts) ∧
  in_exact_range (omap QualifiedTeams ts) ∧
  omap (metric "Total Goals") (log (show_overview 0 1 2 (loaded ts [] [])).2) =
    [Zsum (omap GoalsScored ts)] ∧
  omap (metric "Total Matches") (log (show_overview 0 1 2 (loaded ts [] [])).2) =
    [Zsum (omap MatchesPlayed ts)] ∧
  omap (metric "Teams Participated") (log (show_overview 0 1 2 (loaded ts [] [])).2) =
    [Zsum (omap QualifiedTeams ts)].
Proof.
  cbn zeta. split_and!; [by vm_compute..|];
    apply (overview_totals
             [mkTournament (Some 1930) (Some "Uruguay") (Some "Uruguay") (Some "Argentina")
                (Some 70) (Some 13) (Some 18) (Some "590.549");
              mkTournament (Some 1934) (Some "Italy") (Some "Italy") (Some "Czechoslovakia")
                None (Some 16) (Some 17) (Some "unknown")] [] []);
    by vm_compute.
Defined.

(** X5.  On a tournament table whose Attendance column is text (as pandas
    reads it when some field, such as 1.045.246, is not a plain number):
    when the attendance fields of the last five tournaments are missing
    or made of digits and separators that denote a number within the
    range float64 holds exactly, the overview returns
    normally and shows the last five tournaments of the table (all of
    them when there are fewer), in table order and under their row labels,
    with the columns Year, Country, Winner, Runners-Up, GoalsScored and
    Attendance, the attendance as a number.  Earlier tournaments do not
    matter. *)
Theorem overview_recent_tournaments ts ms ps
    (Hrecent : Forall (λ t, parseable (Attendance t)) (drop (length ts - 5) ts)) :
  (show_overview 0 1 2 (loaded ts ms ps)).1 = Ok tt ∧
  omap shown_frame (log (show_overview 0 1 2 (loaded ts ms ps)).2) =
    [table recent_columns recent_cells (recent ts)] ∧
  (recent ts).*2 = drop (length ts - 5) ts ∧
  length (recent ts) = (5 `min` length ts)%nat ∧
  (∀ i t, (i, t) ∈ recent ts → ts !! i = Some t).
Proof.
  rewrite show_overview_run. unfold attendance_column.
  rewrite normalize_parseable
    by (apply (Forall_snd (λ t, parseable (Attendance t))); by rewrite recent_snd).
  rewrite setitem_recent by done. cbn [fst snd log]. split_and!.
  - done.
  - by rewrite omap_app.
  - apply recent_snd.
  - unfold recent. rewrite length_drop, enumerate_length. lia.
  - intros i t Hin. apply elem_of_enumerate. unfold recent in Hin.
    by eapply subseteq_drop.
Qed.

Lemma overview_recent_tournaments_witness :
  let ts := [mkTournament (Some 1930) (Some "Uruguay") (Some "Uruguay") (Some "Argentina")
               (Some 70) (Some 13) (Some 18) (Some "590.549");
             mkTournament (Some 1934) (Some "Italy") (Some "Italy") (Some "Czechoslovakia")
               (Some 70) (Some 16) (Some 17) (Some "1.045.246")] in
  Forall (λ t, parseable (Attendance t)) (drop (length ts - 5) ts) ∧
  (show_overview 0 1 2 (loaded ts [] [])).1 = Ok tt ∧
  omap shown_frame (log (show_overview 0 1 2 (loaded ts [] [])).2) =
    [table recent_columns recent_cells (recent ts)] ∧
  (recent ts).*2 = drop (length ts - 5) ts ∧
  length (recent ts) = (5 `min` length ts)%nat ∧
  (∀ i t, (i, t) ∈ recent ts → ts !! i = Some t).
Proof.
  cbn zeta.
  assert (Forall (λ t, parseable (Attendance t))
            (drop (length
               [mkTournament (Some 1930) (Some "Uruguay") (Some "Uruguay") (Some "Argentina")
                  (Some 70) (Some 13) (Some 18) (Some "590.549");
                mkTournament (Some 1934) (Some "Italy") (Some "Italy") (Some "Czechoslovakia")
                  (Some 70) (Some 16) (Some 17) (Some "1.045.246")] - 5)
               [mkTournament (Some 1930) (Some "Uruguay") (Some "Uruguay") (Some "Argentina")
                  (Some 70) (Some 13) (Some 18) (Some "590.549");
                mkTournament (Some 1934) (Some "Italy") (Some "Italy") (Some "Czechoslovakia")
                  (Some 70) (Some 16) (Some 17) (Some "1.045.246")])) as H.
  { cbn. repeat constructor; cbn; by eexists. }
  split; [exact H|]. exact (overview_recent_tournaments _ [] [] H).
Defined.

Lemma foreign_letter_digit c : foreign_letter c = true → digit_of c = None.
Proof.
  destruct c as [b0 b1 b2 b3 b4 b5 b6 b7].
  destruct b0, b1, b2, b3, b4, b5, b6, b7; vm_compute; done.
Qed.

Lemma foreign_letter_dot c : foreign_letter c = true → Ascii.eqb c dot = false.
Proof.
  destruct c as [b0 b1 b2 b3 b4 b5 b6 b7].
  destruct b0, b1, b2, b3, b4, b5, b6, b7; vm_compute; done.
Qed.

Lemma digits_value_foreign s acc : has_foreign_letter s → digits_value acc s = None.
Proof.
  revert acc. induction s as [|c s IH]; intros acc; cbn; [done|].
  destruct (foreign_letter c) eqn:Hc; cbn.
  - intros _. by rewrite foreign_letter_digit.
  - intros Hs. destruct (digit_of c); [by apply IH|done].
Qed.

Lemma has_foreign_letter_remove_dots s :
  has_foreign_letter s → has_foreign_letter (remove_dots s).
Proof.
  induction s as [|c s IH]; cbn; [done|].
  destruct (foreign_letter c) eqn:Hc; cbn.
  - intros _. rewrite foreign_letter_dot by done. cbn. by rewrite Hc.
  - intros Hs. destruct (Ascii.eqb c dot); cbn; [by apply IH|].
    rewrite Hc. cbn. by apply IH.
Qed.

Lemma float_of_string_foreign s :
  has_foreign_letter s → float_of_string (remove_dots s) = None.
Proof.
  intros Hs%has_foreign_letter_remove_dots. unfold float_of_string.
  destruct (remove_dots s) eqn:E; [done|]. by apply digits_value_foreign.
Qed.

Lemma astype_float_unreadable {A} (f : A → option string) (l : list (nat * A)) :
  Exists (λ ia, unreadable (f ia.2)) l →
  astype_float_cells ((λ ia, (ia.1, replace_dot (str_cell (f ia.2)))) <$> l) =
    Raise (ValueError "could not convert string to float").
Proof.
  induction l as [|[i a] l IH]; intros H; [by apply Exists_nil in H|].
  rewrite fmap_cons. cbn [astype_float_cells fst snd].
  apply Exists_cons in H as [Ha|Hl].
  - cbn [snd] in Ha. unfold unreadable in Ha. destruct (f a) as [s|]; [|done]. cbn.
    by rewrite float_of_string_foreign.
  - rewrite (IH Hl). destruct (f a) as [s|]; cbn; [|done].
    by destruct (float_of_string (remove_dots s)).
Qed.

(** The conversion of an attendance column with a field that is no
    number. *)
Lemma normalize_unreadable {A} (f : A → option string) (l : list (nat * A)) :
  Exists (λ ia, unreadable (f ia.2)) l →
  normalize_attendance (column_of object (λ a, str_cell (f a)) l) =
    Raise (ValueError "could not convert string to float").
Proof.
  intros Hl. unfold normalize_attendance, str_replace_dot, astype_float, column_of.
  cbn [dt items rbind]. rewrite fmap_fmap. cbn [fst snd].
  by rewrite (astype_float_unreadable f l Hl).
Qed.

Lemma Exists_snd {A} (P : A → Prop) (l : list (nat * A)) :
  Exists P l.*2 → Exists (λ ia, P ia.2) l.
Proof.
  induction l as [|[i a] l IH]; intros H; [by apply Exists_nil in H|].
  rewrite fmap_cons in H. apply Exists_cons in H as [Ha|Hl]; [by left|right; auto].
Qed.



(** ** Goals and attendance *)

(** [show_goals_attendance] on the loaded tables: the three charts, or
    the exception of the conversion before any chart. *)
Lemma show_goals_attendance_run ts ms ps :
  show_goals_attendance 0 1 (loaded ts ms ps) =
    match normalize_attendance (attendance_column (enumerate ts)) with
    | Ok s =>
        (match px_sizes (setitem (WorldCups ts) "Attendance" s) "MatchesPlayed" with
         | Ok _ => Ok tt
         | Raise e => Raise e
         end,
         mkState
           [WorldCups ts; WorldCupMatches ms; WorldCupPlayers ps;
            setitem (WorldCups ts) "Attendance" s]
           ([st_header "Goals & Attendance Trends";
             st_plotly_chart
               (px_line (WorldCups ts) "Year" "GoalsScored" "Goals Scored Per Tournament");
             st_plotly_chart
               (px_line (setitem (WorldCups ts) "Attendance" s)
                  "Year" "Attendance" "Tournament Attendance Over Time");
             st_subheader "Goals vs Attendance Correlation"] ++
            match px_sizes (setitem (WorldCups ts) "Attendance" s) "MatchesPlayed" with
            | Ok _ =>
                [st_plotly_chart
                   (px_scatter (setitem (WorldCups ts) "Attendance" s)
                      "GoalsScored" "Attendance" "Relationship Between Goals and Attendance")]
            | Raise _ => []
            end))
    | Raise e =>
        (Raise e,
         mkState [WorldCups ts; WorldCupMatches ms; WorldCupPlayers ps; WorldCups ts]
           [st_header "Goals & Attendance Trends"])
    end.
Proof.
  unfold show_goals_attendance, loaded.
  step ltac:(apply emit_run).
  step ltac:(eapply (df_new_run _ _ _ _ (WorldCups ts)); reflexivity).
  step ltac:(eapply (df_getitem_run _ _ _ _ (attendance_column (enumerate ts)));
             [reflexivity
             |exact (getitem_table tournament_columns tournament_cells "Attendance"
                       7%nat object (enumerate ts) eq_refl)]).
  destruct (normalize_attendance (attendance_column (enumerate ts))) as [s|e].
  - step ltac:(rewrite lift_run; reflexivity).
    step ltac:(eapply df_setitem_run; reflexivity).
    step ltac:(eapply plot_frame_run; reflexivity).
    step ltac:(eapply plot_frame_run; reflexivity).
    step ltac:(apply emit_run).
    erewrite plot_sized_run by reflexivity. tidy.
    by destruct (px_sizes (setitem (WorldCups ts) "Attendance" s) "MatchesPlayed").
  - erewrite bind_raise by (rewrite lift_run; reflexivity). reflexivity.
Qed.

Lemma setitem_normalized ts :
  setitem (WorldCups ts) "Attendance"
      (column_of numeric (λ t, attendance_number (Attendance t)) (enumerate ts)) =
    table normalized_columns normalized_cells (enumerate ts).
Proof.
  unfold WorldCups.
  by rewrite (setitem_table_replace tournament_columns tournament_cells "Attendance"
                7 object numeric).
Qed.

Lemma px_sizes_normalized ts :
  Forall sized ts →
  px_sizes (table normalized_columns normalized_cells (enumerate ts)) "MatchesPlayed" = Ok tt.
Proof.
  intros Hs. unfold px_sizes. erewrite getitem_table by reflexivity. cbn [rbind].
  rewrite values_column_of_snd, enumerate_snd.
  assert (forallb valid_size ((λ t, cell_at 6 (normalized_cells t)) <$> ts) = true) as ->;
    [|done].
  induction Hs as [|t ts (z & Hz & Hpos) Hs IH]; [done|].
  rewrite fmap_cons. cbn [forallb]. rewrite IH.
  change (cell_at 6 (normalized_cells t)) with (num_cell (MatchesPlayed t)).
  rewrite Hz. cbn. apply Z.leb_le in Hpos. by rewrite Hpos.
Qed.

(** X7.  On a tournament table whose Attendance column is text: when
    every attendance field is missing or made of digits and separators
    that denote a number within the range float64 holds exactly, and every
    tournament has a number of matches that is not negative (it is the
    size of a marker), the goals and attendance section returns normally:
    the goals chart is drawn from the table as loaded, attendance still
    text, and the attendance chart and the scatter from a copy of all
    tournaments whose attendance is a number. *)
Theorem goals_attendance_charts ts ms ps
    (Hall : Forall (λ t, parseable (Attendance t)) ts)
    (Hsize : Forall sized ts) :
  (show_goals_attendance 0 1 (loaded ts ms ps)).1 = Ok tt ∧
  log (show_goals_attendance 0 1 (loaded ts ms ps)).2 = goals_attendance_log ts.
Proof.
  rewrite show_goals_attendance_run. unfold attendance_column.
  rewrite normalize_parseable
    by (apply (Forall_snd (λ t, parseable (Attendance t))); by rewrite enumerate_snd).
  by rewrite setitem_normalized, px_sizes_normalized.
Qed.

Lemma goals_attendance_charts_witness :
  let ts := [mkTournament (Some 1930) (Some "Uruguay") (Some "Uruguay") (Some "Argentina")
               (Some 70) (Some 13) (Some 18) (Some "590.549");
             mkTournament (Some 1934) (Some "Italy") (Some "Italy") (Some "Czechoslovakia")
               (Some 70) (Some 16) (Some 17) (Some "1.045.246")] in
  Forall (λ t, parseable (Attendance t)) ts ∧
  Forall sized ts ∧
  (show_goals_attendance 0 1 (loaded ts [] [])).1 = Ok tt ∧
  log (show_goals_attendance 0 1 (loaded ts [] [])).2 = goals_attendance_log ts.
Proof.
  cbn zeta.
  assert (Forall (λ t, parseable (Attendance t))
            [mkTournament (Some 1930) (Some "Uruguay") (Some "Uruguay") (Some "Argentina")
               (Some 70) (Some 13) (Some 18) (Some "590.549");
             mkTournament (Some 1934) (Some "Italy") (Some "Italy") (Some "Czechoslovakia")
               (Some 70) (Some 16) (Some 17) (Some "1.045.246")]) as H.
  { repeat constructor; cbn; by eexists. }
  assert (Forall sized
            [mkTournament (Some 1930) (Some "Uruguay") (Some "Uruguay") (Some "Argentina")
               (Some 70) (Some 13) (Some 18) (Some "590.549");
             mkTournament (Some 1934) (Some "Italy") (Some "Italy") (Some "Czechoslovakia")
               (Some 70) (Some 16) (Some 17) (Some "1.045.246")]) as H'.
  { repeat constructor; unfold sized; cbn; by eexists. }
  split_and!; [exact H|exact H'|..]; by apply (goals_attendance_charts _ [] [] H H').
Defined.

(** X8.  When the attendance of any tournament holds a letter that no
    number contains, the goals and attendance section raises ValueError
    having rendered its header only: no chart is drawn, the goals chart
    included, although that one does not use the attendance. *)
Theorem goals_attendance_conversion_error ts ms ps
    (Hbad : Exists (λ t, unreadable (Attendance t)) ts) :
  ∃ msg,
    (show_goals_attendance 0 1 (loaded ts ms ps)).1 = Raise (ValueError msg) ∧
    log (show_goals_attendance 0 1 (loaded ts ms ps)).2 =
      [st_header "Goals & Attendance Trends"].
Proof.
  exists "could not convert string to float".
  rewrite show_goals_attendance_run. unfold attendance_column.
  rewrite normalize_unreadable
    by (apply (Exists_snd (λ t, unreadable (Attendance t))); by rewrite enumerate_snd).
  by cbn.
Qed.

Lemma goals_attendance_conversion_error_witness :
  let ts := [mkTournament (Some 1930) (Some "Uruguay") (Some "Uruguay") (Some "Argentina")
               (Some 70) (Some 13) (Some 18) (Some "unknown");
             mkTournament (Some 1934) (Some "Italy") (Some "Italy") (Some "Czechoslovakia")
               (Some 70) (Some 16) (Some 17) (Some "363.000")] in
  Exists (λ t, unreadable (Attendance t)) ts ∧
  ∃ msg,
    (show_goals_attendance 0 1 (loaded ts [] [])).1 = Raise (ValueError msg) ∧
    log (show_goals_attendance 0 1 (loaded ts [] [])).2 =
      [st_header "Goals & Attendance Trends"].
Proof.
  cbn zeta.
  assert (Exists (λ t, unreadable (Attendance t))
            [mkTournament (Some 1930) (Some "Uruguay") (Some "Uruguay") (Some "Argentina")
               (Some 70) (Some 13) (Some 18) (Some "unknown");
             mkTournament (Some 1934) (Some "Italy") (Some "Italy") (Some "Czechoslovakia")
               (Some 70) (Some 16) (Some 17) (Some "363.000")]) as H.
  { left. by vm_compute. }
  split; [exact H|]. exact (goals_attendance_conversion_error _ [] [] H).
Defined.

(** ** Winners *)

Lemma cell_eqb_str_cells a b : cell_eqb (str_cell a) (str_cell b) ↔ is_Some a ∧ a = b.
Proof.
  rewrite cell_eqb_str_cell. split.
  - intros (s & Ha & ->). destruct a as [s'|]; [|done]. cbn in Ha.
    injection Ha as ->. eauto.
  - intros [[s ->] <-]. eauto.
Qed.

Lemma host_winners_snd ts : (host_winners ts).*2 = filter host_won ts.
Proof.
  unfold host_winners.
  rewrite (list_filter_iff _ (λ it : nat * Tournament, host_won it.2)).
  - by rewrite filter_snd, enumerate_snd.
  - intros [i t]. apply cell_eqb_str_cells.
Qed.

Lemma host_countries (l : list Tournament) :
  Forall host_won l → (λ t, str_cell (Country t)) <$> l = Str <$> omap Country l.
Proof.
  induction 1 as [|t l [[c Hc] _] Hl IH]; [done|].
  rewrite fmap_cons. cbn [omap list_omap]. rewrite Hc. cbn. by rewrite IH.
Qed.

Lemma filter_Forall {A} (P : A → Prop) `{!∀ x, Decision (P x)} (l : list A) :
  Forall P (filter P l).
Proof.
  apply list.Forall_forall. intros x Hx. by apply list_elem_of_filter in Hx as [? _].
Qed.

Lemma str_join_strings sep (l : list string) : str_join sep (Str <$> l) = Ok (join sep l).
Proof.
  induction l as [|s l IH]; [done|]. destruct l as [|s' l]; [done|].
  change (str_join sep (Str <$> s :: s' :: l))
    with (rbind (str_join sep (Str <$> s' :: l))
            (λ r, Ok (String.append s (String.append sep r)))).
  by rewrite IH.
Qed.

(** [show_winners] on the loaded tables. *)
Lemma show_winners_run ts ms ps :
  show_winners 0 (loaded ts ms ps) =
    (Ok tt,
     mkState
       [WorldCups ts; WorldCupMatches ms; WorldCupPlayers ps;
        table wins_columns wins_cells (winner_counts ts);
        table wins_columns wins_cells (take 10 (winner_counts ts));
        table tournament_columns tournament_cells (host_winners ts)]
       [st_header "World Cup Winners";
        st_plotly_chart
          (px_bar (of_frame (table wins_columns wins_cells (take 10 (winner_counts ts)))
                     "Country" "Wins")
             "Most Successful Countries in World Cup History");
        st_subheader "Winners Timeline";
        st_plotly_chart
          (px_scatter (WorldCups ts) "Year" "Winner" "World Cup Winners Over Time");
        st_subheader "Host Countries Performance";
        st_write_hosts (length (filter host_won ts))
          (join ", " (omap Country (filter host_won ts)))]).
Proof.
  assert (str_join ", "
            (values (column_of object (λ t, str_cell (Country t)) (host_winners ts))) =
          Ok (join ", " (omap Country (filter host_won ts)))) as Hnames.
  { rewrite values_column_of_snd, host_winners_snd, host_countries by apply filter_Forall.
    apply str_join_strings. }
  assert (length (host_winners ts) = length (filter host_won ts)) as Hlen.
  { by rewrite <- host_winners_snd, length_fmap. }
  unfold show_winners, loaded, WorldCups.
  step ltac:(apply emit_run).
  step ltac:(eapply df_getitem_run; [reflexivity|by apply (getitem_table _ _ "Winner")]).
  rewrite dt_column_of.
  step ltac:(apply alloc_run).
  rewrite reset_index_table.
  step ltac:(eapply df_set_columns_run; [reflexivity|by apply set_columns_table]).
  step ltac:(eapply df_new_run; [reflexivity|cbv beta; by rewrite head_table]).
  step ltac:(eapply plot_frame_run; reflexivity).
  step ltac:(apply emit_run).
  step ltac:(eapply plot_frame_run; reflexivity).
  step ltac:(apply emit_run).
  step ltac:(eapply df_getitem_run; [reflexivity|by apply (getitem_table _ _ "Country")]).
  step ltac:(eapply df_getitem_run; [reflexivity|by apply (getitem_table _ _ "Winner")]).
  step ltac:(rewrite lift_run, Series_eq_column_of; reflexivity).
  step ltac:(eapply df_new_run;
             [reflexivity
             |apply (getitem_mask_table _ _
                       (λ t, cell_eqb (str_cell (Country t)) (str_cell (Winner t))))]).
  step ltac:(eapply df_len_run; reflexivity).
  rewrite len_table.
  step ltac:(eapply df_getitem_run; [reflexivity|by apply (getitem_table _ _ "Country")]).
  step ltac:(rewrite lift_run; f_equal; exact Hnames).
  rewrite emit_run. tidy. fold (host_winners ts). by rewrite Hlen.
Qed.

(** X9.  The sentence on host countries gives the number of tournaments
    whose host country is present and equal to the winner, and the names
    of those countries joined by a comma and a blank, in table order, a
    country that won twice at home appearing twice.  A tournament whose
    country and winner are both missing is not counted, so joining the
    names cannot fail. *)
Theorem host_countries_written ts ms ps :
  omap written_hosts (log (show_winners 0 (loaded ts ms ps)).2) =
    [(length (filter host_won ts), join ", " (omap Country (filter host_won ts)))].
Proof. by rewrite show_winners_run. Qed.

Lemma length_notna_str {A} (f : A → option string) (l : list A) :
  length (filter notna ((λ a, str_cell (f a)) <$> l)) =
    length (filter (λ a, is_Some (f a)) l).
Proof.
  induction l as [|a l IH]; [done|].
  rewrite fmap_cons, !filter_cons. destruct (f a) as [s|]; cbn [str_cell from_option notna].
  - rewrite !decide_True by (done || eauto). cbn [length]. by rewrite IH.
  - rewrite decide_False by tauto. rewrite decide_False by (by intros [? [=]]). exact IH.
Qed.

(** X10.  The wins of the table of win counts sum to the number of
    tournaments that have a winner: a tournament whose winner is missing
    is counted for no country. *)
Theorem win_counts_total ts ms ps :
  heap (show_winners 0 (loaded ts ms ps)).2 !! 3%nat =
    Some (table wins_columns wins_cells (winner_counts ts)) ∧
  rbind (getitem (table wins_columns wins_cells (winner_counts ts)) "Wins") Series_sum =
    Ok (Z.of_nat (length (filter (λ t, is_Some (Winner t)) ts))).
Proof.
  split; [by rewrite show_winners_run|].
  rewrite (getitem_table _ _ "Wins" 1 numeric) by done. cbn [rbind].
  rewrite Series_sum_column_of. f_equal. unfold winner_counts.
  etrans; [apply total_count_sum|]. f_equal.
  destruct (value_counts_spec (column_of object (λ t, str_cell (Winner t)) (enumerate ts)))
    as (_ & _ & -> & _).
  rewrite values_column_of_snd, enumerate_snd. apply length_notna_str.
Qed.

Lemma enumerate_from_fst {A} n (l : list A) : (enumerate_from n l).*1 = seq n (length l).
Proof. revert n. induction l as [|x l IH]; intros n; cbn; [done|]. by rewrite IH. Qed.

Lemma StronglySorted_snd {A} (R : relation A) (l : list (nat * A)) :
  StronglySorted R l.*2 → StronglySorted (λ a b, R a.2 b.2) l.
Proof.
  induction l as [|[i a] l IH]; intros Hs; [constructor|].
  rewrite fmap_cons in Hs. apply StronglySorted_cons in Hs as [Ha Hs].
  constructor; [by apply IH|]. by apply Forall_snd.
Qed.

(** X11.  The chart of the most successful countries is drawn from the
    first ten rows of the table of win counts: at most ten rows, labelled
    0, 1, 2, ..., in order of non-increasing wins, each holding a country
    and the number of tournaments it won. *)
Theorem winners_chart ts ms ps :
  let shown := take 10 (winner_counts ts) in
  omap (bar_frame "Most Successful Countries in World Cup History")
    (log (show_winners 0 (loaded ts ms ps)).2) = [table wins_columns wins_cells shown] ∧
  length shown = (10 `min` length (winner_counts ts))%nat ∧
  shown.*1 = seq 0 (length shown) ∧
  StronglySorted (λ a b : nat * (cell * nat), (b.2.2 ≤ a.2.2)%nat) shown ∧
  (∀ i k c, (i, (k, c)) ∈ shown →
     ∃ s, k = Str s ∧ (0 < c)%nat ∧ c = length (filter (λ t, Winner t = Some s) ts)).
Proof.
  cbn zeta.
  destruct (value_counts_spec (column_of object (λ t, str_cell (Winner t)) (enumerate ts)))
    as (_ & Hsorted & _ & _).
  split_and!.
  - by rewrite show_winners_run.
  - apply length_take.
  - unfold winner_counts. rewrite length_take, enumerate_length. unfold enumerate.
    by rewrite fmap_take, enumerate_from_fst, take_seq.
  - apply StronglySorted_take.
    apply (StronglySorted_snd (λ a b : cell * nat, (b.2 ≤ a.2)%nat)).
    unfold winner_counts. by rewrite enumerate_snd.
  - intros i k c Hin. apply (subseteq_take 10) in Hin.
    assert ((k, c) ∈ (winner_counts ts).*2) as Hkc.
    { apply list_elem_of_fmap. by exists (i, (k, c)). }
    unfold winner_counts in Hkc.
    by rewrite enumerate_snd, value_counts_str, enumerate_snd in Hkc.
Qed.

(** ** Player positions *)

(** X12.  The chart of player positions is drawn from the first ten
    entries of the position counts of the rows that have a player name:
    one entry per position that occurs in such a row, its count the
    number of such rows, entries by non-increasing count.  Rows without a
    name and rows without a position are not counted.  When no row with a
    player name has a position there is nothing to draw: the chart call
    raises ValueError and the section ends after its header. *)
Theorem position_counts ts ms ps :
  let full :=
    value_counts (column_of object (λ p, str_cell (Position p)) (clean_players ps)) in
  (if decide (positioned ps)
   then omap (bar_series "Most Common Player Positions")
          (log (show_player_analysis 2 1 (loaded ts ms ps)).2) = [take 10 full]
   else raises_ValueError (show_player_analysis 2 1 (loaded ts ms ps)).1 ∧
        log (show_player_analysis 2 1 (loaded ts ms ps)).2 = [st_header "Player Analysis"]) ∧
  NoDup full.*1 ∧
  StronglySorted (λ a b : cell * nat, (b.2 ≤ a.2)%nat) full ∧
  (∀ k c, (k, c) ∈ full ↔
     ∃ s, k = Str s ∧ (0 < c)%nat ∧
          c = length (filter (λ p, named p ∧ Position p = Some s) ps)).
Proof.
  cbn zeta.
  destruct (value_counts_spec
              (column_of object (λ p, str_cell (Position p)) (clean_players ps)))
    as (Hnd & Hs & _ & _).
  split_and!; [|done|done|].
  - rewrite show_player_analysis_loaded. cbn [fst snd log].
    destruct (decide (positioned ps)) as [Hp|Hp].
    + destruct (decide (teamed ps)) as [Ht|Ht].
      * by destruct (player_analysis_drawn ps Hp Ht) as [_ ->].
      * by destruct (player_analysis_no_teams ps Hp Ht) as [_ ->].
    + destruct (player_analysis_no_positions ps Hp) as [-> ->].
      split; [apply raises_ValueError_chart|done].
  - intros k c. rewrite value_counts_str, clean_players_snd.
    assert (∀ s, filter (λ p, Position p = Some s) (filter named ps) =
                 filter (λ p, named p ∧ Position p = Some s) ps) as Hf.
    { intros s. rewrite list_filter_filter. apply list_filter_iff. intros p. tauto. }
    split; intros (s & -> & Hc & ->); exists s; by rewrite ?Hf in *.
Qed.

(** ** When a section returns normally *)

(** X13.  On tables of the three schemas, the match statistics return
    normally exactly when some match with both goal counts has a stage,
    and the player analysis exactly when some row with a player name has a
    position and some such row has a team; otherwise the chart that has
    nothing to draw raises ValueError.  Nothing else in these two sections
    can fail, whatever fields are missing. *)
Theorem sections_return_normally ts ms ps :
  (if decide (staged ms) then (show_match_stats 1 (loaded ts ms ps)).1 = Ok tt
   else raises_ValueError (show_match_stats 1 (loaded ts ms ps)).1) ∧
  (if decide (positioned ps ∧ teamed ps)
   then (show_player_analysis 2 1 (loaded ts ms ps)).1 = Ok tt
   else raises_ValueError (show_player_analysis 2 1 (loaded ts ms ps)).1).
Proof.
  split.
  - rewrite show_match_stats_loaded. cbn [fst].
    pose proof (stage_counts_nil ms) as Hnil.
    destruct (decide (staged ms)) as [Hst|Hst].
    + destruct (stage_counts ms) eqn:E; [by apply Hnil in Hst|done].
    + rewrite (proj2 Hnil Hst). apply raises_ValueError_chart.
  - rewrite show_player_analysis_loaded. cbn [fst].
    destruct (decide (positioned ps ∧ teamed ps)) as [[Hp Ht]|Hno].
    + by destruct (player_analysis_drawn ps Hp Ht) as [-> _].
    + destruct (decide (positioned ps)) as [Hp|Hp].
      * destruct (player_analysis_no_teams ps Hp) as [-> _]; [tauto|].
        apply raises_ValueError_chart.
      * destruct (player_analysis_no_positions ps Hp) as [-> _].
        apply raises_ValueError_chart.
Qed.

Lemma clean_nil ms : Forall (λ m, ¬ both_present m) ms → clean ms = [].
Proof.
  intros H. apply (fmap_nil_inv snd). rewrite clean_snd.
  induction H as [|m l Hm Hl IH]; [done|]. by rewrite filter_cons, decide_False.
Qed.

Lemma top_nil ms : clean ms = [] → top ms = [].
Proof.
  intros H. apply length_zero_iff_nil. by rewrite top_length, H.
Qed.

Lemma not_staged ms : Forall (λ m, ¬ both_present m) ms → ¬ staged ms.
Proof.
  intros H (m & Hm & Hb & _)%Exists_exists.
  by apply (proj1 (list.Forall_forall _ _) H m Hm).
Qed.

(** X14.  When no match has both goal counts, the match statistics show
    an empty table of highest scoring matches, a histogram of no value
    and a pie chart of two zeros, and then raise ValueError at the chart
    of stages, which has nothing to draw. *)
Theorem match_stats_without_scores ts ms ps
    (Hnone : Forall (λ m, ¬ both_present m) ms) :
  raises_ValueError (show_match_stats 1 (loaded ts ms ps)).1 ∧
  omap shown_frame (log (show_match_stats 1 (loaded ts ms ps)).2) =
    [mkDataFrame highest_columns []] ∧
  omap histogram_input (log (show_match_stats 1 (loaded ts ms ps)).2) = [Ok []] ∧
  omap pie_values (log (show_match_stats 1 (loaded ts ms ps)).2) = [[0; 0]] ∧
  omap (bar_series "Number of Matches by Stage")
    (log (show_match_stats 1 (loaded ts ms ps)).2) = [].
Proof.
  rewrite show_match_stats_loaded. cbn [fst snd log].
  unfold match_stats_log, home_goals, away_goals.
  rewrite (proj2 (stage_counts_nil ms) (not_staged ms Hnone)).
  rewrite (top_nil ms (clean_nil ms Hnone)), (clean_nil ms Hnone).
  split; [apply raises_ValueError_chart|]. by vm_compute.
Qed.

(** ** The store under [main] *)

Lemma keeps_load_data n fs : keeps n (load_data fs) any.
Proof.
  unfold load_data. apply keeps_try_except.
  - eapply keeps_bind; [apply keeps_pd_read_csv|intros ? ?].
    eapply keeps_bind; [apply keeps_pd_read_csv|intros ? ?].
    eapply keeps_bind; [apply keeps_pd_read_csv|intros ? ?].
    apply keeps_ret.
  - intros e. eapply keeps_bind; [apply keeps_emit|intros ? ?]. apply keeps_ret.
Qed.

Lemma keeps_main n fs page : keeps n (main fs page) any.
Proof.
  unfold main.
  eapply keeps_bind; [apply keeps_emit|intros ? ?].
  eapply keeps_bind; [apply keeps_load_data|intros [[[wc|] [m|]] [p|]] _];
    try apply keeps_emit.
  eapply keeps_bind; [apply keeps_emit|intros ? ?].
  eapply keeps_bind; [apply keeps_emit|intros ? ?].
  apply keeps_show_page.
Qed.

(** X15.  Whatever the files hold and whichever section is selected,
    [main] run from any store leaves every object that was there
    untouched and removes none, whether it returns or raises: it only
    adds objects. *)
Theorem main_keeps_store fs page σ :
  take (length (heap σ)) (heap (main fs page σ).2) = heap σ ∧
  (length (heap σ) ≤ length (heap (main fs page σ).2))%nat.
Proof.
  destruct (keeps_main (length (heap σ)) fs page σ) as (H1 & H2 & _); [done|].
  split; [|done]. by rewrite H1, take_ge.
Qed.

End Script.

(** * Runs on concrete tables

    The runs below take the stable sort for [quicksort_desc], except where
    another one is named. *)

#[local] Existing Instance stable_order.

Lemma load_failure_reported_witness :
  let fs : string → result DataFrame := λ _, Raise (OSError "No such file or directory") in
  ((∃ e, fs "WorldCups.csv" = Raise e) ∨
   (∃ e, fs "WorldCupMatches.csv" = Raise e) ∨
   (∃ e, fs "WorldCupPlayers.csv" = Raise e)) ∧
  ∃ e,
    (load_data fs (mkState [] [])).1 = Ok (None, None, None) ∧
    log (load_data fs (mkState [] [])).2 =
      [] ++ [st_error (String.append "Error loading data: " (exn_str e))] ∧
    (main fs "Overview" (mkState [] [])).1 = Ok tt ∧
    log (main fs "Overview" (mkState [] [])).2 =
      [] ++ [st_markdown "FIFA World Cup Dashboard";
             st_error (String.append "Error loading data: " (exn_str e));
             st_error "Failed to load data. Please check if CSV files are present."].
Proof.
  cbn zeta.
  assert ((∃ e, (λ _ : string, @Raise DataFrame (OSError "No such file or directory"))
                  "WorldCups.csv" = Raise e) ∨
          (∃ e, (λ _ : string, @Raise DataFrame (OSError "No such file or directory"))
                  "WorldCupMatches.csv" = Raise e) ∨
          (∃ e, (λ _ : string, @Raise DataFrame (OSError "No such file or directory"))
                  "WorldCupPlayers.csv" = Raise e)) as H.
  { left. exists (OSError "No such file or directory"). reflexivity. }
  split; [exact H|].
  exact (load_failure_reported _ "Overview" (mkState [] []) H).
Defined.

Lemma win_counts_sum_witness :
  let ts := [mkTournament (Some 1930) (Some "Uruguay") (Some "Uruguay") (Some "Argentina")
               (Some 70) (Some 13) (Some 18) (Some "590.549");
             mkTournament (Some 1934) (Some "Italy") (Some "Italy") (Some "Czechoslovakia")
               (Some 70) (Some 16) (Some 17) (Some "363.000")] in
  Forall (λ t, is_Some (Winner t)) ts ∧
  ∃ σ' wins,
    show_winners 0 (loaded ts [] []) = (Ok tt, σ') ∧
    heap σ' !! 3%nat = Some (table wins_columns wins_cells (winner_counts ts)) ∧
    (∀ k c, (k, c) ∈ (winner_counts ts).*2 ↔
       ∃ s, k = Str s ∧ (0 < c)%nat ∧ c = length (filter (λ t, Winner t = Some s) ts)) ∧
    getitem (table wins_columns wins_cells (winner_counts ts)) "Wins" = Ok wins ∧
    Series_sum wins = Ok (Z.of_nat (len (WorldCups ts))) ∧
    omap (metric "Tournaments") (log (show_overview 0 1 2 (loaded ts [] [])).2) =
      [Z.of_nat (len (WorldCups ts))].
Proof.
  cbn zeta.
  assert (Forall (λ t, is_Some (Winner t))
            [mkTournament (Some 1930) (Some "Uruguay") (Some "Uruguay") (Some "Argentina")
               (Some 70) (Some 13) (Some 18) (Some "590.549");
             mkTournament (Some 1934) (Some "Italy") (Some "Italy") (Some "Czechoslovakia")
               (Some 70) (Some 16) (Some 17) (Some "363.000")]) as H.
  { repeat constructor; by eexists. }
  split; [exact H|]. exact (win_counts_sum _ [] [] H).
Defined.

Lemma main_shows_selected_section_witness :
  let fs := files [] [] [] in
  let σ0 :=
    mkState ([] ++ [WorldCups []; WorldCupMatches []; WorldCupPlayers []])
      ([] ++ [st_markdown "FIFA World Cup Dashboard";
              st_sidebar_title "Navigation";
              st_sidebar_radio "Choose a section:" sections]) in
  fs "WorldCups.csv" = Ok (WorldCups []) ∧
  fs "WorldCupMatches.csv" = Ok (WorldCupMatches []) ∧
  fs "WorldCupPlayers.csv" = Ok (WorldCupPlayers []) ∧
  main fs "Match Statistics" (mkState [] []) = show_page "Match Statistics" 0 1 2 σ0 ∧
  ("Match Statistics" ∉ sections → main fs "Match Statistics" (mkState [] []) = (Ok tt, σ0)).
Proof.
  cbn zeta. split_and!; [reflexivity|reflexivity|reflexivity|..];
    apply (main_shows_selected_section (files [] [] []) "Match Statistics" (mkState [] [])
             _ _ _ eq_refl eq_refl eq_refl).
Defined.

(** C1, as worded, fails: of two finals, one with its home goal count
    missing, the script counts one, while grouping the whole table counts
    two. *)
Lemma matches_by_stage_counterexample :
  let ms := [mkMatch (Some 1930) (Some "Final") (Some "Uruguay") (Some 4) (Some 2)
               (Some "Argentina");
             mkMatch (Some 1934) (Some "Final") (Some "Italy") None (Some 1)
               (Some "Czechoslovakia")] in
  omap (bar_series "Number of Matches by Stage")
    (log (show_match_stats 1 (loaded [] ms [])).2) = [[(Str "Final", 1%nat)]] ∧
  MatchesByStage_entire ms = [(Str "Final", 2%nat)] ∧
  omap (bar_series "Number of Matches by Stage")
    (log (show_match_stats 1 (loaded [] ms [])).2) ≠ [MatchesByStage_entire ms].
Proof. cbn zeta. split_and!; [by vm_compute|by vm_compute|by vm_compute]. Qed.



Lemma home_away_goal_totals_witness :
  let ms := [mkMatch (Some 1930) (Some "Final") (Some "Uruguay") (Some 4) (Some 2)
               (Some "Argentina");
             mkMatch (Some 1934) (Some "Final") (Some "Italy") None (Some 1)
               (Some "Czechoslovakia")] in
  in_exact_range (goal_counts ms) ∧
  omap pie_values (log (show_match_stats 1 (loaded [] ms [])).2) =
    [[home_goals ms; away_goals ms]] ∧
  home_goals ms = Zsum (omap HomeTeamGoals (filter both_present ms)) ∧
  away_goals ms = Zsum (omap AwayTeamGoals (filter both_present ms)) ∧
  (∃ matches_clean total,
     heap (show_match_stats 1 (loaded [] ms [])).2 !! 3%nat = Some matches_clean ∧
     getitem matches_clean "Total Goals" = Ok total ∧
     Series_sum total = Ok (home_goals ms + away_goals ms)) ∧
  home_goals ms + away_goals ms = Zsum (omap TotalGoals ms).
Proof.
  cbn zeta.
  assert (in_exact_range
            (goal_counts
               [mkMatch (Some 1930) (Some "Final") (Some "Uruguay") (Some 4) (Some 2)
                  (Some "Argentina");
                mkMatch (Some 1934) (Some "Final") (Some "Italy") None (Some 1)
                  (Some "Czechoslovakia")])) as H by (by vm_compute).
  split; [exact H|]. exact (home_away_goal_totals [] _ [] H).
Defined.

Lemma match_stats_without_scores_witness :
  let ms := [mkMatch (Some 1934) (Some "Final") (Some "Italy") None (Some 1)
               (Some "Czechoslovakia");
             mkMatch (Some 1938) (Some "Final") (Some "Italy") None None (Some "Hungary")] in
  Forall (λ m, ¬ both_present m) ms ∧
  raises_ValueError (show_match_stats 1 (loaded [] ms [])).1 ∧
  omap shown_frame (log (show_match_stats 1 (loaded [] ms [])).2) =
    [mkDataFrame highest_columns []] ∧
  omap histogram_input (log (show_match_stats 1 (loaded [] ms [])).2) = [Ok []] ∧
  omap pie_values (log (show_match_stats 1 (loaded [] ms [])).2) = [[0; 0]] ∧
  omap (bar_series "Number of Matches by Stage")
    (log (show_match_stats 1 (loaded [] ms [])).2) = [].
Proof.
  cbn zeta.
  assert (Forall (λ m, ¬ both_present m)
            [mkMatch (Some 1934) (Some "Final") (Some "Italy") None (Some 1)
               (Some "Czechoslovakia");
             mkMatch (Some 1938) (Some "Final") (Some "Italy") None None (Some "Hungary")])
    as H.
  { repeat constructor; by intros [[? [=]] _]. }
  split; [exact H|]. exact (match_stats_without_scores [] _ [] H).
Defined.
